(** * Provisioning an AI Foundry agent with a Databricks OpenAPI tool

    A shallow embedding of the two provisioning scripts

    - [create_databricks_agent_with_managed_identity.py] (Mode A, module
      [ManagedIdentity])
    - [create_databricks_agent_with_pat.py] (Mode B, module [Pat])

    The development has two layers.

    - Part I is a small model of the Python object store: dictionaries and
      lists are objects addressed by reference, so that [dict.copy()] (a
      shallow copy) and the item assignments of
      [customize_openapi_spec_for_workspace] act on shared objects exactly
      as they do in the interpreter.
    - Part II models the remote collaborators (identity provider, workspace
      REST endpoint, management plane, agent platform, the spec file and
      the standard output) as calls issued by a program; a run against
      an arbitrary world yields the final world state, the trace of calls
      issued, and the value returned or the exception raised.  The [main]
      of each script is modelled from the parsed arguments on; the parsing
      itself is left to [argparse]. *)

From Stdlib Require Import ZArith NArith List String Ascii DecimalString Lia.
From stdpp Require Import base decidable list option numbers.
Import ListNotations.

Local Open Scope Z_scope.

(* ===================================================================== *)
(** * Part I: Python values and the object store                          *)
(* ===================================================================== *)

(** ** Strings

    A Python [str] is a sequence of Unicode code points. *)

Abbreviation pystr := (list N) (only parsing).

Definition str (s : string) : pystr := map N_of_ascii (list_ascii_of_string s).
Arguments str s%_string.

(** [str(n)] for an [int]: decimal digits, with a leading minus sign. *)
Definition str_of_int (n : Z) : pystr := str (NilZero.string_of_int (Z.to_int n)).

(** Whitespace as [str.isspace] and [str.strip] see it
    ([Py_UNICODE_ISSPACE]). *)
Definition py_isspace (c : N) : bool :=
  ((9 <=? c) && (c <=? 13) || (28 <=? c) && (c <=? 32)
   || (c =? 133) || (c =? 160) || (c =? 5760)
   || (8192 <=? c) && (c <=? 8202)
   || (c =? 8232) || (c =? 8233) || (c =? 8239) || (c =? 8287)
   || (c =? 12288))%N.

Fixpoint lstrip (s : pystr) : pystr :=
  match s with
  | c :: s' => if py_isspace c then lstrip s' else s
  | [] => []
  end.

Definition rstrip (s : pystr) : pystr := rev (lstrip (rev s)).

(** [s.strip()] *)
Definition strip (s : pystr) : pystr := rstrip (lstrip s).

(** Truth value of a string: it is not empty. *)
Definition str_truthy (s : pystr) : bool := negb (bool_decide (s = [])).

Fixpoint starts_with (p s : pystr) : bool :=
  match p, s with
  | [], _ => true
  | _ :: _, [] => false
  | a :: p', b :: s' => (a =? b)%N && starts_with p' s'
  end.

(** [p in s] for two strings: substring test. *)
Fixpoint str_contains (p s : pystr) : bool :=
  starts_with p s
  || match s with
     | [] => false
     | _ :: s' => str_contains p s'
     end.

(** ** JSON documents *)

Local Set Warnings "-register-all".

Inductive json : Type :=
| JNull
| JBool (b : bool)
| JInt (n : Z)
| JFloat (bits : Z)              (* an IEEE-754 double, by its bit pattern *)
| JStr (s : pystr)
| JArr (items : list json)
| JObj (members : list (pystr * json)).

(** ** Values, objects, store *)

Abbreviation loc := nat (only parsing).

Inductive pyval : Type :=
| VNone
| VBool (b : bool)
| VInt (n : Z)
| VFloat (bits : Z)
| VStr (s : pystr)
| VRef (l : loc).                (* a list or a dict, by reference *)

#[global] Instance pyval_eq_dec : EqDecision pyval.
Proof. solve_decision. Defined.

Inductive pyobj : Type :=
| OList (items : list pyval)
| ODict (entries : list (pystr * pyval)).   (* insertion order, distinct keys *)

Abbreviation heap := (list pyobj) (only parsing).

Inductive exn : Type :=
| AttributeError
| TypeError
| KeyError
| IndexError
| ValueError (msg : pystr)
| RuntimeError (msg : pystr)
| FileNotFoundError
| JSONDecodeError
| Remote (what : pystr)          (* raised by a collaborator *)
| DanglingReference.             (* a reference outside the store: cannot
                                    arise in the interpreter *)

Inductive outcome (A : Type) : Type :=
| Ok (a : A)
| Err (e : exn).
Arguments Ok {A} a.
Arguments Err {A} e.

(** Dictionaries keep insertion order; assigning to an existing key keeps
    its position. *)
Fixpoint dict_get (k : pystr) (d : list (pystr * pyval)) : option pyval :=
  match d with
  | [] => None
  | (k', v) :: d' => if decide (k' = k) then Some v else dict_get k d'
  end.

Fixpoint dict_set (k : pystr) (v : pyval) (d : list (pystr * pyval))
  : list (pystr * pyval) :=
  match d with
  | [] => [(k, v)]
  | (k', v') :: d' =>
      if decide (k' = k) then (k', v) :: d' else (k', v') :: dict_set k v d'
  end.

(** ** Store-passing computations that may raise *)

Definition py (A : Type) : Type := heap → heap * outcome A.

Definition py_ret {A} (a : A) : py A := λ h, (h, Ok a).
Definition py_raise {A} (e : exn) : py A := λ h, (h, Err e).
Definition py_bind {A B} (m : py A) (k : A → py B) : py B :=
  λ h, match m h with
       | (h', Ok a) => k a h'
       | (h', Err e) => (h', Err e)
       end.

#[global] Instance py_mret : MRet py := @py_ret.
#[global] Instance py_mbind : MBind py := λ A B k m, py_bind m k.

Definition py_new (o : pyobj) : py pyval :=
  λ h, (h ++ [o], Ok (VRef (length h))).

Definition py_deref (l : loc) : py pyobj :=
  λ h, match h !! l with
       | Some o => (h, Ok o)
       | None => (h, Err DanglingReference)
       end.

Definition py_store (l : loc) (o : pyobj) : py unit :=
  λ h, (<[l := o]> h, Ok tt).

(** [v.copy()]: defined on dicts and lists, a shallow copy. *)
Definition py_copy (v : pyval) : py pyval :=
  match v with
  | VRef l => o ← py_deref l; py_new o
  | _ => py_raise AttributeError
  end.

(** [k in v] for a string [k]. *)
Definition py_contains (k : pystr) (v : pyval) : py bool :=
  match v with
  | VRef l =>
      o ← py_deref l;
      match o with
      | ODict d => py_ret (bool_decide (is_Some (dict_get k d)))
      | OList xs => py_ret (bool_decide (VStr k ∈ xs))
      end
  | VStr s => py_ret (str_contains k s)
  | _ => py_raise TypeError
  end.

(** [v[k]] for a string [k]. *)
Definition py_getitem (v : pyval) (k : pystr) : py pyval :=
  match v with
  | VRef l =>
      o ← py_deref l;
      match o with
      | ODict d =>
          match dict_get k d with
          | Some x => py_ret x
          | None => py_raise KeyError
          end
      | OList _ => py_raise TypeError
      end
  | _ => py_raise TypeError
  end.

(** [len(v)] *)
Definition py_len (v : pyval) : py Z :=
  match v with
  | VRef l =>
      o ← py_deref l;
      match o with
      | ODict d => py_ret (Z.of_nat (length d))
      | OList xs => py_ret (Z.of_nat (length xs))
      end
  | VStr s => py_ret (Z.of_nat (length s))
  | _ => py_raise TypeError
  end.

(** [v[0]]; the keys of a dict of this model are strings, so the integer
    key [0] is never present. *)
Definition py_getitem0 (v : pyval) : py pyval :=
  match v with
  | VRef l =>
      o ← py_deref l;
      match o with
      | ODict _ => py_raise KeyError
      | OList (x :: _) => py_ret x
      | OList [] => py_raise IndexError
      end
  | VStr (c :: _) => py_ret (VStr [c])
  | VStr [] => py_raise IndexError
  | _ => py_raise TypeError
  end.

(** [v[k] = x] for a string [k]. *)
Definition py_setitem (v : pyval) (k : pystr) (x : pyval) : py unit :=
  match v with
  | VRef l =>
      o ← py_deref l;
      match o with
      | ODict d => py_store l (ODict (dict_set k x d))
      | OList _ => py_raise TypeError
      end
  | _ => py_raise TypeError
  end.

(** ** From documents to objects and back *)

(** [json.load]: every array and object becomes a fresh store object, after
    its members; of a repeated key the last value is kept, at the place of
    the first. *)
Definition load_items (load : json → py pyval) : list json → py (list pyval) :=
  fix go (js : list json) : py (list pyval) :=
    match js with
    | [] => py_ret []
    | j :: js' => x ← load j; xs ← go js'; py_ret (x :: xs)
    end.

Definition load_members (load : json → py pyval)
  : list (pystr * json) → list (pystr * pyval) → py (list (pystr * pyval)) :=
  fix go (ms : list (pystr * json)) (acc : list (pystr * pyval))
    : py (list (pystr * pyval)) :=
    match ms with
    | [] => py_ret acc
    | (k, j) :: ms' => x ← load j; go ms' (dict_set k x acc)
    end.

Fixpoint json_load (j : json) : py pyval :=
  match j with
  | JNull => py_ret VNone
  | JBool b => py_ret (VBool b)
  | JInt n => py_ret (VInt n)
  | JFloat f => py_ret (VFloat f)
  | JStr s => py_ret (VStr s)
  | JArr items => xs ← load_items json_load items; py_new (OList xs)
  | JObj members => d ← load_members json_load members []; py_new (ODict d)
  end.

(** The document a value denotes in a store, read to depth [fuel]; [None]
    when the structure is deeper than the fuel (in particular when it is
    cyclic) or a reference dangles. *)
Fixpoint reify (fuel : nat) (h : heap) (v : pyval) : option json :=
  match v with
  | VNone => Some JNull
  | VBool b => Some (JBool b)
  | VInt n => Some (JInt n)
  | VFloat f => Some (JFloat f)
  | VStr s => Some (JStr s)
  | VRef l =>
      match fuel with
      | O => None
      | S fuel' =>
          match h !! l with
          | Some (OList xs) => JArr <$> mapM (reify fuel' h) xs
          | Some (ODict d) =>
              JObj <$> mapM (λ kv, pair kv.1 <$> reify fuel' h kv.2) d
          | None => None
          end
      end
  end.

(* ===================================================================== *)
(** * Part II: collaborators, programs and runs                           *)
(* ===================================================================== *)

(** A [requests] response: [status_code], [text], and what [.json()]
    returns ([None] when the body does not parse, in which case [.json()]
    raises). *)
Record Response : Type := {
  status_code : Z;
  text : pystr;
  json_body : option json;
}.

(** The two auth bindings of an OpenAPI tool. *)
Inductive AuthDetails : Type :=
| OpenApiManagedAuthDetails (audience : pystr)
| OpenApiConnectionAuthDetails (connection_id : pystr).

(** [OpenApiFunctionDefinition]; [fn_spec] is the customised document, a
    value together with the store it lives in. *)
Record OpenApiFunctionDefinition : Type := {
  fn_name : pystr;
  fn_description : pystr;
  fn_spec : heap * pyval;
  fn_auth : AuthDetails;
}.

Inductive ToolDefinition : Type :=
| OpenApiToolDefinition (openapi : OpenApiFunctionDefinition).

(** An agent as the platform reports it. *)
Record Agent : Type := {
  a_id : pystr;
  a_name : pystr;
  a_description : option pystr;
  a_instructions : option pystr;
  a_model : option pystr;
  a_tools : list ToolDefinition;
}.

(** The keyword arguments of [create_agent] and [update_agent]; an argument
    that the call site does not pass is [None]. *)
Record AgentArgs : Type := {
  arg_name : option pystr;
  arg_description : option pystr;
  arg_instructions : option pystr;
  arg_tools : option (list ToolDefinition);
  arg_model : option pystr;
}.

(** Everything the scripts ask of the outside world.  Constructing
    [DefaultAzureCredential()] and [AIProjectClient(...)] contacts nobody
    and is not a call; [logger] output goes to the diagnostic stream and is
    not modelled. *)
Inductive call : Type :=
| get_token (scope : pystr)                       (* credential.get_token(scope).token *)
| requests_post (url : pystr) (headers : list (pystr * pystr)) (payload : json)
| requests_put (url : pystr) (payload : json) (headers : list (pystr * pystr))
| spec_path_exists                                (* spec_path.exists() *)
| read_spec_file                                  (* open(spec_path) and json.load *)
| list_agents
| update_agent (agent_id : pystr) (args : AgentArgs)
| create_agent (args : AgentArgs)
| print_json (value : json).                      (* print(json.dumps(value, indent=2)) *)

Definition answer (c : call) : Type :=
  match c with
  | get_token _ => pystr
  | requests_post _ _ _ | requests_put _ _ _ => Response
  | spec_path_exists => bool
  | read_spec_file => json
  | list_agents => list Agent
  | update_agent _ _ | create_agent _ => Agent
  | print_json _ => unit
  end.

Definition is_network (c : call) : bool :=
  match c with
  | spec_path_exists | read_spec_file | print_json _ => false
  | _ => true
  end.

Definition is_agent_call (c : call) : bool :=
  match c with
  | list_agents | update_agent _ _ | create_agent _ => true
  | _ => false
  end.

Definition is_update (c : call) : bool :=
  match c with update_agent _ _ => true | _ => false end.

Definition is_create (c : call) : bool :=
  match c with create_agent _ => true | _ => false end.

Definition is_print (c : call) : bool :=
  match c with print_json _ => true | _ => false end.

(** ** Programs *)

Inductive prog (A : Type) : Type :=
| Ret (a : A)
| Raise (e : exn)
| Call (c : call) (k : answer c → prog A).
Arguments Ret {A} a.
Arguments Raise {A} e.
Arguments Call {A} c k.

Fixpoint prog_bind {A B} (m : prog A) (f : A → prog B) : prog B :=
  match m with
  | Ret a => f a
  | Raise e => Raise e
  | Call c k => Call c (λ x, prog_bind (k x) f)
  end.

#[global] Instance prog_mret : MRet prog := @Ret.
#[global] Instance prog_mbind : MBind prog := λ A B f m, prog_bind m f.

Definition perform (c : call) : prog (answer c) := Call c Ret.

(** Run a store computation in a fresh, empty store. *)
Definition in_fresh_store {A} (m : py A) : prog (heap * A) :=
  match m [] with
  | (h, Ok a) => Ret (h, a)
  | (_, Err e) => Raise e
  end.

(** ** Worlds and runs *)

Record world : Type := {
  wstate : Type;
  respond : ∀ c : call, wstate → wstate * outcome (answer c);
}.

(** The final state, the calls issued in order, and the result. *)
Fixpoint run {A} (w : world) (p : prog A) (s : wstate w)
  : wstate w * list call * outcome A :=
  match p with
  | Ret a => (s, [], Ok a)
  | Raise e => (s, [], Err e)
  | Call c k =>
      match respond w c s with
      | (s', Ok x) => let '(s'', tr, r) := run w (k x) s' in (s'', c :: tr, r)
      | (s', Err e) => (s', [c], Err e)
      end
  end.

(** ** The agent platform

    The agent-hosting platform keeps the agents of a project: [list_agents]
    reports them, [update_agent] overwrites the passed fields of the agent
    with the given id and reports it, [create_agent] adds an agent under a
    new id.  An agent keeps its id across updates. *)

Record platform : Type := {
  agents : list Agent;
  next_id : Z;
}.

Definition overwrite (args : AgentArgs) (a : Agent) : Agent :=
  {| a_id := a_id a;
     a_name := default (a_name a) (arg_name args);
     a_description := from_option Some (a_description a) (arg_description args);
     a_instructions := from_option Some (a_instructions a) (arg_instructions args);
     a_model := from_option Some (a_model a) (arg_model args);
     a_tools := default (a_tools a) (arg_tools args) |}.

Definition has_id (agent_id : pystr) (a : Agent) : bool :=
  bool_decide (a_id a = agent_id).

Definition platform_update (agent_id : pystr) (args : AgentArgs) (p : platform)
  : platform * outcome Agent :=
  let updated :=
    map (λ a, if has_id agent_id a then overwrite args a else a) (agents p) in
  match find (has_id agent_id) updated with
  | Some a => ({| agents := updated; next_id := next_id p |}, Ok a)
  | None => (p, Err (Remote (str "agent not found")))
  end.

Definition platform_create (args : AgentArgs) (p : platform)
  : platform * outcome Agent :=
  let a := {| a_id := str "asst_" ++ str_of_int (next_id p);
              a_name := default [] (arg_name args);
              a_description := arg_description args;
              a_instructions := arg_instructions args;
              a_model := arg_model args;
              a_tools := default [] (arg_tools args) |} in
  ({| agents := agents p ++ [a]; next_id := next_id p + 1 |}, Ok a).

(** A world made of the platform and an arbitrary rest [E], which answers
    every call that is not an agent call and cannot touch the platform. *)
Definition with_platform (E : world) : world :=
  {| wstate := wstate E * platform;
     respond := λ c,
       match c as c0 return wstate E * platform
                            → (wstate E * platform) * outcome (answer c0) with
       | list_agents => λ '(s, p), ((s, p), Ok (agents p))
       | update_agent agent_id args => λ '(s, p),
           let '(p', r) := platform_update agent_id args p in ((s, p'), r)
       | create_agent args => λ '(s, p),
           let '(p', r) := platform_create args p in ((s, p'), r)
       | c0 => λ '(s, p), let '(s', r) := respond E c0 s in ((s', p), r)
       end |}.

(* ===================================================================== *)
(** * The scripts                                                         *)
(* ===================================================================== *)

Definition k_servers : pystr := str "servers".
Definition k_url : pystr := str "url".
Definition k_components : pystr := str "components".
Definition k_securitySchemes : pystr := str "securitySchemes".
Definition k_security : pystr := str "security".
Definition k_bearerAuth : pystr := str "bearerAuth".

(** The Azure Databricks application id. *)
Definition databricks_app_id : pystr := str "2ff814a6-3304-4ab8-85cb-cd0e6f879c1d".

(** The block shared by both variants of
    [customize_openapi_spec_for_workspace]:
<<
    if "servers" in customized_spec and len(customized_spec["servers"]) > 0:
        customized_spec["servers"][0]["url"] = databricks_workspace_url
>> *)
Definition set_server_url (customized_spec : pyval) (databricks_workspace_url : pystr)
  : py unit :=
  has ← py_contains k_servers customized_spec;
  if has : bool then
    servers ← py_getitem customized_spec k_servers;
    n ← py_len servers;
    if 0 <? n then
      servers ← py_getitem customized_spec k_servers;
      server0 ← py_getitem0 servers;
      py_setitem server0 k_url (VStr databricks_workspace_url)
    else py_ret tt
  else py_ret tt.

(** Both scripts load the document the same way:
<<
    if not spec_path.exists(): raise FileNotFoundError(...)
    with open(spec_path, "r", encoding="utf-8") as f:
        return json.load(f)
>>
    The parsed document is handed back as is; it becomes store objects where
    it is customised. *)
Definition load_databricks_openapi_spec : prog json :=
  present ← perform spec_path_exists;
  if present : bool then perform read_spec_file else Raise FileNotFoundError.

(** First agent of the listing with the wanted name:
    [next((a for a in agents if a.name == agent_name), None)], and the
    [for ... break] loop of the PAT script. *)
Definition find_agent (agent_name : pystr) (listing : list Agent) : option Agent :=
  find (λ a, bool_decide (a_name a = agent_name)) listing.

(** ** create_databricks_agent_with_managed_identity.py *)

Module ManagedIdentity.

Definition customize_openapi_spec_for_workspace
    (spec : pyval) (databricks_workspace_url : pystr) : py pyval :=
  customized_spec ← py_copy spec;
  set_server_url customized_spec databricks_workspace_url;;
  py_ret customized_spec.

Definition tool_description : pystr :=
  str "Access to Azure Databricks REST API including clusters, jobs, workspace management, command execution, and vector search operations".

Definition agent_description : pystr :=
  str "AI Agent with access to Azure Databricks APIs via Managed Identity".

Definition nl : pystr := [10%N].

Definition instructions : pystr :=
  str "You are an AI assistant with access to Azure Databricks APIs." ++ nl ++ nl
  ++ str "You can help with:" ++ nl
  ++ str "- Managing Databricks clusters (list, create, start, stop, delete)" ++ nl
  ++ str "- Running and monitoring Databricks jobs" ++ nl
  ++ str "- Managing workspace notebooks and files" ++ nl
  ++ str "- Executing commands on clusters" ++ nl
  ++ str "- Vector search operations (creating endpoints and indexes, querying vectors)" ++ nl ++ nl
  ++ str "When using the Databricks API:" ++ nl
  ++ str "1. Always check cluster status before executing commands" ++ nl
  ++ str "2. Use appropriate error handling" ++ nl
  ++ str "3. For vector search, understand the difference between Delta Sync and Direct Access indexes" ++ nl
  ++ str "4. Remember that authentication is handled automatically via managed identity" ++ nl ++ nl
  ++ str "Be helpful and provide clear explanations of what you're doing.".

(** The tool definition built from the customised document. *)
Definition bind_tool (openapi_spec : heap * pyval) : ToolDefinition :=
  OpenApiToolDefinition
    {| fn_name := str "databricks_api";
       fn_description := tool_description;
       fn_spec := openapi_spec;
       fn_auth := OpenApiManagedAuthDetails databricks_app_id |}.

Definition desired (agent_name model_deployment_name : pystr)
    (tool_definition : ToolDefinition) : AgentArgs :=
  {| arg_name := Some agent_name;
     arg_description := Some agent_description;
     arg_instructions := Some instructions;
     arg_tools := Some [tool_definition];
     arg_model := Some model_deployment_name |}.

(** The reconciler: from [agents = client.list_agents()] to the end.  An
    agent object found by the scan is truthy, so [if existing_agent:] asks
    whether the scan found one. *)
Definition reconcile (agent_name model_deployment_name : pystr)
    (tool_definition : ToolDefinition) : prog pystr :=
  listing ← perform list_agents;
  match find_agent agent_name listing with
  | Some existing_agent =>
      perform (update_agent (a_id existing_agent)
                 (desired agent_name model_deployment_name tool_definition));;
      Ret (a_id existing_agent)
  | None =>
      agent ← perform (create_agent
                 (desired agent_name model_deployment_name tool_definition));
      Ret (a_id agent)
  end.

Definition register_databricks_openapi_tool
    (project_endpoint databricks_workspace_url agent_name
     model_deployment_name : pystr) : prog pystr :=
  document ← load_databricks_openapi_spec;
  openapi_spec ← in_fresh_store
    (spec ← json_load document;
     customize_openapi_spec_for_workspace spec databricks_workspace_url);
  reconcile agent_name model_deployment_name (bind_tool openapi_spec).

(** What [parse_args] hands to [main]: the [argparse.Namespace], by its
    [dest] names. *)
Record Namespace : Type := {
  ai_foundry_project : pystr;
  ai_model_deployment_name : pystr;
  databricks_workspace_url : pystr;
  agent_name : pystr;
  debug : bool;
  verbose : bool;
}.

Definition output_payload (args : Namespace) (agent_id : pystr) : json :=
  JObj [ (str "ai_foundry_project_endpoint", JStr (ai_foundry_project args));
         (str "ai_model_deployment_name", JStr (ai_model_deployment_name args));
         (str "ai_foundry_agent_id", JStr agent_id);
         (str "agent_name", JStr (agent_name args));
         (str "databricks_workspace_url", JStr (databricks_workspace_url args));
         (str "auth_type", JStr (str "ManagedIdentity"));
         (str "databricks_audience", JStr (str "2ff814a6-3304-4ab8-85cb-cd0e6f879c1d")) ].

(** The body of the [try] block of [main]. *)
Definition main_try (args : Namespace) : prog Z :=
  agent_id ← register_databricks_openapi_tool (ai_foundry_project args)
                (databricks_workspace_url args) (agent_name args)
                (ai_model_deployment_name args);
  perform (print_json (output_payload args agent_id));;
  Ret 0.

(** [main], from the parsed arguments on:
<<
    try:
        agent_id = register_databricks_openapi_tool(...)
        output_payload = {...}
        print(json.dumps(output_payload, indent=2))
        return 0
    except Exception as ex:
        logger.error(f"Error: {ex}")
        if args.debug: traceback.print_exc()
        return 1
>>
    Every exception of the model is an [Exception]; [--verbose] and
    [--debug] only change what goes to the diagnostic stream.  The result
    is the final state, the calls issued and the exit status. *)
Definition main (w : world) (args : Namespace) (s : wstate w)
  : wstate w * list call * Z :=
  match run w (main_try args) s with
  | (s', tr, Ok status) => (s', tr, status)
  | (s', tr, Err ex) => (s', tr, 1)
  end.

End ManagedIdentity.

(** ** create_databricks_agent_with_pat.py *)

Module Pat.

(** Truth value of a parsed JSON value ([if not pat_token], [if token_id]). *)
Definition truthy (v : json) : bool :=
  match v with
  | JNull => false
  | JBool b => b
  | JInt n => negb (n =? 0)
  | JFloat bits => negb ((bits =? 0) || (bits =? 2 ^ 63))
  | JStr s => str_truthy s
  | JArr items => negb (bool_decide (items = []))
  | JObj members => negb (bool_decide (members = []))
  end.

Fixpoint members_get (k : pystr) (members : list (pystr * json)) : option json :=
  match members with
  | [] => None
  | (k', v) :: members' =>
      match members_get k members' with
      | Some later => Some later       (* a repeated key: the last one wins *)
      | None => if decide (k' = k) then Some v else None
      end
  end.

(** [d.get(k, dflt)] on a parsed JSON value; only a dict has [get]. *)
Definition json_get (d : json) (k : pystr) (dflt : json) : prog json :=
  match d with
  | JObj members => Ret (default dflt (members_get k members))
  | _ => Raise AttributeError
  end.

Section Formatting.

(** [repr] of a float, a list or a dict, as the interpreter prints it. *)
Variable py_repr : json → pystr.

(** A value interpolated into an f-string. *)
Definition format_value (v : json) : pystr :=
  match v with
  | JStr s => s
  | JInt n => str_of_int n
  | JBool true => str "True"
  | JBool false => str "False"
  | JNull => str "None"
  | _ => py_repr v
  end.

(** [{"Authorization": f"Bearer {token}", "Content-Type": "application/json"}] *)
Definition bearer_headers (token : pystr) : list (pystr * pystr) :=
  [ (str "Authorization", str "Bearer " ++ token);
    (str "Content-Type", str "application/json") ].

Definition token_create_url (databricks_workspace_url : pystr) : pystr :=
  databricks_workspace_url ++ str "/api/2.0/token/create".

Definition token_create_payload (comment : pystr) (lifetime_days : Z) : json :=
  let lifetime_seconds := lifetime_days * 24 * 60 * 60 in
  JObj [ (str "comment", JStr comment);
         (str "lifetime_seconds", JInt lifetime_seconds) ].

(** The message of the error raised on a response that is not 200. *)
Definition pat_failure (response : Response) : pystr :=
  str "Failed to create PAT: " ++ str_of_int (status_code response)
  ++ str " - " ++ text response.

Definition create_databricks_pat
    (databricks_workspace_url comment : pystr) (lifetime_days : Z)
  : prog json :=
  token ← perform (get_token (databricks_app_id ++ str "/.default"));
  let url := token_create_url databricks_workspace_url in
  let headers := bearer_headers token in
  let payload := token_create_payload comment lifetime_days in
  response ← perform (requests_post url headers payload);
  if negb (status_code response =? 200) then
    Raise (RuntimeError (pat_failure response))
  else
    pat_data ← from_option Ret (Raise JSONDecodeError) (json_body response);
    pat_token ← json_get pat_data (str "token_value") JNull;
    if negb (truthy pat_token) then
      Raise (RuntimeError
               (str "PAT token not found in response: " ++ format_value pat_data))
    else
      token_info ← json_get pat_data (str "token_info") (JObj []);
      json_get token_info (str "token_id") JNull;;
      Ret pat_token.

(** The resource id of the connection. *)
Definition connection_resource_id
    (subscription_id resource_group account_name project_name
     connection_name : pystr) : pystr :=
  str "/subscriptions/" ++ subscription_id
  ++ str "/resourceGroups/" ++ resource_group ++ str "/"
  ++ str "providers/Microsoft.CognitiveServices/accounts/" ++ account_name
  ++ str "/" ++ str "projects/" ++ project_name
  ++ str "/connections/" ++ connection_name.

Definition connection_url (connection_id : pystr) : pystr :=
  let api_version := str "2025-04-01-preview" in
  let base_mgmt := str "https://management.azure.com" in
  base_mgmt ++ connection_id ++ str "?api-version=" ++ api_version.

(** A Custom Keys connection holding the token as an Authorization header. *)
Definition connection_payload (databricks_pat : json) : json :=
  JObj [ (str "properties",
    JObj [ (str "category", JStr (str "CustomKeys"));
           (str "authType", JStr (str "CustomKeys"));
           (str "isSharedToAll", JBool false);
           (str "target", JStr (str "https://placeholder.example.com"));
           (str "metadata",
             JObj [ (str "ApiType", JStr (str "Databricks"));
                    (str "ResourceId", JStr (str "databricks-api")) ]);
           (str "credentials",
             JObj [ (str "keys",
               JObj [ (str "Authorization",
                       JStr (str "Bearer " ++ format_value databricks_pat)) ]) ]) ]) ].

(** The message of the error raised on a response that is neither 200 nor
    201. *)
Definition connection_failure (response : Response) : pystr :=
  str "Failed to create connection: "
  ++ str_of_int (status_code response) ++ str " - " ++ text response.

Definition create_ai_foundry_connection
    (connection_name : pystr) (databricks_pat : json)
    (subscription_id resource_group account_name project_name : pystr)
  : prog pystr :=
  token ← perform (get_token (str "https://management.azure.com/.default"));
  let connection_id :=
    connection_resource_id subscription_id resource_group account_name
      project_name connection_name in
  let url := connection_url connection_id in
  let payload := connection_payload databricks_pat in
  let headers := bearer_headers token in
  response ← perform (requests_put url payload headers);
  if (status_code response =? 200) || (status_code response =? 201) then
    Ret connection_id
  else
    Raise (RuntimeError (connection_failure response)).

(** The literal [{"type": "apiKey", "name": "Authorization",
    "in": "header", "description": "Databricks PAT: Bearer <token>"}]. *)
Definition bearer_scheme : list (pystr * pyval) :=
  [ (str "type", VStr (str "apiKey"));
    (str "name", VStr (str "Authorization"));
    (str "in", VStr (str "header"));
    (str "description", VStr (str "Databricks PAT: Bearer <token>")) ].

(** <<
if ("components" in customized_spec
        and "securitySchemes" in customized_spec["components"]):
    customized_spec["components"]["securitySchemes"] = {"bearerAuth": {...}}
>>
    The right-hand side is built before the target is looked up. *)
Definition set_security_schemes (customized_spec : pyval) : py unit :=
  has ← py_contains k_components customized_spec;
  if has : bool then
    components ← py_getitem customized_spec k_components;
    has' ← py_contains k_securitySchemes components;
    if has' : bool then
      scheme ← py_new (ODict bearer_scheme);
      schemes ← py_new (ODict [(k_bearerAuth, scheme)]);
      components ← py_getitem customized_spec k_components;
      py_setitem components k_securitySchemes schemes
    else py_ret tt
  else py_ret tt.

(** [customized_spec["security"] = [{"bearerAuth": []}]] *)
Definition set_security (customized_spec : pyval) : py unit :=
  scopes ← py_new (OList []);
  requirement ← py_new (ODict [(k_bearerAuth, scopes)]);
  security ← py_new (OList [requirement]);
  py_setitem customized_spec k_security security.

Definition customize_openapi_spec_for_workspace
    (spec : pyval) (databricks_workspace_url : pystr) : py pyval :=
  customized_spec ← py_copy spec;
  set_server_url customized_spec databricks_workspace_url;;
  set_security_schemes customized_spec;;
  set_security customized_spec;;
  py_ret customized_spec.

Definition tool_description : pystr :=
  str "Access to Azure Databricks REST API including clusters, jobs, workspace management, command execution, and vector search".

Definition instructions : pystr :=
  str "You are a helpful AI assistant with access to Azure Databricks. "
  ++ str "You can help users interact with Databricks resources including "
  ++ str "clusters, jobs, workspaces and vector search endpoints. "
  ++ str "When users ask about Databricks resources, use the "
  ++ str "databricks_api tool to retrieve information.".

Definition bind_tool (openapi_spec : heap * pyval) (connection_id : pystr)
  : ToolDefinition :=
  OpenApiToolDefinition
    {| fn_name := str "databricks_api";
       fn_description := tool_description;
       fn_spec := openapi_spec;
       fn_auth := OpenApiConnectionAuthDetails connection_id |}.

Definition desired (agent_name model_deployment_name : pystr)
    (openapi_tool : ToolDefinition) : AgentArgs :=
  {| arg_name := Some agent_name;
     arg_description := None;
     arg_instructions := Some instructions;
     arg_tools := Some [openapi_tool];
     arg_model := Some model_deployment_name |}.

(** Step 1 of [register_databricks_openapi_tool]: the token and where it
    came from.
<<
if databricks_pat:
    if not databricks_pat.strip():
        raise ValueError("--databricks-pat cannot be empty when provided")
    pat_token = databricks_pat.strip()
    pat_source = "provided"
else:
    pat_token = create_databricks_pat(...)
    pat_source = "generated"
>>
    [if databricks_pat:] holds for a string that is not empty; it fails
    for [None] and for the empty string alike. *)
Definition acquire_pat
    (databricks_workspace_url : pystr) (databricks_pat : option pystr)
    (pat_lifetime_days : Z) (pat_comment : pystr) : prog (json * pystr) :=
  if from_option str_truthy false databricks_pat then
    let provided := default [] databricks_pat in
    if negb (str_truthy (strip provided)) then
      Raise (ValueError (str "--databricks-pat cannot be empty when provided"))
    else Ret (JStr (strip provided), str "provided")
  else
    pat_token ← create_databricks_pat databricks_workspace_url pat_comment
                  pat_lifetime_days;
    Ret (pat_token, str "generated").

(** The reconciler: from [agents = client.list_agents()] to the call that
    creates or updates; the agent the platform reports is returned. *)
Definition reconcile (agent_name model_deployment_name : pystr)
    (openapi_tool : ToolDefinition) : prog Agent :=
  listing ← perform list_agents;
  match find_agent agent_name listing with
  | Some existing_agent =>
      perform (update_agent (a_id existing_agent)
                 (desired agent_name model_deployment_name openapi_tool))
  | None =>
      perform (create_agent
                 (desired agent_name model_deployment_name openapi_tool))
  end.

(** The record printed at the end of a run. *)
Definition config (project_endpoint model_deployment_name : pystr)
    (agent : Agent) (databricks_workspace_url connection_name
     connection_id : pystr) (pat_lifetime_days : Z) (pat_source : pystr)
  : json :=
  JObj [ (str "ai_foundry_project_endpoint", JStr project_endpoint);
         (str "ai_model_deployment_name", JStr model_deployment_name);
         (str "ai_foundry_agent_id", JStr (a_id agent));
         (str "agent_name", JStr (a_name agent));
         (str "databricks_workspace_url", JStr databricks_workspace_url);
         (str "auth_type", JStr (str "PersonalAccessToken"));
         (str "connection_name", JStr connection_name);
         (str "connection_id", JStr connection_id);
         (str "pat_lifetime_days",
           if bool_decide (pat_source = str "generated")
           then JInt pat_lifetime_days else JNull);
         (str "pat_source", JStr pat_source) ].

Definition register_databricks_openapi_tool
    (project_endpoint databricks_workspace_url connection_name agent_name
     model_deployment_name subscription_id resource_group account_name
     project_name : pystr) (databricks_pat : option pystr)
    (pat_lifetime_days : Z) (pat_comment : pystr) : prog pystr :=
  '(pat_token, pat_source) ←
    acquire_pat databricks_workspace_url databricks_pat pat_lifetime_days
      pat_comment;
  connection_id ←
    create_ai_foundry_connection connection_name pat_token subscription_id
      resource_group account_name project_name;
  document ← load_databricks_openapi_spec;
  openapi_spec ← in_fresh_store
    (spec ← json_load document;
     customize_openapi_spec_for_workspace spec databricks_workspace_url);
  agent ← reconcile agent_name model_deployment_name
            (bind_tool openapi_spec connection_id);
  perform (print_json
             (config project_endpoint model_deployment_name agent
                databricks_workspace_url connection_name connection_id
                pat_lifetime_days pat_source));;
  Ret (a_id agent).

(** Steps 1 and 2 and the customised document, as one program: everything
    of [register_databricks_openapi_tool] that comes before the reconciler. *)
Definition prepare
    (databricks_workspace_url connection_name subscription_id resource_group
     account_name project_name : pystr) (databricks_pat : option pystr)
    (pat_lifetime_days : Z) (pat_comment : pystr)
  : prog (pystr * pystr * (heap * pyval)) :=
  '(pat_token, pat_source) ←
    acquire_pat databricks_workspace_url databricks_pat
      pat_lifetime_days pat_comment;
  connection_id ←
    create_ai_foundry_connection connection_name pat_token
      subscription_id resource_group account_name project_name;
  document ← load_databricks_openapi_spec;
  openapi_spec ← in_fresh_store
    (spec ← json_load document;
     customize_openapi_spec_for_workspace spec databricks_workspace_url);
  Ret (pat_source, connection_id, openapi_spec).

(** What [parser.parse_args()] hands to [main]: the [argparse.Namespace].
    [databricks_pat] is [None] when the option is not given. *)
Record Namespace : Type := {
  ai_foundry_project_endpoint : pystr;
  ai_model_deployment_name : pystr;
  databricks_workspace_url : pystr;
  agent_name : pystr;
  connection_name : pystr;
  subscription_id : pystr;
  resource_group : pystr;
  account_name : pystr;
  project_name : pystr;
  pat_lifetime_days : Z;
  pat_comment : pystr;
  databricks_pat : option pystr;
  debug : bool;
  verbose : bool;
}.

(** Which of the exceptions that come from outside the script are
    instances of [requests.RequestException]: those a collaborator raises
    ([Remote]), and the decoding error of [response.json()], whose class
    depends on the version of [requests]. *)
Variable request_exception : exn → bool.

(** [except (RuntimeError, requests.RequestException)]: the built-in
    exceptions other than [RuntimeError] are not instances of either. *)
Definition caught (exc : exn) : bool :=
  match exc with
  | RuntimeError _ => true
  | JSONDecodeError | Remote _ => request_exception exc
  | _ => false
  end.

(** [main], from the parsed arguments on:
<<
    try:
        agent_id = register_databricks_openapi_tool(...)
        logger.info("Success! Agent ID: %s", agent_id)
    except (RuntimeError, requests.RequestException) as exc:
        logger.error("Failed to create/update agent: %s", exc)
        if args.debug:
            raise
        return 1
    return 0
>>
    The result is the final state, the calls issued, and the exit status
    returned or the exception that leaves [main]. *)
Definition main (w : world) (args : Namespace) (s : wstate w)
  : wstate w * list call * outcome Z :=
  match run w (register_databricks_openapi_tool
                 (ai_foundry_project_endpoint args) (databricks_workspace_url args)
                 (connection_name args) (agent_name args)
                 (ai_model_deployment_name args) (subscription_id args)
                 (resource_group args) (account_name args) (project_name args)
                 (databricks_pat args) (pat_lifetime_days args) (pat_comment args))
          s with
  | (s', tr, Ok agent_id) => (s', tr, Ok 0)
  | (s', tr, Err exc) =>
      if caught exc then
        if debug args then (s', tr, Err exc) else (s', tr, Ok 1)
      else (s', tr, Err exc)
  end.

End Formatting.

End Pat.

(* ===================================================================== *)
(** * Notions used in the statements                                       *)
(* ===================================================================== *)

(** ** Spec customisation in either mode *)

Inductive mode : Type :=
| ModeA    (* managed identity *)
| ModeB.   (* personal access token *)

Definition customize_openapi_spec_for_workspace (m : mode)
  : pyval → pystr → py pyval :=
  match m with
  | ModeA => ManagedIdentity.customize_openapi_spec_for_workspace
  | ModeB => Pat.customize_openapi_spec_for_workspace
  end.

(** ** Documents denoted by store values *)

(** Every document read from [h] is read unchanged from [h']. *)
Definition heap_le (h h' : heap) : Prop :=
  ∀ n v t, reify n h v = Some t → reify n h' v = Some t.

(** [v'] in [h'] stands for [v] in [h]. *)
Definition val_sim (h h' : heap) (v v' : pyval) : Prop :=
  v = v' ∨ ∀ n t, reify n h v = Some t → reify n h' v' = Some t.

(** Two objects of the same shape whose members are related by [R]. *)
Definition obj_rel (R : pyval → pyval → Prop) (o o' : pyobj) : Prop :=
  match o, o' with
  | OList xs, OList xs' => Forall2 R xs xs'
  | ODict K, ODict K' => Forall2 (λ e e', e.1 = e'.1 ∧ R e.2 e'.2) K K'
  | _, _ => False
  end.

(** Two objects of the same shape whose members stand for each other. *)
Definition obj_sim (h h' : heap) : pyobj → pyobj → Prop := obj_rel (val_sim h h').

(** ** What a document declares *)

(** The document has a [components] dict with a [securitySchemes] key. *)
Definition declares_schemes (h : heap) (v : pyval) : Prop :=
  ∃ c K p P, v = VRef c ∧ h !! c = Some (ODict K)
             ∧ dict_get k_components K = Some (VRef p)
             ∧ h !! p = Some (ODict P)
             ∧ is_Some (dict_get k_securitySchemes P).

(** The scheme [scheme] is declared under [components.securitySchemes]. *)
Definition declares_scheme (h : heap) (v : pyval) (scheme : pystr) : Prop :=
  ∃ c K p P ss SS, v = VRef c ∧ h !! c = Some (ODict K)
                   ∧ dict_get k_components K = Some (VRef p)
                   ∧ h !! p = Some (ODict P)
                   ∧ dict_get k_securitySchemes P = Some (VRef ss)
                   ∧ h !! ss = Some (ODict SS)
                   ∧ is_Some (dict_get scheme SS).

(** The top-level security requirement of the document is
    [[{"bearerAuth": []}]]. *)
Definition requires_bearer_only (h : heap) (v : pyval) : Prop :=
  ∃ c K s q e, v = VRef c ∧ h !! c = Some (ODict K)
               ∧ dict_get k_security K = Some (VRef s)
               ∧ h !! s = Some (OList [VRef q])
               ∧ h !! q = Some (ODict [(k_bearerAuth, VRef e)])
               ∧ h !! e = Some (OList []).

(** The document is a dict whose [servers], if present, is a list that is
    empty or starts with a dict, and whose [components], if present, is a
    dict. *)
Definition well_shaped (h : heap) (spec : pyval) : Prop :=
  ∃ c K, spec = VRef c ∧ h !! c = Some (ODict K)
    ∧ match dict_get k_servers K with
      | None => True
      | Some (VRef L) =>
          ∃ xs, h !! L = Some (OList xs)
                ∧ match xs with
                  | [] => True
                  | x :: _ => ∃ d D, x = VRef d ∧ h !! d = Some (ODict D)
                  end
      | Some _ => False
      end
    ∧ match dict_get k_components K with
      | None => True
      | Some (VRef p) => ∃ P, h !! p = Some (ODict P)
      | Some _ => False
      end.

(** ** Closed stores

    In the interpreter every reference held by an object leads to an
    object. *)

(** The values an object holds. *)
Definition obj_values (o : pyobj) : list pyval :=
  match o with
  | OList xs => xs
  | ODict K => K.*2
  end.

(** A value that is not a reference, or a reference below [bound]. *)
Definition val_in (bound : nat) (v : pyval) : bool :=
  match v with
  | VRef l => bool_decide (l < bound)%nat
  | _ => true
  end.

(** No object of the store holds a reference that leads nowhere. *)
Definition closed (h : heap) : bool :=
  forallb (λ o, forallb (val_in (length h)) (obj_values o)) h.

(** ** Values that denote a document *)

(** The value denotes some document: reading it succeeds with enough fuel. *)
Definition denotes (h : heap) (v : pyval) : Prop := ∃ n, is_Some (reify n h v).

(** The members of an object can be read with fuel [n]. *)
Definition obj_denotes (n : nat) (h : heap) (o : pyobj) : Prop :=
  Forall (λ v, is_Some (reify n h v)) (obj_values o).

(** Loading [j] on top of a closed store succeeds, extends the store to a
    closed one, and yields a value that denotes a document. *)
Definition loads_well (j : json) : Prop :=
  ∀ h, closed h = true →
  ∃ os v, json_load j h = (h ++ os, Ok v)
          ∧ closed (h ++ os) = true
          ∧ val_in (length (h ++ os)) v = true
          ∧ denotes (h ++ os) v.

(** ** The three steps of customisation

    For each step: when it does nothing, what it assigns to otherwise, and
    what holds of the document once it has run. *)

(** The object [o] of the document makes the server step do nothing. *)
Definition server_noop (h : heap) (o : pyobj) : Prop :=
  match o with
  | OList xs => VStr k_servers ∉ xs
  | ODict K =>
      match dict_get k_servers K with
      | None => True
      | Some (VStr s) => s = []
      | Some (VRef L) => h !! L = Some (OList []) ∨ h !! L = Some (ODict [])
      | Some _ => False
      end
  end.

(** The object [o] of the document has a first server entry, the dict [D]
    at [d]. *)
Definition server_target (h : heap) (o : pyobj) (d : loc) (D : list (pystr * pyval))
  : Prop :=
  ∃ K L rest, o = ODict K ∧ dict_get k_servers K = Some (VRef L)
              ∧ h !! L = Some (OList (VRef d :: rest)) ∧ h !! d = Some (ODict D).

(** The server step has been done on the document at [c]: running it again
    changes nothing. *)
Definition server_done (url : pystr) (h : heap) (c : loc) : Prop :=
  ∃ o, h !! c = Some o ∧
       (server_noop h o
        ∨ ∃ d D, server_target h o d D ∧ dict_get k_url D = Some (VStr url)).

(** The scheme mapping [{"bearerAuth": {...}}] sits at [so], its only
    scheme at [si]. *)
Definition bearer_at (h : heap) (so si : loc) : Prop :=
  h !! so = Some (ODict [(k_bearerAuth, VRef si)])
  ∧ h !! si = Some (ODict Pat.bearer_scheme).

(** The object [o] of the document makes the security-scheme step do
    nothing. *)
Definition schemes_noop (h : heap) (o : pyobj) : Prop :=
  match o with
  | OList xs => VStr k_components ∉ xs
  | ODict K =>
      match dict_get k_components K with
      | None => True
      | Some (VStr s) => str_contains k_securitySchemes s = false
      | Some (VRef p) =>
          match h !! p with
          | Some (ODict P) => dict_get k_securitySchemes P = None
          | Some (OList xs) => VStr k_securitySchemes ∉ xs
          | None => False
          end
      | Some _ => False
      end
  end.

(** The document [o] has a components dict [P] at [p] that declares
    security schemes. *)
Definition schemes_target (h : heap) (o : pyobj) (p : loc) (P : list (pystr * pyval))
  : Prop :=
  ∃ K, o = ODict K ∧ dict_get k_components K = Some (VRef p)
       ∧ h !! p = Some (ODict P) ∧ is_Some (dict_get k_securitySchemes P).

(** The store once the right-hand side of the security-scheme assignment
    has been built. *)
Definition schemes_alloc (h : heap) : heap :=
  h ++ [ODict Pat.bearer_scheme; ODict [(k_bearerAuth, VRef (length h))]].

(** The security-scheme step has been done on the document at [c]. *)
Definition schemes_done (h : heap) (c : loc) : Prop :=
  ∃ o, h !! c = Some o ∧
       (schemes_noop h o
        ∨ ∃ p P so si, schemes_target h o p P
                       ∧ dict_get k_securitySchemes P = Some (VRef so)
                       ∧ bearer_at h so si).

(** The requirement list [[{"bearerAuth": []}]] sits at [s]. *)
Definition security_at (h : heap) (s : loc) : Prop :=
  ∃ q e, h !! s = Some (OList [VRef q])
         ∧ h !! q = Some (ODict [(k_bearerAuth, VRef e)])
         ∧ h !! e = Some (OList []).

(** The store once the right-hand side of the security assignment has been
    built. *)
Definition security_alloc (h : heap) : heap :=
  h ++ [OList []; ODict [(k_bearerAuth, VRef (length h))];
        OList [VRef (S (length h))]].

(** The security-requirement step has been done on the document at [c]. *)
Definition security_done (h : heap) (c : loc) : Prop :=
  ∃ K s, h !! c = Some (ODict K) ∧ dict_get k_security K = Some (VRef s)
         ∧ security_at h s.

(** ** Calls of a program, fields of a call, members of a record *)

(** Every call a program can issue satisfies [P]. *)
Fixpoint all_calls {A} (P : call → Prop) (p : prog A) : Prop :=
  match p with
  | Ret _ | Raise _ => True
  | Call c k => P c ∧ ∀ x, all_calls P (k x)
  end.

(** Calls that neither touch the agents nor print. *)
Definition quiet (c : call) : Prop := is_agent_call c = false ∧ is_print c = false.

(** The five fields of the platform interface are all passed. *)
Definition full_field_set (args : AgentArgs) : Prop :=
  is_Some (arg_name args) ∧ is_Some (arg_description args)
  ∧ is_Some (arg_instructions args) ∧ is_Some (arg_tools args)
  ∧ is_Some (arg_model args).

(** If the call is an update, it passes all five fields. *)
Definition update_carries_full_field_set (c : call) : Prop :=
  match c with
  | update_agent _ args => full_field_set args
  | _ => True
  end.

(** A member of a printed record. *)
Definition json_field (record : json) (k : pystr) : option json :=
  match record with
  | JObj members => Pat.members_get k members
  | _ => None
  end.

(** ** What the customised document holds *)

(** The document at [c] has a first server entry, the dict at [d], and the
    [url] of that entry is [url]. *)
Definition first_server_url (h : heap) (c d : loc) (url : pystr) : Prop :=
  ∃ o D, h !! c = Some o ∧ server_target h o d D
         ∧ dict_get k_url D = Some (VStr url).

(** The document at [c] has a [components] dict, at [p], whose
    [securitySchemes] is the mapping [{"bearerAuth": {...}}] of the PAT
    script and nothing else. *)
Definition declares_bearer_only (h : heap) (c p : loc) : Prop :=
  ∃ K P so si, h !! c = Some (ODict K)
               ∧ dict_get k_components K = Some (VRef p)
               ∧ h !! p = Some (ODict P)
               ∧ dict_get k_securitySchemes P = Some (VRef so)
               ∧ bearer_at h so si.

(** The JSON reading of [{"bearerAuth": {"type": "apiKey", ...}}]. *)
Definition bearer_schemes_document : json :=
  JObj [ (k_bearerAuth,
          JObj [ (str "type", JStr (str "apiKey"));
                 (str "name", JStr (str "Authorization"));
                 (str "in", JStr (str "header"));
                 (str "description", JStr (str "Databricks PAT: Bearer <token>")) ]) ].

(** A value that is not a reference: [None], a bool, a number or a string. *)
Definition is_scalar (v : pyval) : bool :=
  match v with
  | VRef _ => false
  | _ => true
  end.

(** The exception that the assignment [customized_spec["servers"][0]["url"]
    = ...] raises on a [servers] entry [sv] that holds something but not a
    list starting with a dict: a non-empty string, a number, a bool or
    [None]; a list whose first item is a scalar or a list; a non-empty
    dict. *)
Definition servers_error (h : heap) (sv : pyval) : option exn :=
  match sv with
  | VRef L =>
      match h !! L with
      | Some (OList (VRef y :: _)) =>
          match h !! y with
          | Some (OList _) => Some TypeError
          | _ => None
          end
      | Some (OList (_ :: _)) => Some TypeError
      | Some (ODict (_ :: _)) => Some KeyError
      | _ => None
      end
  | VStr [] => None
  | _ => Some TypeError
  end.

(** Something that has a [get] method: a JSON object. *)
Definition is_object (v : json) : bool :=
  match v with
  | JObj _ => true
  | _ => false
  end.

(** The member of a JSON value reached by a path of keys. *)
Fixpoint json_path (v : json) (path : list pystr) : option json :=
  match path with
  | [] => Some v
  | k :: path' =>
      match json_field v k with
      | Some v' => json_path v' path'
      | None => None
      end
  end.

(** Calls that reach the Databricks workspace: the token for the Databricks
    application and the POST. *)
Definition asks_workspace (c : call) : bool :=
  match c with
  | requests_post _ _ _ => true
  | get_token scope => bool_decide (scope = databricks_app_id ++ str "/.default")
  | _ => false
  end.

(** No object of the document repeats a key. *)
Fixpoint distinct_keys (j : json) : bool :=
  match j with
  | JArr items => forallb distinct_keys items
  | JObj members =>
      bool_decide (NoDup members.*1)
      && forallb (λ '(_, v), distinct_keys v) members
  | _ => true
  end.

(** [json.load] of [j], on top of any store, returns a value that reads
    back as [j], with any fuel from some point on. *)
Definition loads_back (j : json) : Prop :=
  ∀ h, ∃ os v n, json_load j h = (h ++ os, Ok v)
                 ∧ ∀ m, (n ≤ m)%nat → reify m (h ++ os) v = Some j.

(** If the call creates or updates an agent, the tools it passes are the
    single tool [tool]. *)
Definition carries_tool (tool : ToolDefinition) (c : call) : Prop :=
  match c with
  | update_agent _ args | create_agent args => arg_tools args = Some [tool]
  | _ => True
  end.

(** The call creates or updates an agent. *)
Definition is_write (c : call) : bool := is_update c || is_create c.

(** The listing [after] holds the agents of [before], in the same order:
    each one as it was if its id is not [agent_id], and overwritten with
    [args] if it is. *)
Definition updated_in_place (agent_id : pystr) (args : AgentArgs)
    (before after : list Agent) : Prop :=
  Forall2 (λ x x', (a_id x ≠ agent_id ∧ x' = x)
                   ∨ (a_id x = agent_id ∧ x' = overwrite args x))
    before after.

(** ** Samples *)

Definition old_url : pystr := str "https://adb-0000000000000000.0.azuredatabricks.net".
Definition new_url : pystr := str "https://adb-1234567890123456.7.azuredatabricks.net".

(** A document with one server entry and an OAuth2 scheme. *)
Definition sample_document : json :=
  JObj [ (str "openapi", JStr (str "3.0.1"));
         (k_servers, JArr [JObj [(k_url, JStr old_url)]]);
         (k_components,
           JObj [(k_securitySchemes,
                   JObj [(str "oauth2", JObj [(str "type", JStr (str "oauth2"))])])]);
         (k_security, JArr [JObj [(str "oauth2", JArr [])]]) ].

(** A document with one server entry and no [components] at all. *)
Definition bare_document : json :=
  JObj [ (k_servers, JArr [JObj [(k_url, JStr old_url)]]) ].

(** The store and the value that [json.load] makes of a document. *)
Definition loaded (j : json) : heap * pyval :=
  match json_load j [] with
  | (h, Ok v) => (h, v)
  | (h, Err _) => (h, VNone)
  end.

Definition sample_store : heap := Eval vm_compute in (loaded sample_document).1.
Definition sample_spec : pyval := Eval vm_compute in (loaded sample_document).2.
Definition bare_store : heap := Eval vm_compute in (loaded bare_document).1.
Definition bare_spec : pyval := Eval vm_compute in (loaded bare_document).2.

(** The sample document, customised once for the PAT script. *)
Definition sample_once : heap * outcome pyval :=
  Eval vm_compute in
    customize_openapi_spec_for_workspace ModeB sample_spec new_url sample_store.

(** Every collaborator answers; the workspace answers token creation with
    status [post_status], the management plane answers the PUT with
    [put_status]. *)
Definition sample_world (post_status put_status : Z) : world :=
  {| wstate := unit;
     respond := λ c _,
       (tt,
        match c as c0 return outcome (answer c0) with
        | get_token _ => Ok (str "aad-token")
        | requests_post _ _ _ =>
            Ok {| status_code := post_status;
                  text := str "token endpoint says so";
                  json_body :=
                    Some (JObj [(str "token_value", JStr (str "dapi-generated"))]) |}
        | requests_put _ _ _ =>
            Ok {| status_code := put_status;
                  text := str "management plane says so";
                  json_body := None |}
        | spec_path_exists => Ok true
        | read_spec_file => Ok sample_document
        | list_agents => Ok []
        | update_agent _ _ => Err (Remote (str "no platform"))
        | create_agent _ => Err (Remote (str "no platform"))
        | print_json _ => Ok tt
        end) |}.

(** The default of [--agent-name]. *)
Definition default_agent_name : pystr := str "DatabricksVectorSearchAgent".

Definition sample_agent : Agent :=
  {| a_id := str "asst_abc";
     a_name := default_agent_name;
     a_description := None;
     a_instructions := None;
     a_model := Some (str "gpt-4o");
     a_tools := [] |}.

Definition sample_platform : platform :=
  {| agents := [sample_agent]; next_id := 1 |}.

(** A project with three agents: one of another name, then the sample
    agent, then a second agent of the sample agent's name. *)
Definition other_agent : Agent :=
  {| a_id := str "asst_other";
     a_name := str "SomeOtherAgent";
     a_description := None;
     a_instructions := None;
     a_model := Some (str "gpt-4o");
     a_tools := [] |}.

Definition twin_agent : Agent :=
  {| a_id := str "asst_twin";
     a_name := default_agent_name;
     a_description := None;
     a_instructions := None;
     a_model := Some (str "gpt-4o");
     a_tools := [] |}.

Definition busy_platform : platform :=
  {| agents := [other_agent; sample_agent; twin_agent]; next_id := 1 |}.

(** A stand-in for [repr]. *)
Definition sample_repr (v : json) : pystr := str "<repr>".

Definition sample_tool_mi : ToolDefinition :=
  ManagedIdentity.bind_tool (sample_store, sample_spec).

Definition sample_endpoint : pystr :=
  str "https://acct.services.ai.azure.com/api/projects/proj".

(** A document without [servers] and without [components]. *)
Definition plain_document : json :=
  JObj [ (str "openapi", JStr (str "3.0.1")) ].

Definition plain_store : heap := Eval vm_compute in (loaded plain_document).1.
Definition plain_spec : pyval := Eval vm_compute in (loaded plain_document).2.

(** A document whose servers are given as plain strings. *)
Definition stringly_document : json :=
  JObj [ (k_servers, JArr [JStr old_url]) ].

Definition stringly_store : heap := Eval vm_compute in (loaded stringly_document).1.
Definition stringly_spec : pyval := Eval vm_compute in (loaded stringly_document).2.

(** Every collaborator answers; the spec file is there or not, the
    workspace answers token creation with status 200 and the given body,
    the management plane answers the PUT with status 201, and the project
    holds no agent. *)
Definition scripted_world (spec_present : bool) (post_body : option json) : world :=
  {| wstate := unit;
     respond := λ c _,
       (tt,
        match c as c0 return outcome (answer c0) with
        | get_token _ => Ok (str "aad-token")
        | requests_post _ _ _ =>
            Ok {| status_code := 200;
                  text := str "token endpoint says so";
                  json_body := post_body |}
        | requests_put _ _ _ =>
            Ok {| status_code := 201;
                  text := str "management plane says so";
                  json_body := None |}
        | spec_path_exists => Ok spec_present
        | read_spec_file => Ok sample_document
        | list_agents => Ok []
        | update_agent _ _ => Err (Remote (str "no platform"))
        | create_agent _ => Err (Remote (str "no platform"))
        | print_json _ => Ok tt
        end) |}.

(** A project without agents. *)
Definition empty_platform : platform := {| agents := []; next_id := 1 |}.

Definition sample_args_mi : ManagedIdentity.Namespace :=
  {| ManagedIdentity.ai_foundry_project := sample_endpoint;
     ManagedIdentity.ai_model_deployment_name := str "gpt-4o";
     ManagedIdentity.databricks_workspace_url := new_url;
     ManagedIdentity.agent_name := default_agent_name;
     ManagedIdentity.debug := false;
     ManagedIdentity.verbose := false |}.

Definition sample_args_pat (databricks_pat : option pystr) (debug : bool)
  : Pat.Namespace :=
  {| Pat.ai_foundry_project_endpoint := sample_endpoint;
     Pat.ai_model_deployment_name := str "gpt-4o";
     Pat.databricks_workspace_url := new_url;
     Pat.agent_name := default_agent_name;
     Pat.connection_name := str "databricks-pat-connection";
     Pat.subscription_id := str "sub";
     Pat.resource_group := str "rg";
     Pat.account_name := str "acct";
     Pat.project_name := str "proj";
     Pat.pat_lifetime_days := 90;
     Pat.pat_comment := str "AI Foundry Agent";
     Pat.databricks_pat := databricks_pat;
     Pat.debug := debug;
     Pat.verbose := false |}.

(** No exception from outside is taken to be a request exception. *)
Definition sample_request_exception (e : exn) : bool := false.

(* ===================================================================== *)
(** * Properties of the store                                             *)
(* ===================================================================== *)

Lemma py_bind_inv {A B} (m : py A) (k : A → py B) h h' b :
  (m ≫= k) h = (h', Ok b) → ∃ h1 a, m h = (h1, Ok a) ∧ k a h1 = (h', Ok b).
Proof.
  unfold mbind, py_mbind, py_bind. destruct (m h) as [h1 [a|e]]; [eauto | discriminate].
Qed.

Lemma py_bind_eq {A B} (m : py A) (k : A → py B) h h1 a :
  m h = (h1, Ok a) → (m ≫= k) h = k a h1.
Proof. unfold mbind, py_mbind, py_bind. by intros ->. Qed.

Lemma py_deref_inv l h h' o :
  py_deref l h = (h', Ok o) → h' = h ∧ h !! l = Some o.
Proof. unfold py_deref. destruct (h !! l); intros [= <- <-]; done. Qed.

Lemma py_deref_eq l h o : h !! l = Some o → py_deref l h = (h, Ok o).
Proof. unfold py_deref. by intros ->. Qed.

Ltac py_unfold := cbv beta delta [py_ret py_raise py_store py_new] in *.

Lemma py_contains_inv k v h h' b :
  py_contains k v h = (h', Ok b) →
  h' = h ∧
  match v with
  | VRef l =>
      match h !! l with
      | Some (ODict d) => b = bool_decide (is_Some (dict_get k d))
      | Some (OList xs) => b = bool_decide (VStr k ∈ xs)
      | None => False
      end
  | VStr s => b = str_contains k s
  | _ => False
  end.
Proof.
  destruct v; simpl; py_unfold; try (intros [=]; done).
  intros (h1 & o & [-> Ho]%py_deref_inv & H)%py_bind_inv. rewrite Ho.
  destruct o; injection H as <- <-; done.
Qed.

Lemma py_getitem_inv v k h h' x :
  py_getitem v k h = (h', Ok x) →
  h' = h ∧ ∃ l d, v = VRef l ∧ h !! l = Some (ODict d) ∧ dict_get k d = Some x.
Proof.
  destruct v; simpl; py_unfold; try (intros [=]; done).
  intros (h1 & o & [-> Ho]%py_deref_inv & H)%py_bind_inv.
  destruct o as [xs|d]; [discriminate|].
  destruct (dict_get k d) as [y|] eqn:Hk; [|discriminate].
  injection H as <- <-. eauto 6.
Qed.

Lemma py_len_inv v h h' n :
  py_len v h = (h', Ok n) →
  h' = h ∧
  match v with
  | VRef l =>
      match h !! l with
      | Some (ODict d) => n = Z.of_nat (length d)
      | Some (OList xs) => n = Z.of_nat (length xs)
      | None => False
      end
  | VStr s => n = Z.of_nat (length s)
  | _ => False
  end.
Proof.
  destruct v; simpl; py_unfold; try (intros [=]; done).
  intros (h1 & o & [-> Ho]%py_deref_inv & H)%py_bind_inv. rewrite Ho.
  destruct o; injection H as <- <-; done.
Qed.

Lemma py_getitem0_inv v h h' x :
  py_getitem0 v h = (h', Ok x) →
  h' = h ∧
  match v with
  | VRef l => ∃ xs, h !! l = Some (OList (x :: xs))
  | VStr s => ∃ c s', s = c :: s' ∧ x = VStr [c]
  | _ => False
  end.
Proof.
  destruct v as [| | | |s|l]; simpl; py_unfold; try (intros [=]; done).
  - destruct s; intros [= <- <-]; eauto.
  - intros (h1 & o & [-> Ho]%py_deref_inv & H)%py_bind_inv. rewrite Ho.
    destruct o as [[|y xs]|d]; try discriminate. injection H as <- <-. eauto.
Qed.

Lemma py_setitem_inv v k x h h' u :
  py_setitem v k x h = (h', Ok u) →
  ∃ l d, v = VRef l ∧ h !! l = Some (ODict d)
         ∧ h' = <[l := ODict (dict_set k x d)]> h.
Proof.
  destruct v; simpl; py_unfold; try (intros [=]; done).
  intros (h1 & o & [-> Ho]%py_deref_inv & H)%py_bind_inv.
  destruct o as [xs|d]; [discriminate|]. injection H as <-. eauto.
Qed.

Lemma py_copy_inv v h h' r :
  py_copy v h = (h', Ok r) →
  ∃ l o, v = VRef l ∧ h !! l = Some o ∧ h' = h ++ [o] ∧ r = VRef (length h).
Proof.
  destruct v; simpl; py_unfold; try (intros [=]; done).
  intros (h1 & o & [-> Ho]%py_deref_inv & H)%py_bind_inv.
  injection H as <- <-. eauto 6.
Qed.

(** Forward evaluation of the primitives. *)

Lemma py_contains_dict k l d h :
  h !! l = Some (ODict d) →
  py_contains k (VRef l) h = (h, Ok (bool_decide (is_Some (dict_get k d)))).
Proof. intros H. simpl. by rewrite (py_bind_eq _ _ _ _ _ (py_deref_eq _ _ _ H)). Qed.

Lemma py_contains_list k l xs h :
  h !! l = Some (OList xs) →
  py_contains k (VRef l) h = (h, Ok (bool_decide (VStr k ∈ xs))).
Proof. intros H. simpl. by rewrite (py_bind_eq _ _ _ _ _ (py_deref_eq _ _ _ H)). Qed.

Lemma py_getitem_dict k l d x h :
  h !! l = Some (ODict d) → dict_get k d = Some x →
  py_getitem (VRef l) k h = (h, Ok x).
Proof.
  intros H Hk. simpl. rewrite (py_bind_eq _ _ _ _ _ (py_deref_eq _ _ _ H)).
  by rewrite Hk.
Qed.

Lemma py_len_dict l d h :
  h !! l = Some (ODict d) → py_len (VRef l) h = (h, Ok (Z.of_nat (length d))).
Proof. intros H. simpl. by rewrite (py_bind_eq _ _ _ _ _ (py_deref_eq _ _ _ H)). Qed.

Lemma py_len_list l xs h :
  h !! l = Some (OList xs) → py_len (VRef l) h = (h, Ok (Z.of_nat (length xs))).
Proof. intros H. simpl. by rewrite (py_bind_eq _ _ _ _ _ (py_deref_eq _ _ _ H)). Qed.

Lemma py_getitem0_list l x xs h :
  h !! l = Some (OList (x :: xs)) → py_getitem0 (VRef l) h = (h, Ok x).
Proof. intros H. simpl. by rewrite (py_bind_eq _ _ _ _ _ (py_deref_eq _ _ _ H)). Qed.

Lemma py_setitem_dict l d k x h :
  h !! l = Some (ODict d) →
  py_setitem (VRef l) k x h = (<[l := ODict (dict_set k x d)]> h, Ok tt).
Proof. intros H. simpl. by rewrite (py_bind_eq _ _ _ _ _ (py_deref_eq _ _ _ H)). Qed.

Lemma py_copy_eq l o h :
  h !! l = Some o → py_copy (VRef l) h = (h ++ [o], Ok (VRef (length h))).
Proof. intros H. simpl. by rewrite (py_bind_eq _ _ _ _ _ (py_deref_eq _ _ _ H)). Qed.

(** Dictionaries. *)

Lemma dict_get_set k v d : dict_get k (dict_set k v d) = Some v.
Proof.
  induction d as [|[k' v'] d IH]; simpl.
  - by rewrite decide_True.
  - destruct (decide (k' = k)) as [->|]; simpl.
    + by rewrite decide_True.
    + by rewrite decide_False.
Qed.

Lemma dict_get_set_ne k k' v d : k ≠ k' → dict_get k' (dict_set k v d) = dict_get k' d.
Proof.
  intros Hne. induction d as [|[k0 v0] d IH]; simpl.
  - by rewrite decide_False.
  - destruct (decide (k0 = k)) as [->|]; simpl.
    + by rewrite !decide_False.
    + destruct (decide (k0 = k')); done.
Qed.

Lemma dict_set_id k v d : dict_get k d = Some v → dict_set k v d = d.
Proof.
  induction d as [|[k0 v0] d IH]; simpl; [done|].
  destruct (decide (k0 = k)) as [->|]; [by intros [= ->]|].
  intros H. by rewrite IH.
Qed.

Lemma dict_set_nonempty k v d : dict_set k v d ≠ [].
Proof. destruct d as [|[k0 v0] d]; simpl; [done|]. by destruct (decide (k0 = k)). Qed.

(** Store lookups after an allocation or an assignment. *)

Lemma heap_lookup_app (h os : heap) l o : h !! l = Some o → (h ++ os) !! l = Some o.
Proof. apply lookup_app_l_Some. Qed.

Lemma heap_lookup_new (h os : heap) k : (h ++ os) !! (length h + k)%nat = os !! k.
Proof. rewrite lookup_app_r by lia. f_equal. lia. Qed.

Lemma heap_lookup_new0 (h os : heap) : (h ++ os) !! length h = os !! 0%nat.
Proof. rewrite <-(heap_lookup_new h os 0). f_equal. lia. Qed.

Lemma heap_insert_eq (h : heap) l o o' : h !! l = Some o → <[l := o']> h !! l = Some o'.
Proof. intros H. apply list_lookup_insert_eq. by eapply lookup_lt_Some. Qed.

Lemma heap_insert_same (h : heap) l o : h !! l = Some o → <[l := o]> h = h.
Proof. apply list_insert_id. Qed.

(** * The server-URL step *)

Lemma k_url_ne_servers : k_url ≠ k_servers.
Proof. by compute. Qed.
Lemma k_securitySchemes_ne_servers : k_securitySchemes ≠ k_servers.
Proof. by compute. Qed.
Lemma k_securitySchemes_ne_url : k_securitySchemes ≠ k_url.
Proof. by compute. Qed.
Lemma k_securitySchemes_ne_components : k_securitySchemes ≠ k_components.
Proof. by compute. Qed.
Lemma k_security_ne_servers : k_security ≠ k_servers.
Proof. by compute. Qed.
Lemma k_security_ne_url : k_security ≠ k_url.
Proof. by compute. Qed.
Lemma k_security_ne_components : k_security ≠ k_components.
Proof. by compute. Qed.
Lemma k_security_ne_securitySchemes : k_security ≠ k_securitySchemes.
Proof. by compute. Qed.
Lemma k_url_ne_components : k_url ≠ k_components.
Proof. by compute. Qed.
Lemma k_url_ne_security : k_url ≠ k_security.
Proof. by compute. Qed.

Lemma set_server_url_inv c url h h' u :
  set_server_url (VRef c) url h = (h', Ok u) →
  ∃ o, h !! c = Some o ∧
       ((server_noop h o ∧ h' = h)
        ∨ ∃ d D, server_target h o d D
                 ∧ h' = <[d := ODict (dict_set k_url (VStr url) D)]> h).
Proof.
  unfold set_server_url.
  intros (h1 & has & [-> Hc]%py_contains_inv & H)%py_bind_inv.
  destruct (h !! c) as [o|] eqn:Ho; [|done]. exists o. split; [done|].
  destruct has.
  - apply py_bind_inv in H as (h1 & sv & [-> (l & K & [= <-] & Hl & Hsv)]%py_getitem_inv & H).
    rewrite Ho in Hl. injection Hl as ->.
    apply py_bind_inv in H as (h1 & n & [-> Hn]%py_len_inv & H).
    destruct (0 <? n) eqn:Hpos.
    + apply py_bind_inv in H as (h1 & sv' & [-> (l' & K' & [= <-] & Hl' & Hsv')]%py_getitem_inv & H).
      rewrite Ho in Hl'. injection Hl' as <-. rewrite Hsv in Hsv'. injection Hsv' as <-.
      apply py_bind_inv in H as (h1 & x & [-> Hx]%py_getitem0_inv & H).
      apply py_setitem_inv in H as (d & D & -> & Hd & ->).
      destruct sv as [| | | |s|L]; try done.
      { destruct Hx as (? & ? & _ & [=]). }
      destruct Hx as [rest HL]. right. exists d, D. split; [|done].
      exists K, L, rest. done.
    + injection H as <-. left. split; [|done]. simpl. rewrite Hsv.
      apply Z.ltb_ge in Hpos.
      destruct sv as [| | | |s|L]; try done.
      * subst n. destruct s; [done|simpl in Hpos; lia].
      * destruct (h !! L) as [[xs|D]|]; [| |done]; subst n.
        -- left. destruct xs; [done|simpl in Hpos; lia].
        -- right. destruct D; [done|simpl in Hpos; lia].
  - injection H as <-. left. split; [|done].
    destruct o as [xs|K]; simpl.
    + symmetry in Hc. by apply bool_decide_eq_false in Hc.
    + symmetry in Hc. apply bool_decide_eq_false in Hc.
      destruct (dict_get k_servers K); [|done]. destruct Hc. eauto.
Qed.

Lemma set_server_url_noop c url h o :
  h !! c = Some o → server_noop h o →
  set_server_url (VRef c) url h = (h, Ok tt).
Proof.
  intros Ho Hn. unfold set_server_url. destruct o as [xs|K]; simpl in Hn.
  - rewrite (py_bind_eq _ _ _ _ _ (py_contains_list _ _ _ _ Ho)).
    by rewrite bool_decide_eq_false_2.
  - rewrite (py_bind_eq _ _ _ _ _ (py_contains_dict _ _ _ _ Ho)).
    destruct (dict_get k_servers K) as [sv|] eqn:Hsv.
    2:{ rewrite bool_decide_eq_false_2; [done|]. by intros [? ?]. }
    rewrite bool_decide_eq_true_2 by eauto.
    rewrite (py_bind_eq _ _ _ _ _ (py_getitem_dict _ _ _ _ _ Ho Hsv)).
    destruct sv as [| | | |s|L]; try done.
    + subst s. done.
    + destruct Hn as [HL|HL].
      * by rewrite (py_bind_eq _ _ _ _ _ (py_len_list _ _ _ HL)).
      * by rewrite (py_bind_eq _ _ _ _ _ (py_len_dict _ _ _ HL)).
Qed.

Lemma set_server_url_target c url h o d D :
  h !! c = Some o → server_target h o d D →
  set_server_url (VRef c) url h
  = (<[d := ODict (dict_set k_url (VStr url) D)]> h, Ok tt).
Proof.
  intros Ho (K & L & rest & -> & Hsv & HL & Hd). unfold set_server_url.
  rewrite (py_bind_eq _ _ _ _ _ (py_contains_dict _ _ _ _ Ho)).
  rewrite bool_decide_eq_true_2 by eauto.
  rewrite (py_bind_eq _ _ _ _ _ (py_getitem_dict _ _ _ _ _ Ho Hsv)).
  rewrite (py_bind_eq _ _ _ _ _ (py_len_list _ _ _ HL)).
  change (0 <? Z.of_nat (length (VRef d :: rest))) with true. cbn match.
  rewrite (py_bind_eq _ _ _ _ _ (py_getitem_dict _ _ _ _ _ Ho Hsv)).
  rewrite (py_bind_eq _ _ _ _ _ (py_getitem0_list _ _ _ _ HL)).
  by apply py_setitem_dict.
Qed.

Lemma server_done_rerun url h c :
  server_done url h c → set_server_url (VRef c) url h = (h, Ok tt).
Proof.
  intros (o & Ho & [Hn|(d & D & Ht & Hu)]).
  - by eapply set_server_url_noop.
  - rewrite (set_server_url_target _ _ _ _ _ _ Ho Ht).
    destruct Ht as (K & L & rest & -> & Hsv & HL & Hd).
    by rewrite (dict_set_id _ _ _ Hu), (heap_insert_same _ _ _ Hd).
Qed.

(** * Documents denoted by store values *)

Lemma obj_rel_impl (R R' : pyval → pyval → Prop) o o' :
  (∀ v v', R v v' → R' v v') → obj_rel R o o' → obj_rel R' o o'.
Proof.
  intros HR. destruct o, o'; simpl; try done.
  - apply Forall2_impl. done.
  - apply Forall2_impl. intros e e' [? ?]. eauto.
Qed.

Lemma obj_sim_refl h h' o : obj_sim h h' o o.
Proof.
  destruct o as [xs|K]; simpl.
  - induction xs; constructor; [by left | done].
  - induction K; constructor; [split; [done | by left] | done].
Qed.

Lemma reify_ref n h l :
  reify (S n) h (VRef l)
  = match h !! l with
    | Some (OList xs) => JArr <$> mapM (reify n h) xs
    | Some (ODict d) => JObj <$> mapM (λ kv, pair kv.1 <$> reify n h kv.2) d
    | None => None
    end.
Proof. done. Qed.

(** Objects whose members denote the same documents denote the same
    document. *)
Lemma reify_children n h h' l l' o o' t :
  h !! l = Some o → h' !! l' = Some o' →
  obj_rel (λ v v', ∀ t, reify n h v = Some t → reify n h' v' = Some t) o o' →
  reify (S n) h (VRef l) = Some t → reify (S n) h' (VRef l') = Some t.
Proof.
  intros Ho Ho' Hrel. rewrite !reify_ref, Ho, Ho'. clear Ho Ho'.
  destruct o as [xs|K], o' as [xs'|K']; simpl in Hrel; try done.
  - intros (ts & Hts & ->)%fmap_Some. apply fmap_Some. exists ts. split; [|done].
    apply mapM_Some in Hts. apply mapM_Some.
    revert ts Hts. induction Hrel as [|x x' xs xs' Hx _ IHs]; intros ts Hts.
    + by inversion Hts.
    + inversion Hts as [|? t0 ? ts0 Ht0 Hts0]; subst. constructor; [|by apply IHs].
      by apply Hx.
  - intros (ts & Hts & ->)%fmap_Some. apply fmap_Some. exists ts. split; [|done].
    apply mapM_Some in Hts. apply mapM_Some.
    revert ts Hts. induction Hrel as [|[k x] [k' x'] K K' [Hk Hx] _ IHs]; intros ts Hts.
    + by inversion Hts.
    + inversion Hts as [|? t0 ? ts0 Ht0 Hts0]; subst. constructor; [|by apply IHs].
      simpl in *. subst k'.
      apply fmap_Some in Ht0 as (tx & Htx & ->). apply fmap_Some. exists tx.
      split; [|done]. by apply Hx.
Qed.

Lemma reify_obj_sim n h h' l l' o o' t :
  (∀ v t, reify n h v = Some t → reify n h' v = Some t) →
  h !! l = Some o → h' !! l' = Some o' → obj_sim h h' o o' →
  reify (S n) h (VRef l) = Some t → reify (S n) h' (VRef l') = Some t.
Proof.
  intros IH Ho Ho' Hsim. eapply reify_children; [done..|].
  eapply obj_rel_impl; [|done]. intros v v' [<-|Hv] t'; [apply IH | apply Hv].
Qed.

(** If every object of [h] is still there in [h'], up to values that stand
    for the old ones, then every document read from [h] is read from [h']. *)
Lemma heap_le_sim h h' :
  (∀ l o, h !! l = Some o → ∃ o', h' !! l = Some o' ∧ obj_sim h h' o o') →
  heap_le h h'.
Proof.
  intros Hsim n. induction n as [|n IH]; intros v t.
  - by destruct v.
  - destruct v as [| | | | |l]; try done.
    intros Hr. pose proof Hr as Hr'. rewrite reify_ref in Hr'.
    destruct (h !! l) as [o|] eqn:Ho; [|done].
    destruct (Hsim _ _ Ho) as (o' & Ho' & Hoo').
    by eapply reify_obj_sim.
Qed.

Lemma heap_le_refl h : heap_le h h.
Proof. by intros n v t. Qed.

Lemma heap_le_trans h1 h2 h3 : heap_le h1 h2 → heap_le h2 h3 → heap_le h1 h3.
Proof. intros H12 H23 n v t Hr. by apply H23, H12. Qed.

Lemma heap_le_app h os : heap_le h (h ++ os).
Proof.
  apply heap_le_sim. intros l o Ho. exists o. split.
  - by apply heap_lookup_app.
  - apply obj_sim_refl.
Qed.

(** A copy denotes what the original denotes. *)
Lemma reify_copy n h l o t :
  h !! l = Some o →
  reify n h (VRef l) = Some t → reify n (h ++ [o]) (VRef (length h)) = Some t.
Proof.
  intros Ho. destruct n as [|n]; [done|].
  eapply reify_obj_sim; [..|apply obj_sim_refl]; [|done|].
  - intros v t'. apply heap_le_app.
  - rewrite heap_lookup_new0. done.
Qed.

Lemma dict_set_sim (R : pyval → pyval → Prop) k v v' K :
  dict_get k K = Some v → R v v' →
  Forall2 (λ e e' : pystr * pyval, e.1 = e'.1 ∧ (e.2 = e'.2 ∨ R e.2 e'.2))
    K (dict_set k v' K).
Proof.
  intros Hk HR. induction K as [|[k0 v0] K IH]; simpl in *; [done|].
  destruct (decide (k0 = k)) as [->|Hne].
  - injection Hk as ->. constructor; [split; [done | by right]|].
    clear. induction K; constructor; [split; [done | by left] | done].
  - constructor; [split; [done | by left] | by apply IH].
Qed.

(** Overwriting an entry of a dict by a value that stands for the old one. *)
Lemma heap_le_insert h x X k v v' :
  h !! x = Some (ODict X) → dict_get k X = Some v →
  (∀ n t, reify n h v = Some t
          → reify n (<[x := ODict (dict_set k v' X)]> h) v' = Some t) →
  heap_le h (<[x := ODict (dict_set k v' X)]> h).
Proof.
  intros Hx Hk Hv. apply heap_le_sim. intros l o Ho.
  destruct (decide (x = l)) as [<-|Hne].
  - rewrite Hx in Ho. injection Ho as <-. eexists. split.
    + by eapply heap_insert_eq.
    + simpl. by eapply (dict_set_sim (λ a b, ∀ n t, reify n h a = Some t → reify n _ b = Some t)).
  - exists o. split; [by rewrite list_lookup_insert_ne | apply obj_sim_refl].
Qed.

(** * The server step, once done, stays done *)

Lemma set_server_url_done c url h h' u :
  set_server_url (VRef c) url h = (h', Ok u) → server_done url h' c.
Proof.
  intros (o & Ho & [[Hn ->]|(d & D & Ht & ->)])%set_server_url_inv.
  - exists o. eauto.
  - destruct Ht as (K & L & rest & -> & Hsv & HL & Hd).
    assert (L ≠ d) as HLd by (intros ->; congruence).
    set (D' := dict_set k_url (VStr url) D).
    assert (<[d := ODict D']> h !! L = Some (OList (VRef d :: rest))) as HL'
      by (by rewrite list_lookup_insert_ne).
    assert (<[d := ODict D']> h !! d = Some (ODict D')) as Hd'
      by (by eapply heap_insert_eq).
    destruct (decide (d = c)) as [->|Hdc].
    + exists (ODict D'). split; [done|]. right. exists c, D'. split.
      * exists D', L, rest. split_and!; try done.
        unfold D'. rewrite dict_get_set_ne by apply k_url_ne_servers. congruence.
      * apply dict_get_set.
    + exists (ODict K). split; [by rewrite list_lookup_insert_ne|].
      right. exists d, D'. split; [|apply dict_get_set].
      exists K, L, rest. done.
Qed.

Lemma server_noop_app h os o : server_noop h o → server_noop (h ++ os) o.
Proof.
  destruct o as [xs|K]; simpl; [done|].
  destruct (dict_get k_servers K) as [[| | | | |L]|]; try done.
  intros [H|H]; [left|right]; by apply heap_lookup_app.
Qed.

Lemma server_target_app h os o d D :
  server_target h o d D → server_target (h ++ os) o d D.
Proof.
  intros (K & L & rest & -> & Hsv & HL & Hd). exists K, L, rest.
  split_and!; try done; by apply heap_lookup_app.
Qed.

Lemma server_done_app url h os c : server_done url h c → server_done url (h ++ os) c.
Proof.
  intros (o & Ho & H). exists o. split; [by apply heap_lookup_app|].
  destruct H as [Hn|(d & D & Ht & Hu)].
  - left. by apply server_noop_app.
  - right. exists d, D. split; [by apply server_target_app | done].
Qed.

Lemma server_done_copy url h c o :
  server_done url h c → h !! c = Some o → server_done url (h ++ [o]) (length h).
Proof.
  intros (o' & Ho' & H) Ho. rewrite Ho in Ho'. injection Ho' as <-.
  exists o. split; [by rewrite heap_lookup_new0|].
  destruct H as [Hn|(d & D & Ht & Hu)].
  - left. by apply server_noop_app.
  - right. exists d, D. split; [by apply server_target_app | done].
Qed.

(** Assigning another key of some dict does not undo the server step. *)
Lemma server_done_insert url h c x X k v :
  server_done url h c → h !! x = Some (ODict X) →
  k ≠ k_servers → k ≠ k_url → X ≠ [] ∨ x = c →
  server_done url (<[x := ODict (dict_set k v X)]> h) c.
Proof.
  intros (o & Ho & H) Hx Hks Hku HX.
  set (h' := <[x := ODict (dict_set k v X)]> h).
  assert (∀ l xs, h !! l = Some (OList xs) → h' !! l = Some (OList xs)) as Hlist.
  { intros l xs Hl. unfold h'. rewrite list_lookup_insert_ne; [done|]. congruence. }
  assert (h' !! x = Some (ODict (dict_set k v X))) as Hx' by (by eapply heap_insert_eq).
  destruct o as [xs|K].
  { exists (OList xs). split; [by apply Hlist|]. left.
    destruct H as [Hn|(d & D & (K & ? & ? & [=] & _) & _)]. done. }
  assert (∃ K', h' !! c = Some (ODict K')
                ∧ dict_get k_servers K' = dict_get k_servers K) as (K' & Hc' & HK').
  { destruct (decide (x = c)) as [->|Hne].
    - rewrite Hx in Ho. injection Ho as ->. eexists. split; [done|].
      by apply dict_get_set_ne.
    - exists K. split; [|done]. unfold h'. by rewrite list_lookup_insert_ne. }
  exists (ODict K'). split; [done|].
  destruct H as [Hn|(d & D & (K0 & L & rest & [= <-] & Hsv & HL & Hd) & Hu)].
  - left. simpl in *. rewrite HK'.
    destruct (dict_get k_servers K) as [[| | | | |L]|] eqn:Hsv; try done.
    destruct Hn as [HL|HL]; [left; by apply Hlist|right].
    unfold h'. rewrite list_lookup_insert_ne; [done|]. intros ->.
    rewrite Hx in HL. injection HL as ->. destruct HX as [? | ->]; [done|].
    rewrite Hx in Ho. injection Ho as <-. done.
  - right. destruct (decide (x = d)) as [->|Hne].
    + rewrite Hx in Hd. injection Hd as <-. exists d, (dict_set k v X). split.
      * exists K', L, rest. split_and!; try done; [congruence | by apply Hlist].
      * by rewrite dict_get_set_ne.
    + exists d, D. split; [|done].
      exists K', L, rest. split_and!; try done; [congruence | by apply Hlist |].
      unfold h'. by rewrite list_lookup_insert_ne.
Qed.

(** * Managed-identity variant: customising twice *)

Lemma customize_mi_inv spec url h h' r :
  ManagedIdentity.customize_openapi_spec_for_workspace spec url h = (h', Ok r) →
  ∃ l o, spec = VRef l ∧ h !! l = Some o ∧ r = VRef (length h)
         ∧ set_server_url (VRef (length h)) url (h ++ [o]) = (h', Ok tt).
Proof.
  unfold ManagedIdentity.customize_openapi_spec_for_workspace.
  intros (h1 & c & (l & o & -> & Ho & -> & ->)%py_copy_inv & H)%py_bind_inv.
  apply py_bind_inv in H as (h2 & u & Hs & H). destruct u. py_unfold. injection H as <- <-.
  eauto 8.
Qed.

Lemma customize_mi_rerun url h c o :
  h !! c = Some o → server_done url h c →
  ManagedIdentity.customize_openapi_spec_for_workspace (VRef c) url h
  = (h ++ [o], Ok (VRef (length h))).
Proof.
  intros Ho Hdone. unfold ManagedIdentity.customize_openapi_spec_for_workspace.
  rewrite (py_bind_eq _ _ _ _ _ (py_copy_eq _ _ _ Ho)).
  by rewrite (py_bind_eq _ _ _ _ _ (server_done_rerun _ _ _ (server_done_copy _ _ _ _ Hdone Ho))).
Qed.

Lemma customize_mi_twice spec url h h1 r1 :
  ManagedIdentity.customize_openapi_spec_for_workspace spec url h = (h1, Ok r1) →
  ∃ h2 r2,
    ManagedIdentity.customize_openapi_spec_for_workspace r1 url h1 = (h2, Ok r2)
    ∧ ∀ n t, reify n h1 r1 = Some t
             → reify n h2 r2 = Some t ∧ reify n h2 r1 = Some t.
Proof.
  intros (l & o & -> & Ho & -> & Hs)%customize_mi_inv.
  pose proof (set_server_url_done _ _ _ _ _ Hs) as Hdone.
  destruct Hdone as (o1 & Ho1 & Hd).
  eexists _, _. split.
  - apply customize_mi_rerun; [done|]. by exists o1.
  - intros n t Hr. split; [by eapply reify_copy | by apply heap_le_app].
Qed.

(** * PAT variant: the security-scheme step *)

Lemma py_new_eq o (h : heap) : py_new o h = (h ++ [o], Ok (VRef (length h))).
Proof. done. Qed.

Lemma set_security_schemes_inv c h h' u :
  Pat.set_security_schemes (VRef c) h = (h', Ok u) →
  ∃ o, h !! c = Some o ∧
       ((schemes_noop h o ∧ h' = h)
        ∨ ∃ p P, schemes_target h o p P
                 ∧ h' = <[p := ODict (dict_set k_securitySchemes
                                         (VRef (S (length h))) P)]>
                          (schemes_alloc h)).
Proof.
  unfold Pat.set_security_schemes.
  intros (h1 & has & [-> Hc]%py_contains_inv & H)%py_bind_inv.
  destruct (h !! c) as [o|] eqn:Ho; [|done]. exists o. split; [done|].
  destruct has.
  - apply py_bind_inv in H as (h1 & cv & [-> (l & K & [= <-] & Hl & Hcv)]%py_getitem_inv & H).
    rewrite Ho in Hl. injection Hl as ->.
    apply py_bind_inv in H as (h1 & has' & [-> Hc']%py_contains_inv & H).
    destruct has'.
    + rewrite (py_bind_eq _ _ _ _ _ (py_new_eq _ _)) in H.
      rewrite (py_bind_eq _ _ _ _ _ (py_new_eq _ _)) in H.
      rewrite <-app_assoc in H. cbn [app] in H.
      apply py_bind_inv in H as (h1 & cv' & [-> (l' & K' & [= <-] & Hl' & Hcv')]%py_getitem_inv & H).
      apply py_setitem_inv in H as (p & P & -> & Hp & ->).
      rewrite (heap_lookup_app _ _ _ _ Ho) in Hl'. injection Hl' as <-.
      rewrite Hcv in Hcv'. injection Hcv' as ->.
      destruct (h !! p) as [[xs|P0]|] eqn:Hp0; [| |done].
      { rewrite (heap_lookup_app _ _ _ _ Hp0) in Hp. done. }
      rewrite (heap_lookup_app _ _ _ _ Hp0) in Hp. injection Hp as ->.
      right. exists p, P. split.
      * exists K. split_and!; try done. symmetry in Hc'.
        by apply bool_decide_eq_true in Hc'.
      * rewrite length_app, Nat.add_comm. done.
    + injection H as <-. left. split; [|done]. simpl. rewrite Hcv.
      destruct cv as [| | | |s|p]; try done.
      destruct (h !! p) as [[xs|P]|]; [| |done]; symmetry in Hc'.
      * by apply bool_decide_eq_false in Hc'.
      * apply bool_decide_eq_false in Hc'.
        destruct (dict_get k_securitySchemes P); [|done]. destruct Hc'. eauto.
  - injection H as <-. left. split; [|done].
    destruct o as [xs|K]; simpl; symmetry in Hc.
    + by apply bool_decide_eq_false in Hc.
    + apply bool_decide_eq_false in Hc.
      destruct (dict_get k_components K); [|done]. destruct Hc. eauto.
Qed.

Lemma py_contains_str k s (h : heap) :
  py_contains k (VStr s) h = (h, Ok (str_contains k s)).
Proof. done. Qed.

Lemma set_security_schemes_noop c h o :
  h !! c = Some o → schemes_noop h o →
  Pat.set_security_schemes (VRef c) h = (h, Ok tt).
Proof.
  intros Ho Hn. unfold Pat.set_security_schemes. destruct o as [xs|K]; simpl in Hn.
  - rewrite (py_bind_eq _ _ _ _ _ (py_contains_list _ _ _ _ Ho)).
    by rewrite bool_decide_eq_false_2.
  - rewrite (py_bind_eq _ _ _ _ _ (py_contains_dict _ _ _ _ Ho)).
    destruct (dict_get k_components K) as [cv|] eqn:Hcv.
    2:{ rewrite bool_decide_eq_false_2; [done|]. by intros [? ?]. }
    rewrite bool_decide_eq_true_2 by eauto.
    rewrite (py_bind_eq _ _ _ _ _ (py_getitem_dict _ _ _ _ _ Ho Hcv)).
    destruct cv as [| | | |s|p]; try done.
    + rewrite (py_bind_eq _ _ _ _ _ (py_contains_str _ _ _)). by rewrite Hn.
    + destruct (h !! p) as [[xs|P]|] eqn:Hp; [| |done].
      * rewrite (py_bind_eq _ _ _ _ _ (py_contains_list _ _ _ _ Hp)).
        by rewrite bool_decide_eq_false_2.
      * rewrite (py_bind_eq _ _ _ _ _ (py_contains_dict _ _ _ _ Hp)).
        rewrite bool_decide_eq_false_2; [done|]. rewrite Hn. by intros [? ?].
Qed.

Lemma set_security_schemes_target c h o p P :
  h !! c = Some o → schemes_target h o p P →
  Pat.set_security_schemes (VRef c) h
  = (<[p := ODict (dict_set k_securitySchemes (VRef (S (length h))) P)]>
       (schemes_alloc h), Ok tt).
Proof.
  intros Ho (K & -> & Hcv & Hp & Hss). unfold Pat.set_security_schemes.
  rewrite (py_bind_eq _ _ _ _ _ (py_contains_dict _ _ _ _ Ho)).
  rewrite bool_decide_eq_true_2 by eauto.
  rewrite (py_bind_eq _ _ _ _ _ (py_getitem_dict _ _ _ _ _ Ho Hcv)).
  rewrite (py_bind_eq _ _ _ _ _ (py_contains_dict _ _ _ _ Hp)).
  rewrite bool_decide_eq_true_2 by done.
  rewrite (py_bind_eq _ _ _ _ _ (py_new_eq _ _)).
  rewrite (py_bind_eq _ _ _ _ _ (py_new_eq _ _)).
  rewrite <-app_assoc. cbn [app]. rewrite length_app, Nat.add_comm. cbn [length Nat.add].
  fold (schemes_alloc h).
  assert (schemes_alloc h !! c = Some (ODict K)) as Ho' by (by apply heap_lookup_app).
  assert (schemes_alloc h !! p = Some (ODict P)) as Hp' by (by apply heap_lookup_app).
  rewrite (py_bind_eq _ _ _ _ _ (py_getitem_dict _ _ _ _ _ Ho' Hcv)).
  by apply py_setitem_dict.
Qed.

Lemma bearer_at_app h os so si : bearer_at h so si → bearer_at (h ++ os) so si.
Proof. intros [H1 H2]. split; by apply heap_lookup_app. Qed.

Lemma bearer_at_alloc h : bearer_at (schemes_alloc h) (S (length h)) (length h).
Proof.
  unfold schemes_alloc. split.
  - by rewrite <-(Nat.add_1_r (length h)), heap_lookup_new.
  - by rewrite heap_lookup_new0.
Qed.

Lemma bearer_at_insert h so si x o :
  bearer_at h so si → x ≠ so → x ≠ si → bearer_at (<[x := o]> h) so si.
Proof. intros [H1 H2] ? ?. split; by rewrite list_lookup_insert_ne. Qed.

Lemma schemes_noop_app h os o : schemes_noop h o → schemes_noop (h ++ os) o.
Proof.
  destruct o as [xs|K]; simpl; [done|].
  destruct (dict_get k_components K) as [[| | | | |p]|]; try done.
  destruct (h !! p) as [o|] eqn:Hp; [|done].
  by rewrite (heap_lookup_app _ _ _ _ Hp).
Qed.

Lemma schemes_target_app h os o p P :
  schemes_target h o p P → schemes_target (h ++ os) o p P.
Proof.
  intros (K & -> & Hcv & Hp & Hss). exists K.
  split_and!; try done. by apply heap_lookup_app.
Qed.

Lemma schemes_done_app h os c : schemes_done h c → schemes_done (h ++ os) c.
Proof.
  intros (o & Ho & H). exists o. split; [by apply heap_lookup_app|].
  destruct H as [Hn|(p & P & so & si & Ht & Hss & Hb)].
  - left. by apply schemes_noop_app.
  - right. exists p, P, so, si.
    split_and!; [by apply schemes_target_app | done | by apply bearer_at_app].
Qed.

Lemma schemes_done_copy h c o :
  schemes_done h c → h !! c = Some o → schemes_done (h ++ [o]) (length h).
Proof.
  intros (o' & Ho' & H) Ho. rewrite Ho in Ho'. injection Ho' as <-.
  exists o. split; [by rewrite heap_lookup_new0|].
  destruct H as [Hn|(p & P & so & si & Ht & Hss & Hb)].
  - left. by apply schemes_noop_app.
  - right. exists p, P, so, si.
    split_and!; [by apply schemes_target_app | done | by apply bearer_at_app].
Qed.

Lemma set_security_schemes_done c h h' u :
  Pat.set_security_schemes (VRef c) h = (h', Ok u) → schemes_done h' c.
Proof.
  intros (o & Ho & [[Hn ->]|(p & P & Ht & ->)])%set_security_schemes_inv.
  - exists o. eauto.
  - destruct Ht as (K & -> & Hcv & Hp & Hss).
    set (P' := dict_set k_securitySchemes (VRef (S (length h))) P).
    assert (p < length h)%nat as Hlt by (by eapply lookup_lt_Some).
    assert (schemes_alloc h !! p = Some (ODict P)) as Hp1 by (by apply heap_lookup_app).
    assert (<[p := ODict P']> (schemes_alloc h) !! p = Some (ODict P')) as Hp'
      by (by eapply heap_insert_eq).
    assert (bearer_at (<[p := ODict P']> (schemes_alloc h)) (S (length h)) (length h)) as Hb.
    { apply bearer_at_insert; [apply bearer_at_alloc|lia..]. }
    destruct (decide (p = c)) as [->|Hpc].
    + rewrite Ho in Hp. injection Hp as <-.
      exists (ODict P'). split; [done|]. right. exists c, P', (S (length h)), (length h).
      split_and!; [|apply dict_get_set|done].
      exists P'. split_and!; try done.
      * unfold P'. by rewrite dict_get_set_ne by apply k_securitySchemes_ne_components.
      * unfold P'. rewrite dict_get_set. eauto.
    + exists (ODict K). split.
      { rewrite list_lookup_insert_ne by done. by apply heap_lookup_app. }
      right. exists p, P', (S (length h)), (length h).
      split_and!; [|apply dict_get_set|done].
      exists K. split_and!; try done. unfold P'. rewrite dict_get_set. eauto.
Qed.

(** Assigning another key of the document itself keeps the step done. *)
Lemma schemes_done_insert_self h c K k v :
  schemes_done h c → h !! c = Some (ODict K) →
  k ≠ k_components → k ≠ k_securitySchemes →
  schemes_done (<[c := ODict (dict_set k v K)]> h) c.
Proof.
  intros (o & Ho & H) Hc Hkc Hks. rewrite Hc in Ho. injection Ho as <-.
  set (K' := dict_set k v K). set (h' := <[c := ODict K']> h).
  assert (h' !! c = Some (ODict K')) as Hc' by (by eapply heap_insert_eq).
  assert (dict_get k_components K' = dict_get k_components K) as HK'
    by (by apply dict_get_set_ne).
  exists (ODict K'). split; [done|].
  destruct H as [Hn|(p & P & so & si & (K0 & [= <-] & Hcv & Hp & Hss) & Hso & Hb)].
  - left. simpl in *. rewrite HK'.
    destruct (dict_get k_components K) as [[| | | | |p]|]; try done.
    destruct (decide (c = p)) as [<-|Hne].
    + rewrite Hc', Hc in *. unfold K'. by rewrite dict_get_set_ne.
    + unfold h'. by rewrite list_lookup_insert_ne.
  - right.
    assert (c ≠ so) as Hcso.
    { intros ->. destruct Hb as [Hb _]. rewrite Hc in Hb. injection Hb as ->.
      revert Hcv. by compute. }
    assert (c ≠ si) as Hcsi.
    { intros ->. destruct Hb as [_ Hb]. rewrite Hc in Hb. injection Hb as ->.
      revert Hcv. by compute. }
    destruct (decide (c = p)) as [<-|Hne].
    + rewrite Hc in Hp. injection Hp as <-. exists c, K', so, si. split_and!.
      * exists K'. split_and!; try done; [congruence|].
        unfold K'. by rewrite dict_get_set_ne.
      * unfold K'. by rewrite dict_get_set_ne.
      * by apply bearer_at_insert.
    + exists p, P, so, si. split_and!; [|done|by apply bearer_at_insert].
      exists K'. split_and!; try done; [congruence|].
      unfold h'. by rewrite list_lookup_insert_ne.
Qed.

(** * PAT variant: the security-requirement step *)

Lemma security_at_alloc h : security_at (security_alloc h) (S (S (length h))).
Proof.
  exists (S (length h)), (length h). unfold security_alloc. split_and!.
  - by rewrite <-(Nat.add_1_r (length h)), <-Nat.add_1_r, <-Nat.add_assoc,
      heap_lookup_new.
  - by rewrite <-(Nat.add_1_r (length h)), heap_lookup_new.
  - by rewrite heap_lookup_new0.
Qed.

Lemma security_at_app h os s : security_at h s → security_at (h ++ os) s.
Proof.
  intros (q & e & Hs & Hq & He). exists q, e.
  split_and!; by apply heap_lookup_app.
Qed.

Lemma security_at_insert h s x X :
  security_at h s → h !! x = Some (ODict X) →
  (∃ k, k ≠ k_bearerAuth ∧ is_Some (dict_get k X)) →
  ∀ o, security_at (<[x := o]> h) s.
Proof.
  intros (q & e & Hs & Hq & He) Hx (k & Hk & [w Hw]) o. exists q, e.
  split_and!; (rewrite list_lookup_insert_ne; [done|]); intros ->; try congruence.
  rewrite Hx in Hq. injection Hq as ->. simpl in Hw.
  by rewrite decide_False in Hw by done.
Qed.

Lemma set_security_inv c h h' u :
  is_Some (h !! c) →
  Pat.set_security (VRef c) h = (h', Ok u) →
  ∃ K, h !! c = Some (ODict K)
       ∧ h' = <[c := ODict (dict_set k_security (VRef (S (S (length h)))) K)]>
                (security_alloc h).
Proof.
  unfold Pat.set_security.
  rewrite (py_bind_eq _ _ _ _ _ (py_new_eq _ _)).
  rewrite (py_bind_eq _ _ _ _ _ (py_new_eq _ _)).
  rewrite (py_bind_eq _ _ _ _ _ (py_new_eq _ _)).
  rewrite <-!app_assoc. cbn [app]. rewrite !length_app. cbn [length].
  rewrite !Nat.add_1_r. replace (length h + 2)%nat with (S (S (length h))) by lia.
  intros [o Ho] (l & K & [= <-] & Hc & ->)%py_setitem_inv.
  rewrite (heap_lookup_app _ _ _ _ Ho) in Hc. injection Hc as ->. eauto.
Qed.

Lemma set_security_eq c h K :
  h !! c = Some (ODict K) →
  Pat.set_security (VRef c) h
  = (<[c := ODict (dict_set k_security (VRef (S (S (length h)))) K)]>
       (security_alloc h), Ok tt).
Proof.
  intros Hc. unfold Pat.set_security.
  rewrite (py_bind_eq _ _ _ _ _ (py_new_eq _ _)).
  rewrite (py_bind_eq _ _ _ _ _ (py_new_eq _ _)).
  rewrite (py_bind_eq _ _ _ _ _ (py_new_eq _ _)).
  rewrite <-!app_assoc. cbn [app]. rewrite !length_app. cbn [length].
  rewrite !Nat.add_1_r. replace (length h + 2)%nat with (S (S (length h))) by lia. apply py_setitem_dict. by apply heap_lookup_app.
Qed.

Lemma security_done_app h os c : security_done h c → security_done (h ++ os) c.
Proof.
  intros (K & s & Hc & Hs & Hat). exists K, s.
  split_and!; [by apply heap_lookup_app | done | by apply security_at_app].
Qed.

Lemma security_done_copy h c o :
  security_done h c → h !! c = Some o → security_done (h ++ [o]) (length h).
Proof.
  intros (K & s & Hc & Hs & Hat) Ho. rewrite Ho in Hc. injection Hc as ->.
  exists K, s. split_and!; [by rewrite heap_lookup_new0 | done | by apply security_at_app].
Qed.

Lemma set_security_done c h h' u :
  is_Some (h !! c) →
  Pat.set_security (VRef c) h = (h', Ok u) → security_done h' c.
Proof.
  intros Hv (K & Hc & ->)%set_security_inv; [|done].
  assert (security_alloc h !! c = Some (ODict K)) as Hc' by (by apply heap_lookup_app).
  eexists _, _. split_and!.
  - by eapply heap_insert_eq.
  - apply dict_get_set.
  - destruct (security_at_alloc h) as (q & e & Hs & Hq & He).
    apply lookup_lt_Some in Hc.
    exists (S (length h)), (length h). unfold security_alloc.
    split_and!; (rewrite list_lookup_insert_ne by lia).
    + by rewrite <-(Nat.add_1_r (length h)), <-Nat.add_1_r, <-Nat.add_assoc,
        heap_lookup_new.
    + by rewrite <-(Nat.add_1_r (length h)), heap_lookup_new.
    + by rewrite heap_lookup_new0.
Qed.

(** Declaring the schemes again keeps the requirement in place. *)
Lemma security_done_schemes h c p P v :
  security_done h c → h !! p = Some (ODict P) →
  is_Some (dict_get k_securitySchemes P) →
  security_done (<[p := ODict (dict_set k_securitySchemes v P)]> h) c.
Proof.
  intros (K & s & Hc & Hs & Hat) Hp Hss.
  assert (security_at (<[p := ODict (dict_set k_securitySchemes v P)]> h) s) as Hat'.
  { eapply security_at_insert; [done..|]. exists k_securitySchemes.
    split; [by compute | done]. }
  destruct (decide (p = c)) as [->|Hne].
  - rewrite Hc in Hp. injection Hp as <-. eexists _, s. split_and!.
    + by eapply heap_insert_eq.
    + rewrite dict_get_set_ne; [done|]. by compute.
    + done.
  - exists K, s. split_and!; [by rewrite list_lookup_insert_ne | done..].
Qed.

(** * Fresh structures stand for the ones they replace *)

Lemma reify_scalar_sim n h h' v t :
  (∀ l, v ≠ VRef l) → reify n h v = Some t → reify n h' v = Some t.
Proof. intros Hv. destruct v, n; try done; by destruct (Hv l). Qed.

Lemma bearer_sim h h' so si so' si' :
  bearer_at h so si → bearer_at h' so' si' →
  ∀ n t, reify n h (VRef so) = Some t → reify n h' (VRef so') = Some t.
Proof.
  intros [Hso Hsi] [Hso' Hsi'] n t. destruct n as [|n]; [done|].
  eapply reify_children; [done..|]. constructor; [|constructor]. split; [done|].
  simpl. intros t'. destruct n as [|n]; [done|].
  eapply reify_children; [done..|].
  repeat constructor; simpl; intros t''; by apply reify_scalar_sim.
Qed.

Lemma security_sim h h' s s' :
  security_at h s → security_at h' s' →
  ∀ n t, reify n h (VRef s) = Some t → reify n h' (VRef s') = Some t.
Proof.
  intros (q & e & Hs & Hq & He) (q' & e' & Hs' & Hq' & He') n t.
  destruct n as [|n]; [done|].
  eapply reify_children; [done..|]. constructor; [|constructor].
  intros t'. destruct n as [|n]; [done|].
  eapply reify_children; [done..|]. constructor; [|constructor]. split; [done|].
  simpl. intros t''. destruct n as [|n]; [done|].
  eapply reify_children; [done..|]. constructor.
Qed.

(** * Running the steps again *)

Lemma schemes_rerun h c :
  schemes_done h c →
  ∃ h', Pat.set_security_schemes (VRef c) h = (h', Ok tt)
        ∧ heap_le h h'
        ∧ (∀ url, server_done url h c → server_done url h' c)
        ∧ (security_done h c → security_done h' c).
Proof.
  intros (o & Ho & [Hn|(p & P & so & si & Ht & Hss & Hb)]).
  - exists h. split_and!; [by eapply set_security_schemes_noop | apply heap_le_refl | done..].
  - eexists. split; [by eapply set_security_schemes_target|].
    destruct Ht as (K & -> & Hcv & Hp & _).
    assert (schemes_alloc h !! p = Some (ODict P)) as Hp' by (by apply heap_lookup_app).
    apply lookup_lt_Some in Hp as Hlt.
    split_and!.
    + eapply heap_le_trans; [apply (heap_le_app h)|].
      fold (schemes_alloc h). eapply heap_le_insert; [done..|].
      eapply bearer_sim; [by apply bearer_at_app|].
      apply bearer_at_insert; [apply bearer_at_alloc|lia..].
    + intros url Hd.
      apply server_done_insert;
        [ by apply server_done_app | done | apply k_securitySchemes_ne_servers
        | apply k_securitySchemes_ne_url | left; by intros -> ].
    + intros Hd. apply security_done_schemes; [by apply security_done_app|done|eauto].
Qed.

Lemma security_rerun h c :
  security_done h c →
  ∃ h', Pat.set_security (VRef c) h = (h', Ok tt) ∧ heap_le h h'.
Proof.
  intros (K & s & Hc & Hs & Hat).
  eexists. split; [by apply set_security_eq|].
  assert (security_alloc h !! c = Some (ODict K)) as Hc' by (by apply heap_lookup_app).
  eapply heap_le_trans; [apply (heap_le_app h)|].
  fold (security_alloc h). eapply heap_le_insert; [done..|].
  eapply security_sim; [by apply security_at_app|].
  pose proof (set_security_done c h _ tt (mk_is_Some _ _ Hc) (set_security_eq _ _ _ Hc))
    as (K' & s' & Hc2 & Hs2 & Hat2).
  rewrite (heap_insert_eq _ _ _ _ Hc') in Hc2. injection Hc2 as <-.
  rewrite dict_get_set in Hs2. by injection Hs2 as <-.
Qed.

(** * PAT variant: customising twice *)

Lemma customize_pat_inv spec url h h' r :
  Pat.customize_openapi_spec_for_workspace spec url h = (h', Ok r) →
  ∃ l o ha hb,
    spec = VRef l ∧ h !! l = Some o ∧ r = VRef (length h)
    ∧ set_server_url (VRef (length h)) url (h ++ [o]) = (ha, Ok tt)
    ∧ Pat.set_security_schemes (VRef (length h)) ha = (hb, Ok tt)
    ∧ Pat.set_security (VRef (length h)) hb = (h', Ok tt).
Proof.
  unfold Pat.customize_openapi_spec_for_workspace.
  intros (h1 & c & (l & o & -> & Ho & -> & ->)%py_copy_inv & H)%py_bind_inv.
  apply py_bind_inv in H as (ha & u1 & H1 & H).
  apply py_bind_inv in H as (hb & u2 & H2 & H).
  apply py_bind_inv in H as (hc & u3 & H3 & H).
  destruct u1, u2, u3. py_unfold. injection H as <- <-. eauto 12.
Qed.

(** After a run of the PAT customisation the three steps are done on the
    document it returns. *)
Lemma customize_pat_post spec url h h' r :
  Pat.customize_openapi_spec_for_workspace spec url h = (h', Ok r) →
  ∃ c o', r = VRef c ∧ h' !! c = Some o'
          ∧ server_done url h' c ∧ schemes_done h' c ∧ security_done h' c.
Proof.
  intros (l & o & ha & hb & -> & Ho & -> & H1 & H2 & H3)%customize_pat_inv.
  set (c := length h) in *.
  pose proof (set_server_url_done _ _ _ _ _ H1) as Hsrv.
  pose proof (set_security_schemes_done _ _ _ _ H2) as Hsch.
  assert (is_Some (hb !! c)) as Hv by (destruct Hsch as (? & ? & _); eauto).
  pose proof (set_security_done _ _ _ _ Hv H3) as Hsec.
  assert (server_done url hb c) as Hsrv'.
  { apply set_security_schemes_inv in H2 as (o2 & Ho2 & [[_ ->]|(p & P & Ht & ->)]); [done|].
    destruct Ht as (K & -> & Hcv & Hp & Hss).
    apply server_done_insert.
    - by apply server_done_app.
    - by apply heap_lookup_app.
    - apply k_securitySchemes_ne_servers.
    - apply k_securitySchemes_ne_url.
    - left. intros ->. by destruct Hss. }
  apply set_security_inv in H3 as (K & Hc & ->); [|done].
  assert (security_alloc hb !! c = Some (ODict K)) as Hc' by (by apply heap_lookup_app).
  exists c, (ODict (dict_set k_security (VRef (S (S (length hb)))) K)).
  split_and!; [done | by eapply heap_insert_eq | | | done].
  - apply server_done_insert; [by apply server_done_app | done | | | by right].
    + apply k_security_ne_servers.
    + apply k_security_ne_url.
  - apply schemes_done_insert_self; [by apply schemes_done_app | done | |].
    + apply k_security_ne_components.
    + apply k_security_ne_securitySchemes.
Qed.

Lemma customize_pat_rerun url h c o :
  h !! c = Some o →
  server_done url h c → schemes_done h c → security_done h c →
  ∃ h2, Pat.customize_openapi_spec_for_workspace (VRef c) url h
        = (h2, Ok (VRef (length h)))
        ∧ heap_le (h ++ [o]) h2.
Proof.
  intros Ho Hsrv Hsch Hsec.
  pose proof (server_done_copy _ _ _ _ Hsrv Ho) as Hsrv'.
  pose proof (schemes_done_copy _ _ _ Hsch Ho) as Hsch'.
  pose proof (security_done_copy _ _ _ Hsec Ho) as Hsec'.
  destruct (schemes_rerun _ _ Hsch') as (hb & H2 & Hle2 & _ & Hsec2).
  destruct (security_rerun _ _ (Hsec2 Hsec')) as (h2 & H3 & Hle3).
  exists h2. split; [|by eapply heap_le_trans].
  unfold Pat.customize_openapi_spec_for_workspace.
  rewrite (py_bind_eq _ _ _ _ _ (py_copy_eq _ _ _ Ho)).
  rewrite (py_bind_eq _ _ _ _ _ (server_done_rerun _ _ _ Hsrv')).
  rewrite (py_bind_eq _ _ _ _ _ H2).
  by rewrite (py_bind_eq _ _ _ _ _ H3).
Qed.

Lemma customize_pat_twice spec url h h1 r1 :
  Pat.customize_openapi_spec_for_workspace spec url h = (h1, Ok r1) →
  ∃ h2 r2,
    Pat.customize_openapi_spec_for_workspace r1 url h1 = (h2, Ok r2)
    ∧ ∀ n t, reify n h1 r1 = Some t
             → reify n h2 r2 = Some t ∧ reify n h2 r1 = Some t.
Proof.
  intros (c & o1 & -> & Ho1 & Hsrv & Hsch & Hsec)%customize_pat_post.
  destruct (customize_pat_rerun url h1 c o1) as (h2 & Hrun & Hle); try done.
  exists h2, (VRef (length h1)). split; [done|].
  intros n t Hr. split; apply Hle; [by eapply reify_copy | by apply heap_le_app].
Qed.

Lemma closed_lookup h l o v :
  closed h = true → h !! l = Some o → v ∈ obj_values o → val_in (length h) v = true.
Proof.
  intros Hc Ho Hv. unfold closed in Hc. rewrite forallb_forall in Hc.
  apply list_elem_of_lookup_2, list_elem_of_In, Hc in Ho.
  rewrite forallb_forall in Ho. by apply Ho, list_elem_of_In.
Qed.

Lemma dict_get_elem k K v : dict_get k K = Some v → v ∈ K.*2.
Proof.
  induction K as [|[k0 v0] K IH]; simpl; [done|].
  destruct (decide (k0 = k)); [intros [= ->]; left | right; auto].
Qed.

Lemma closed_dict_ref h l K k p :
  closed h = true → h !! l = Some (ODict K) → dict_get k K = Some (VRef p) →
  (p < length h)%nat.
Proof.
  intros Hc Ho Hk.
  pose proof (closed_lookup _ _ _ _ Hc Ho (dict_get_elem _ _ _ Hk)) as H.
  by apply bool_decide_eq_true in H.
Qed.

Lemma closed_list_head h l d rest :
  closed h = true → h !! l = Some (OList (VRef d :: rest)) → (d < length h)%nat.
Proof.
  intros Hc Ho.
  assert (VRef d ∈ obj_values (OList (VRef d :: rest))) as Hin by left.
  pose proof (closed_lookup _ _ _ _ Hc Ho Hin) as H.
  by apply bool_decide_eq_true in H.
Qed.

Lemma declares_scheme_schemes h v scheme :
  declares_scheme h v scheme → declares_schemes h v.
Proof.
  intros (c & K & p & P & ss & SS & -> & Hc & Hcv & Hp & Hss & _).
  exists c, K, p, P. split_and!; eauto.
Qed.

(** * PAT variant: a document that declares no security schemes *)

Lemma customize_pat_no_schemes spec url h h' r :
  closed h = true → ¬ declares_schemes h spec →
  Pat.customize_openapi_spec_for_workspace spec url h = (h', Ok r) →
  ∃ l K K', spec = VRef l ∧ h !! l = Some (ODict K) ∧ r = VRef (length h)
            ∧ h' !! length h = Some (ODict K')
            ∧ dict_get k_components K' = dict_get k_components K
            ∧ ¬ declares_schemes h' r.
Proof.
  intros Hcl Hno (l & o & ha & hb & -> & Ho & -> & H1 & H2 & H3)%customize_pat_inv.
  set (c := length h) in *.
  (* below [length h], the dicts of [ha] are those of [h] up to their "url" *)
  assert (ha !! c = Some o ∧ (length h ≤ length ha)%nat
          ∧ ∀ p P, (p < length h)%nat → ha !! p = Some (ODict P) →
                   ∃ P0, h !! p = Some (ODict P0)
                         ∧ dict_get k_securitySchemes P0
                           = dict_get k_securitySchemes P) as (Hac & Hlen & Hbelow).
  { apply set_server_url_inv in H1 as (o1 & Ho1 & [[_ ->]|(d & D & Ht & ->)]).
    - split_and!; [unfold c; by rewrite heap_lookup_new0 | rewrite length_app; lia |].
      intros p P Hp HP. rewrite lookup_app_l in HP by done. eauto.
    - destruct Ht as (K & L & rest & -> & Hsv & HL & Hd).
      unfold c in Ho1. rewrite heap_lookup_new0 in Ho1. injection Ho1 as ->.
      pose proof (closed_dict_ref _ _ _ _ _ Hcl Ho Hsv) as HLlt.
      rewrite lookup_app_l in HL by done.
      pose proof (closed_list_head _ _ _ _ Hcl HL) as Hdlt.
      rewrite lookup_app_l in Hd by done.
      split_and!.
      + rewrite list_lookup_insert_ne by (unfold c; lia).
        unfold c. by rewrite heap_lookup_new0.
      + rewrite length_insert, length_app. lia.
      + intros p P Hp HP. destruct (decide (d = p)) as [->|Hne].
        * rewrite list_lookup_insert_eq in HP by (rewrite length_app; lia).
          injection HP as <-. exists D. split; [done|].
          symmetry. apply dict_get_set_ne. by compute.
        * rewrite list_lookup_insert_ne, lookup_app_l in HP by done. eauto. }
  (* so the security-scheme step finds nothing to replace *)
  assert (hb = ha) as ->.
  { apply set_security_schemes_inv in H2 as (o2 & Ho2 & [[_ ->]|(p & P & Ht & _)]); [done|].
    destruct Ht as (K & -> & Hcv & Hp & Hss). exfalso. apply Hno.
    rewrite Hac in Ho2. injection Ho2 as ->.
    pose proof (closed_dict_ref _ _ _ _ _ Hcl Ho Hcv) as Hplt.
    destruct (Hbelow _ _ Hplt Hp) as (P0 & HP0 & Heq).
    exists l, K, p, P0. split_and!; try done. by rewrite Heq. }
  apply set_security_inv in H3 as (K & Hc & ->); [|by eexists].
  rewrite Hac in Hc. injection Hc as ->.
  set (K' := dict_set k_security (VRef (S (S (length ha)))) K).
  assert (<[c := ODict K']> (security_alloc ha) !! c = Some (ODict K')) as Hc'.
  { eapply heap_insert_eq. by apply heap_lookup_app. }
  assert (dict_get k_components K' = dict_get k_components K) as Hcomp.
  { apply dict_get_set_ne. by compute. }
  exists l, K, K'. split_and!; try done.
  intros (c0 & K0 & p & P & [= <-] & HK0 & Hcv & Hp & Hss). apply Hno.
  rewrite Hc' in HK0. injection HK0 as <-. rewrite Hcomp in Hcv.
  pose proof (closed_dict_ref _ _ _ _ _ Hcl Ho Hcv) as Hplt.
  rewrite list_lookup_insert_ne in Hp by (unfold c; lia).
  unfold security_alloc in Hp. rewrite lookup_app_l in Hp by lia.
  destruct (Hbelow _ _ Hplt Hp) as (P0 & HP0 & Heq).
  exists l, K, p, P0. split_and!; try done. by rewrite Heq.
Qed.

(** * Values that denote a document *)

Lemma reify_ref_is_Some n h l :
  is_Some (reify (S n) h (VRef l)) ↔ ∃ o, h !! l = Some o ∧ obj_denotes n h o.
Proof.
  rewrite reify_ref. unfold obj_denotes. destruct (h !! l) as [[xs|K]|].
  - rewrite fmap_is_Some, mapM_is_Some. split; [eauto|].
    by intros (o & [= <-] & H).
  - rewrite fmap_is_Some, mapM_is_Some. split.
    + intros H. eexists. split; [done|]. simpl. apply Forall_fmap.
      eapply Forall_impl; [|exact H]. intros [k v]. simpl. by rewrite fmap_is_Some.
    + intros (o & [= <-] & H). simpl in H.
      pose proof (proj1 (Forall_fmap snd (λ v, is_Some (reify n h v)) K) H) as H'.
      eapply Forall_impl; [|exact H']. intros [k v]. simpl. by rewrite fmap_is_Some.
  - split; [by intros [? ?] | by intros (? & ? & _)].
Qed.

Lemma reify_scalar_is_Some n h v : (∀ l, v ≠ VRef l) → is_Some (reify n h v).
Proof. intros Hv. destruct v, n; try done; by destruct (Hv l). Qed.

Lemma reify_fuel_S n h v : is_Some (reify n h v) → is_Some (reify (S n) h v).
Proof.
  revert v. induction n as [|n IH]; intros v.
  - destruct v; try done. by intros [? ?].
  - destruct v as [| | | | |l]; try done.
    rewrite !reify_ref_is_Some. intros (o & Ho & Hd). exists o. split; [done|].
    eapply Forall_impl; [|exact Hd]. apply IH.
Qed.

Lemma reify_fuel_le n m h v :
  (n ≤ m)%nat → is_Some (reify n h v) → is_Some (reify m h v).
Proof. induction 1; [done|]. intros Hn. by apply reify_fuel_S, IHle. Qed.

Lemma heap_le_is_Some h h' n v :
  heap_le h h' → is_Some (reify n h v) → is_Some (reify n h' v).
Proof. intros Hle [t Ht]. exists t. by apply Hle. Qed.

Lemma denotes_app h os v : denotes h v → denotes (h ++ os) v.
Proof. intros [n Hn]. exists n. eapply heap_le_is_Some; [apply heap_le_app | done]. Qed.

Lemma denotes_scalar h v : (∀ l, v ≠ VRef l) → denotes h v.
Proof. intros Hv. exists 0%nat. by apply reify_scalar_is_Some. Qed.

Lemma denotes_all h vs :
  Forall (denotes h) vs → ∃ n, Forall (λ v, is_Some (reify n h v)) vs.
Proof.
  induction 1 as [|v vs [n Hn] _ [m Hm]]; [by exists 0%nat|].
  exists (Nat.max n m). constructor.
  - eapply reify_fuel_le; [|done]. lia.
  - eapply Forall_impl; [|exact Hm]. intros w. apply reify_fuel_le. lia.
Qed.

Lemma denotes_ref h l o :
  h !! l = Some o → Forall (denotes h) (obj_values o) → denotes h (VRef l).
Proof.
  intros Ho [n Hn]%denotes_all. exists (S n). apply reify_ref_is_Some. eauto.
Qed.

Lemma denotes_ref_inv h l o :
  denotes h (VRef l) → h !! l = Some o → Forall (denotes h) (obj_values o).
Proof.
  intros [[|n] Hn] Ho; [by destruct Hn|].
  apply reify_ref_is_Some in Hn as (o' & Ho' & Hd). rewrite Ho in Ho'.
  injection Ho' as <-. eapply Forall_impl; [|exact Hd]. intros v Hv. by exists n.
Qed.

(** A fresh object whose members denote documents denotes one. *)
Lemma denotes_new h o :
  Forall (denotes h) (obj_values o) → denotes (h ++ [o]) (VRef (length h)).
Proof.
  intros Hd. eapply denotes_ref; [by rewrite heap_lookup_new0|].
  eapply Forall_impl; [|exact Hd]. intros v. apply denotes_app.
Qed.

Lemma Forall_dict_set (Q : pyval → Prop) k v K :
  Forall Q K.*2 → Q v → Forall Q (dict_set k v K).*2.
Proof.
  intros HK Hv. induction K as [|[k0 v0] K IH]; simpl in *; [by constructor|].
  apply Forall_cons_1 in HK as [H0 HK].
  destruct (decide (k0 = k)); simpl; constructor; auto.
Qed.

(** Assigning, in some dict, a value that can be read with fuel [c] keeps
    every value readable, with [c] more fuel. *)
Lemma reify_insert_is_Some h x X k v c :
  h !! x = Some (ODict X) →
  (∀ m, is_Some (reify (m + c) (<[x := ODict (dict_set k v X)]> h) v)) →
  ∀ n w, is_Some (reify n h w)
         → is_Some (reify (n + c) (<[x := ODict (dict_set k v X)]> h) w).
Proof.
  intros Hx Hv. induction n as [|n IH]; intros w.
  - destruct w; try (intros _; by apply reify_scalar_is_Some). by intros [? ?].
  - destruct w as [| | | | |l]; try (intros _; by apply reify_scalar_is_Some).
    cbn [Nat.add]. rewrite !reify_ref_is_Some. intros (o & Ho & Hd).
    destruct (decide (x = l)) as [<-|Hne].
    + rewrite Hx in Ho. injection Ho as <-. eexists. split.
      * by eapply heap_insert_eq.
      * apply Forall_dict_set; [|apply Hv].
        eapply Forall_impl; [|exact Hd]. apply IH.
    + exists o. split; [by rewrite list_lookup_insert_ne|].
      eapply Forall_impl; [|exact Hd]. apply IH.
Qed.

Lemma denotes_insert h x X k v c w :
  h !! x = Some (ODict X) →
  (∀ m, is_Some (reify (m + c) (<[x := ODict (dict_set k v X)]> h) v)) →
  denotes h w → denotes (<[x := ODict (dict_set k v X)]> h) w.
Proof.
  intros Hx Hv [n Hn]. exists (n + c)%nat. by eapply reify_insert_is_Some.
Qed.

(** * Customisation keeps documents readable *)

Lemma bearer_is_Some h so si m :
  bearer_at h so si → is_Some (reify (m + 2) h (VRef so)).
Proof.
  intros [Hso Hsi]. replace (m + 2)%nat with (S (S m)) by lia.
  apply reify_ref_is_Some. eexists. split; [done|].
  repeat constructor. apply reify_ref_is_Some. eexists. split; [done|].
  repeat constructor; by apply reify_scalar_is_Some.
Qed.

Lemma security_is_Some h s m :
  security_at h s → is_Some (reify (m + 3) h (VRef s)).
Proof.
  intros (q & e & Hs & Hq & He). replace (m + 3)%nat with (S (S (S m))) by lia.
  apply reify_ref_is_Some. eexists. split; [done|].
  repeat constructor. apply reify_ref_is_Some. eexists. split; [done|].
  repeat constructor. apply reify_ref_is_Some. eexists. split; [done|].
  constructor.
Qed.

Lemma set_server_url_denotes c url h h' u w :
  set_server_url (VRef c) url h = (h', Ok u) → denotes h w → denotes h' w.
Proof.
  intros (o & Ho & [[_ ->]|(d & D & Ht & ->)])%set_server_url_inv; [done|].
  destruct Ht as (K & L & rest & -> & _ & _ & Hd).
  apply (denotes_insert _ _ _ _ _ 0); [done|].
  intros m. by apply reify_scalar_is_Some.
Qed.

Lemma set_security_schemes_denotes c h h' u w :
  Pat.set_security_schemes (VRef c) h = (h', Ok u) → denotes h w → denotes h' w.
Proof.
  intros (o & Ho & [[_ ->]|(p & P & Ht & ->)])%set_security_schemes_inv; [done|].
  destruct Ht as (K & -> & _ & Hp & _). intros Hw.
  apply lookup_lt_Some in Hp as Hlt.
  apply (denotes_insert _ _ _ _ _ 2).
  - by apply heap_lookup_app.
  - intros m. eapply bearer_is_Some.
    apply bearer_at_insert; [apply bearer_at_alloc|lia..].
  - by apply denotes_app.
Qed.

Lemma security_at_alloc_insert h c o :
  (c < length h)%nat →
  security_at (<[c := o]> (security_alloc h)) (S (S (length h))).
Proof.
  intros Hc. exists (S (length h)), (length h). unfold security_alloc.
  split_and!; (rewrite list_lookup_insert_ne by lia).
  - by rewrite <-(Nat.add_1_r (length h)), <-Nat.add_1_r, <-Nat.add_assoc,
      heap_lookup_new.
  - by rewrite <-(Nat.add_1_r (length h)), heap_lookup_new.
  - by rewrite heap_lookup_new0.
Qed.

Lemma set_security_denotes c h h' u w :
  is_Some (h !! c) →
  Pat.set_security (VRef c) h = (h', Ok u) → denotes h w → denotes h' w.
Proof.
  intros Hc (K & HK & ->)%set_security_inv Hw; [|done].
  apply lookup_lt_Some in HK as Hlt.
  apply (denotes_insert _ _ _ _ _ 3).
  - by apply heap_lookup_app.
  - intros m. by apply security_is_Some, security_at_alloc_insert.
  - by apply denotes_app.
Qed.

(** The customised document denotes a document whenever the input does. *)
Lemma customize_denotes (m : mode) spec url h h1 r1 :
  customize_openapi_spec_for_workspace m spec url h = (h1, Ok r1) →
  denotes h spec → denotes h1 r1.
Proof.
  destruct m; simpl.
  - intros (l & o & -> & Ho & -> & H1)%customize_mi_inv Hd.
    eapply set_server_url_denotes; [done|].
    apply denotes_new. by eapply denotes_ref_inv.
  - intros (l & o & ha & hb & -> & Ho & -> & H1 & H2 & H3)%customize_pat_inv Hd.
    pose proof (set_security_schemes_done _ _ _ _ H2) as (o2 & Ho2 & _).
    eapply set_security_denotes; [by eexists | done |].
    eapply set_security_schemes_denotes; [done|].
    eapply set_server_url_denotes; [done|].
    apply denotes_new. by eapply denotes_ref_inv.
Qed.

(** * What [json.load] builds *)

Lemma json_nested_ind (P : json → Prop) :
  P JNull → (∀ b, P (JBool b)) → (∀ n, P (JInt n)) → (∀ f, P (JFloat f)) →
  (∀ s, P (JStr s)) →
  (∀ items, Forall P items → P (JArr items)) →
  (∀ members, Forall (λ kv, P kv.2) members → P (JObj members)) →
  ∀ j, P j.
Proof.
  intros Hnull Hbool Hint Hfloat Hstr Harr Hobj. fix IH 1.
  intros [|b|n|f|s|items|members];
    [exact Hnull | exact (Hbool b) | exact (Hint n) | exact (Hfloat f)
    | exact (Hstr s) | | ].
  - apply Harr. induction items as [|x xs IHxs]; constructor; [apply IH | exact IHxs].
  - apply Hobj. induction members as [|[k x] ms IHms]; constructor;
      [apply IH | exact IHms].
Qed.

Lemma val_in_mono n m v : (n ≤ m)%nat → val_in n v = true → val_in m v = true.
Proof.
  destruct v; try done. simpl. intros Hle H%bool_decide_eq_true.
  apply bool_decide_eq_true. lia.
Qed.

Lemma closed_spec h :
  closed h = true
  ↔ ∀ l o, h !! l = Some o →
           Forall (λ v, val_in (length h) v = true) (obj_values o).
Proof.
  unfold closed. rewrite forallb_forall. split.
  - intros H l o Ho. apply Forall_forall. intros v Hv.
    apply list_elem_of_lookup_2, list_elem_of_In in Ho.
    apply H in Ho. rewrite forallb_forall in Ho.
    by apply Ho.
  - intros H o Ho. apply list_elem_of_In, list_elem_of_lookup_1 in Ho as [l Ho].
    apply forallb_forall. intros v Hv.
    specialize (H _ _ Ho). rewrite Forall_forall in H. by apply H.
Qed.

Lemma closed_new h o :
  closed h = true →
  Forall (λ v, val_in (length h) v = true) (obj_values o) →
  closed (h ++ [o]) = true.
Proof.
  intros Hc Ho. apply closed_spec. intros l o' Hl.
  assert (length (h ++ [o]) = S (length h)) as -> by (rewrite length_app; simpl; lia).
  destruct (decide (l < length h)%nat) as [Hlt|Hge].
  - rewrite lookup_app_l in Hl by done.
    eapply Forall_impl; [|exact (proj1 (closed_spec h) Hc _ _ Hl)].
    intros v. apply val_in_mono. lia.
  - apply lookup_lt_Some in Hl as Hlt. rewrite length_app in Hlt. simpl in Hlt.
    assert (l = length h) as -> by lia. rewrite heap_lookup_new0 in Hl.
    injection Hl as <-. eapply Forall_impl; [|exact Ho].
    intros v. apply val_in_mono. lia.
Qed.

Lemma load_scalar v h :
  (∀ l, v ≠ VRef l) → closed h = true →
  ∃ os w, py_ret v h = (h ++ os, Ok w)
          ∧ closed (h ++ os) = true
          ∧ val_in (length (h ++ os)) w = true
          ∧ denotes (h ++ os) w.
Proof.
  intros Hv Hc. exists [], v. rewrite app_nil_r. split_and!; try done.
  - destruct v; try done. by destruct (Hv l).
  - by apply denotes_scalar.
Qed.

Lemma load_items_well items :
  Forall loads_well items →
  ∀ h, closed h = true →
  ∃ os xs, load_items json_load items h = (h ++ os, Ok xs)
           ∧ closed (h ++ os) = true
           ∧ Forall (λ v, val_in (length (h ++ os)) v = true) xs
           ∧ Forall (denotes (h ++ os)) xs.
Proof.
  induction 1 as [|j js Hj _ IH]; intros h Hc.
  - exists [], []. rewrite app_nil_r. by split_and!.
  - destruct (Hj h Hc) as (os1 & x & Hx & Hc1 & Hv1 & Hd1).
    destruct (IH _ Hc1) as (os2 & xs & Hxs & Hc2 & Hv2 & Hd2).
    exists (os1 ++ os2), (x :: xs). rewrite app_assoc. split_and!; try done.
    + cbn [load_items]. rewrite (py_bind_eq _ _ _ _ _ Hx).
      fold (load_items json_load). by rewrite (py_bind_eq _ _ _ _ _ Hxs).
    + constructor; [|done]. eapply val_in_mono; [|done].
      rewrite (length_app (h ++ os1)). lia.
    + constructor; [by apply denotes_app | done].
Qed.

Lemma load_members_well members :
  Forall (λ kv, loads_well kv.2) members →
  ∀ h acc, closed h = true →
  Forall (λ v, val_in (length h) v = true) acc.*2 →
  Forall (denotes h) acc.*2 →
  ∃ os d, load_members json_load members acc h = (h ++ os, Ok d)
          ∧ closed (h ++ os) = true
          ∧ Forall (λ v, val_in (length (h ++ os)) v = true) d.*2
          ∧ Forall (denotes (h ++ os)) d.*2.
Proof.
  induction 1 as [|[k j] ms Hj _ IH]; intros h acc Hc Hv Hd.
  - exists [], acc. rewrite app_nil_r. by split_and!.
  - simpl in Hj. destruct (Hj h Hc) as (os1 & x & Hx & Hc1 & Hv1 & Hd1).
    destruct (IH (h ++ os1) (dict_set k x acc) Hc1) as (os2 & d & Hms & Hc2 & Hv2 & Hd2).
    + apply Forall_dict_set; [|done]. eapply Forall_impl; [|exact Hv].
      intros v. apply val_in_mono. rewrite length_app. lia.
    + apply Forall_dict_set; [|done]. eapply Forall_impl; [|exact Hd].
      intros v. apply denotes_app.
    + exists (os1 ++ os2), d. rewrite app_assoc. split_and!; try done.
      cbn [load_members]. rewrite (py_bind_eq _ _ _ _ _ Hx).
      fold (load_members json_load). done.
Qed.

Lemma load_new h os o :
  closed (h ++ os) = true →
  Forall (λ v, val_in (length (h ++ os)) v = true) (obj_values o) →
  Forall (denotes (h ++ os)) (obj_values o) →
  ∃ os' v, py_new o (h ++ os) = (h ++ os', Ok v)
           ∧ closed (h ++ os') = true
           ∧ val_in (length (h ++ os')) v = true
           ∧ denotes (h ++ os') v.
Proof.
  intros Hc Hv Hd. exists (os ++ [o]), (VRef (length (h ++ os))).
  rewrite app_assoc. split_and!; [done | by apply closed_new | | by apply denotes_new].
  simpl. apply bool_decide_eq_true. rewrite (length_app (h ++ os)). simpl. lia.
Qed.

Lemma json_load_well j : loads_well j.
Proof.
  induction j as [|b|n|f|s|items IH|members IH] using json_nested_ind; intros h Hc.
  - by apply load_scalar.
  - by apply load_scalar.
  - by apply load_scalar.
  - by apply load_scalar.
  - by apply load_scalar.
  - destruct (load_items_well _ IH h Hc) as (os & xs & Hxs & Hc' & Hv & Hd).
    destruct (load_new h os (OList xs) Hc' Hv Hd) as (os' & v & Hnew & Hrest).
    exists os', v. split; [|done]. cbn [json_load].
    by rewrite (py_bind_eq _ _ _ _ _ Hxs).
  - destruct (load_members_well _ IH h [] Hc) as (os & d & Hd & Hc' & Hv & Hden);
      [by constructor..|].
    destruct (load_new h os (ODict d) Hc' Hv Hden) as (os' & v & Hnew & Hrest).
    exists os', v. split; [|done]. cbn [json_load].
    by rewrite (py_bind_eq _ _ _ _ _ Hd).
Qed.

(** [json.load] of any document, in the empty store, returns a value that
    denotes a document, in a closed store. *)
Lemma json_load_denotes j :
  ∃ h v, json_load j [] = (h, Ok v) ∧ closed h = true ∧ denotes h v.
Proof.
  destruct (json_load_well j [] eq_refl) as (os & v & Hl & Hc & _ & Hd).
  exists os, v. done.
Qed.

(** A document read by [json.load] and customised: the output denotes a
    document, and customising the output again yields a value that denotes
    the same document. *)
Lemma customize_loaded_twice (m : mode) j url h spec h1 r1 :
  json_load j [] = (h, Ok spec) →
  customize_openapi_spec_for_workspace m spec url h = (h1, Ok r1) →
  ∃ n t h2 r2,
    reify n h1 r1 = Some t
    ∧ customize_openapi_spec_for_workspace m r1 url h1 = (h2, Ok r2)
    ∧ reify n h2 r2 = Some t.
Proof.
  intros Hload Hrun.
  destruct (json_load_denotes j) as (h0 & v0 & Hload0 & _ & Hden).
  rewrite Hload in Hload0. injection Hload0 as <- <-.
  destruct (customize_denotes _ _ _ _ _ _ Hrun Hden) as (n & t & Ht).
  assert (∃ h2 r2,
    customize_openapi_spec_for_workspace m r1 url h1 = (h2, Ok r2)
    ∧ ∀ n t, reify n h1 r1 = Some t
             → reify n h2 r2 = Some t ∧ reify n h2 r1 = Some t)
    as (h2 & r2 & Hrun2 & Hsame)
    by (destruct m; [by eapply customize_mi_twice | by eapply customize_pat_twice]).
  exists n, t, h2, r2. split_and!; [done | done | by apply Hsame].
Qed.

(* ===================================================================== *)
(** * Theorems about spec customisation                                   *)
(* ===================================================================== *)

(** C3 (the code departs from it).  At a document with one server entry,
    in both modes, the call changes the caller's document: before the call
    the input reads as [bare_document], after the call the very same input
    value reads as a document whose server URL is the workspace URL. *)
Theorem customize_mutates_input (m : mode) :
  reify 3 bare_store bare_spec = Some bare_document
  ∧ ∃ h' r,
      customize_openapi_spec_for_workspace m bare_spec new_url bare_store = (h', Ok r)
      ∧ reify 3 h' bare_spec
        = Some (JObj [ (k_servers, JArr [JObj [(k_url, JStr new_url)]]) ])
      ∧ reify 3 h' bare_spec ≠ reify 3 bare_store bare_spec.
Proof.
  split; [by vm_compute|].
  destruct m.
  - eexists _, _. split; [by vm_compute|]. split; by vm_compute.
  - eexists _, _. split; [by vm_compute|]. split; by vm_compute.
Qed.

(** C9.  Customising the output of a customisation again, with the same
    workspace URL, succeeds; the first output denotes a document whenever
    the input does; and the document the first output denotes is the one
    the second output denotes (and the one the first output denotes
    afterwards); in both modes. *)
Theorem customize_idempotent (m : mode) spec url h h1 r1 :
  customize_openapi_spec_for_workspace m spec url h = (h1, Ok r1) →
  ∃ h2 r2,
    customize_openapi_spec_for_workspace m r1 url h1 = (h2, Ok r2)
    ∧ (denotes h spec → denotes h1 r1)
    ∧ ∀ n t, reify n h1 r1 = Some t
             → reify n h2 r2 = Some t ∧ reify n h2 r1 = Some t.
Proof.
  intros Hrun.
  assert (∃ h2 r2,
    customize_openapi_spec_for_workspace m r1 url h1 = (h2, Ok r2)
    ∧ ∀ n t, reify n h1 r1 = Some t
             → reify n h2 r2 = Some t ∧ reify n h2 r1 = Some t)
    as (h2 & r2 & Hrun2 & Hsame)
    by (destruct m; [by eapply customize_mi_twice | by eapply customize_pat_twice]).
  exists h2, r2. split_and!; [done | | done].
  by eapply customize_denotes.
Qed.

Lemma customize_idempotent_witness :
  ∃ h1 r1 h2 r2 t,
    customize_openapi_spec_for_workspace ModeB sample_spec new_url sample_store
    = (h1, Ok r1)
    ∧ customize_openapi_spec_for_workspace ModeB r1 new_url h1 = (h2, Ok r2)
    ∧ reify 5 h1 r1 = Some t ∧ reify 5 h2 r2 = Some t.
Proof.
  destruct sample_once as [h1 [r1|e]] eqn:E; [|by vm_compute in E].
  assert (customize_openapi_spec_for_workspace ModeB sample_spec new_url sample_store
          = (h1, Ok r1)) as Hrun by (rewrite <-E; by vm_compute).
  destruct (customize_idempotent ModeB _ _ _ _ _ Hrun) as (h2 & r2 & Hrun2 & _ & Heq).
  destruct (reify 5 h1 r1) as [t|] eqn:Ht.
  - exists h1, r1, h2, r2, t. split_and!; try done. by apply Heq.
  - exfalso. vm_compute in E. injection E as <- <-. by vm_compute in Ht.
Defined.

(** C10.  Whenever the PAT customisation returns, the top-level security
    requirement of the returned document is [[{"bearerAuth": []}]]; and when
    the input (in a closed store) has no [components.securitySchemes], the
    returned document has the [components] entry of the input, still has no
    [components.securitySchemes], and so requires a scheme, [bearerAuth],
    that it does not declare. *)
Theorem customize_pat_sets_security spec url h h' r :
  Pat.customize_openapi_spec_for_workspace spec url h = (h', Ok r) →
  requires_bearer_only h' r
  ∧ (closed h = true → ¬ declares_schemes h spec →
     (∃ l K K', spec = VRef l ∧ h !! l = Some (ODict K) ∧ r = VRef (length h)
                ∧ h' !! length h = Some (ODict K')
                ∧ dict_get k_components K' = dict_get k_components K)
     ∧ ¬ declares_schemes h' r
     ∧ ¬ declares_scheme h' r k_bearerAuth).
Proof.
  intros Hrun. split.
  - apply customize_pat_post in Hrun as (c & o' & -> & _ & _ & _ & Hsec).
    destruct Hsec as (K & s & Hc & Hs & q & e & Hs' & Hq & He).
    exists c, K, s, q, e. by split_and!.
  - intros Hcl Hno.
    destruct (customize_pat_no_schemes _ _ _ _ _ Hcl Hno Hrun)
      as (l & K & K' & -> & Hl & -> & HK' & Hcomp & Hno').
    split_and!; [exists l, K, K'; by split_and! | done |].
    intros Hd. by apply declares_scheme_schemes, Hno' in Hd.
Qed.

Lemma customize_pat_sets_security_witness :
  ∃ h' r,
    Pat.customize_openapi_spec_for_workspace bare_spec new_url bare_store = (h', Ok r)
    ∧ requires_bearer_only h' r
    ∧ ¬ declares_scheme h' r k_bearerAuth.
Proof.
  destruct (Pat.customize_openapi_spec_for_workspace bare_spec new_url bare_store)
    as [h' [r|e]] eqn:E; [|by vm_compute in E].
  exists h', r. split; [done|].
  destruct (customize_pat_sets_security _ _ _ _ _ E) as [Hreq Hrest].
  split; [done|]. apply Hrest; [by vm_compute|].
  intros (c & K & p & P & Hc & HK & Hcv & _).
  vm_compute in Hc. injection Hc as <-. vm_compute in HK. injection HK as <-.
  by vm_compute in Hcv.
Defined.

(** * Documents of the expected shape are customised without error *)

(** X6.  Either script customises without raising every document that is
    a dict whose [servers], if present, is a list that is empty or starts
    with a dict, and whose [components], if present, is a dict. *)
Lemma customize_returns (m : mode) h spec url :
  well_shaped h spec →
  ∃ h' r, customize_openapi_spec_for_workspace m spec url h = (h', Ok r).
Proof.
  intros (c & K & -> & Hc & Hsrv & Hcomp).
  set (c' := length h). set (h1 := h ++ [ODict K]).
  assert (h1 !! c' = Some (ODict K)) as Hc' by apply heap_lookup_new0.
  (* the server step *)
  assert (∃ ha, set_server_url (VRef c') url h1 = (ha, Ok tt)
                ∧ ha !! c' = Some (ODict K)
                ∧ ∀ p P, h !! p = Some (ODict P) → ∃ P', ha !! p = Some (ODict P'))
    as (ha & Hstep1 & Hac & Hdicts).
  { destruct (dict_get k_servers K) as [[| | | | |L]|] eqn:HL; try done.
    - destruct Hsrv as (xs & HLx & Hxs). destruct xs as [|x rest].
      + exists h1. split_and!; [|done|].
        * eapply set_server_url_noop; [done|]. simpl. rewrite HL. left.
          by apply heap_lookup_app.
        * intros p P Hp. exists P. by apply heap_lookup_app.
      + destruct Hxs as (d & D & -> & Hd).
        eexists. split_and!.
        * eapply (set_server_url_target _ _ _ _ d D); [done|]. exists K, L, rest.
          split_and!; try done; by apply heap_lookup_app.
        * apply lookup_lt_Some in Hd. rewrite list_lookup_insert_ne; [done|].
          unfold c'. lia.
        * intros p P Hp. destruct (decide (d = p)) as [->|Hne].
          -- eexists. eapply heap_insert_eq. by apply heap_lookup_app.
          -- exists P. rewrite list_lookup_insert_ne by done.
             by apply heap_lookup_app.
    - exists h1. split_and!; [|done|].
      + eapply set_server_url_noop; [done|]. simpl. by rewrite HL.
      + intros p P Hp. exists P. by apply heap_lookup_app. }
  destruct m; simpl.
  { unfold ManagedIdentity.customize_openapi_spec_for_workspace.
    rewrite (py_bind_eq _ _ _ _ _ (py_copy_eq _ _ _ Hc)).
    rewrite (py_bind_eq _ _ _ _ _ Hstep1). by eexists _, _. }
  (* the security-scheme step *)
  assert (∃ hb Kb, Pat.set_security_schemes (VRef c') ha = (hb, Ok tt)
                   ∧ hb !! c' = Some (ODict Kb)) as (hb & Kb & Hstep2 & Hbc).
  { destruct (dict_get k_components K) as [[| | | | |p]|] eqn:Hp; try done.
    - destruct Hcomp as (P & HP). destruct (Hdicts _ _ HP) as (P' & HP').
      destruct (dict_get k_securitySchemes P') as [v|] eqn:Hss.
      + assert (p ≠ c') as Hne.
        { apply lookup_lt_Some in HP. unfold c'. lia. }
        eexists _, K. split.
        * eapply (set_security_schemes_target _ _ _ p P'); [done|]. exists K.
          split_and!; try done.
        * rewrite list_lookup_insert_ne by done. by apply heap_lookup_app.
      + exists ha, K. split; [|done].
        eapply set_security_schemes_noop; [done|]. simpl. by rewrite Hp, HP'.
    - exists ha, K. split; [|done].
      eapply set_security_schemes_noop; [done|]. simpl. by rewrite Hp. }
  (* the security-requirement step *)
  unfold Pat.customize_openapi_spec_for_workspace.
  rewrite (py_bind_eq _ _ _ _ _ (py_copy_eq _ _ _ Hc)).
  rewrite (py_bind_eq _ _ _ _ _ Hstep1), (py_bind_eq _ _ _ _ _ Hstep2).
  rewrite (py_bind_eq _ _ _ _ _ (set_security_eq _ _ _ Hbc)). by eexists _, _.
Qed.

(* ===================================================================== *)
(** * Properties of runs                                                  *)
(* ===================================================================== *)

Lemma run_bind {A B} (w : world) (m : prog A) (k : A → prog B) s :
  run w (m ≫= k) s
  = match run w m s with
    | (s1, tr1, Ok a) => let '(s2, tr2, r) := run w (k a) s1 in (s2, tr1 ++ tr2, r)
    | (s1, tr1, Err e) => (s1, tr1, Err e)
    end.
Proof.
  unfold mbind, prog_mbind. revert s.
  induction m as [a|e|c k' IH]; intros s; simpl.
  - by destruct (run w (k a) s) as [[s2 tr2] r].
  - done.
  - destruct (respond w c s) as [s' [x|e]]; [|done].
    rewrite IH. destruct (run w (k' x) s') as [[s1 tr1] [a|e]]; [|done].
    by destruct (run w (k a) s1) as [[s2 tr2] r].
Qed.

Lemma run_bind_ok {A B} (w : world) (m : prog A) (k : A → prog B) s s' tr b :
  run w (m ≫= k) s = (s', tr, Ok b) →
  ∃ s1 tr1 a tr2,
    run w m s = (s1, tr1, Ok a) ∧ run w (k a) s1 = (s', tr2, Ok b)
    ∧ tr = tr1 ++ tr2.
Proof.
  rewrite run_bind. destruct (run w m s) as [[s1 tr1] [a|e]]; [|done].
  destruct (run w (k a) s1) as [[s2 tr2] r] eqn:Hk.
  intros [= <- <- ->]. eauto 8.
Qed.

Lemma run_perform (w : world) c s :
  run w (perform c) s
  = match respond w c s with
    | (s', Ok x) => (s', [c], Ok x)
    | (s', Err e) => (s', [c], Err e)
    end.
Proof. simpl. by destruct (respond w c s) as [s' [x|e]]. Qed.

Lemma all_calls_bind {A B} (P : call → Prop) (m : prog A) (k : A → prog B) :
  all_calls P m → (∀ a, all_calls P (k a)) → all_calls P (m ≫= k).
Proof.
  unfold mbind, prog_mbind. intros Hm Hk.
  induction m as [a|e|c k' IH]; simpl in *; [done..|].
  destruct Hm as [Hc Hk']. split; [done|]. intros x. by apply IH.
Qed.

Lemma all_calls_impl {A} (P Q : call → Prop) (p : prog A) :
  (∀ c, P c → Q c) → all_calls P p → all_calls Q p.
Proof.
  intros HPQ. induction p as [a|e|c k IH]; simpl; [done..|].
  intros [Hc Hk]. split; [by apply HPQ|]. intros x. by apply IH.
Qed.

Lemma all_calls_perform (P : call → Prop) c : P c → all_calls P (perform c).
Proof. by split. Qed.

Lemma run_all_calls {A} (P : call → Prop) (w : world) (p : prog A) s s' tr r :
  all_calls P p → run w p s = (s', tr, r) → Forall P tr.
Proof.
  revert s s' tr r. induction p as [a|e|c k IH]; intros s s' tr r; simpl.
  - intros _ [= <- <- <-]. constructor.
  - intros _ [= <- <- <-]. constructor.
  - intros [Hc Hk]. destruct (respond w c s) as [s1 [x|e]].
    + destruct (run w (k x) s1) as [[s2 tr2] r2] eqn:Hr.
      intros [= <- <- <-]. constructor; [done|]. by eapply IH.
    + intros [= <- <- <-]. by repeat constructor.
Qed.

(** A program that issues no agent call leaves the platform as it is. *)
Lemma run_platform_frame {A} (E : world) (p : prog A) s P s' P' tr r :
  all_calls (λ c, is_agent_call c = false) p →
  run (with_platform E) p (s, P) = ((s', P'), tr, r) → P' = P.
Proof.
  revert s s' tr r. induction p as [a|e|c k IH]; intros s s' tr r; simpl.
  - intros _ H. by injection H as <- <-.
  - intros _ H. by injection H as <- <-.
  - intros [Hc Hk].
    assert (∃ s1 r1, respond (with_platform E) c (s, P) = ((s1, P), r1))
      as (s1 & r1 & Hresp).
    { destruct c; try done; simpl;
        match goal with |- context [respond E ?c s] =>
          destruct (respond E c s) as [s1 r1] end; eauto. }
    simpl in Hresp. rewrite Hresp. destruct r1 as [x|e].
    + destruct (run (with_platform E) (k x) (s1, P)) as [[s2 tr2] r2] eqn:Hr.
      intros H. injection H as -> _ _. by eapply IH.
    + intros H. by injection H as <- <-.
Qed.

(** ** The platform keeps the id of an agent it updates *)

Lemma platform_update_found agent_id args P a :
  find (has_id agent_id) (agents P) = Some a →
  ∃ P' a', platform_update agent_id args P = (P', Ok a') ∧ a_id a' = agent_id.
Proof.
  intros Hf. unfold platform_update.
  set (upd := λ x, if has_id agent_id x then overwrite args x else x).
  assert (∃ a', find (has_id agent_id) (map upd (agents P)) = Some a') as [a' Ha'].
  { induction (agents P) as [|x xs IH]; simpl in *; [done|].
    unfold upd at 1. destruct (has_id agent_id x) eqn:Hx.
    - unfold has_id at 1. simpl. unfold has_id in Hx. rewrite Hx. eauto.
    - rewrite Hx. auto. }
  rewrite Ha'. eexists _, a'. split; [done|].
  apply find_some in Ha' as [_ Hid]. by apply bool_decide_eq_true in Hid.
Qed.

Lemma find_agent_has_id agent_name listing a :
  find_agent agent_name listing = Some a →
  ∃ b, find (has_id (a_id a)) listing = Some b.
Proof.
  intros Hf. apply find_some in Hf as [Hin _].
  destruct (find (has_id (a_id a)) listing) as [b|] eqn:Hb; [eauto|].
  eapply find_none in Hb; [|done]. unfold has_id in Hb.
  by rewrite bool_decide_eq_true_2 in Hb.
Qed.

(** After the agent a scan found has been updated under the same name, a
    scan for that name finds an agent with the same id. *)
Lemma platform_update_find agent_name args P P' a a' :
  arg_name args = Some agent_name →
  find_agent agent_name (agents P) = Some a →
  platform_update (a_id a) args P = (P', Ok a') →
  ∃ b, find_agent agent_name (agents P') = Some b ∧ a_id b = a_id a.
Proof.
  intros Hname Hf. unfold platform_update.
  set (upd := λ x, if has_id (a_id a) x then overwrite args x else x).
  destruct (find (has_id (a_id a)) (map upd (agents P))) as [a0|]; [|done].
  intros [= <- <-]. cbn [agents]. clear a0.
  assert (∀ x, a_name (overwrite args x) = agent_name) as Hov
    by (intros x; simpl; by rewrite Hname).
  assert (∀ x, has_id (a_id a) x = true →
               a_name (upd x) = agent_name ∧ a_id (upd x) = a_id a) as Hhit.
  { intros x Hx. unfold upd. rewrite Hx. split; [apply Hov|].
    simpl. by apply bool_decide_eq_true in Hx. }
  assert (∀ x, has_id (a_id a) x = false → upd x = x) as Hmiss.
  { intros x Hx. unfold upd. by rewrite Hx. }
  unfold find_agent in *. revert Hf.
  induction (agents P) as [|x xs IH]; [done|]. cbn [find map].
  destruct (bool_decide (a_name x = agent_name)) eqn:Hx.
  - intros [= ->].
    destruct (Hhit a) as [Hn Hi]; [by apply bool_decide_eq_true_2|].
    destruct (bool_decide (a_name (upd a) = agent_name)) eqn:Hb; [by eexists|].
    by apply bool_decide_eq_false in Hb.
  - intros Hf. destruct (has_id (a_id a) x) eqn:Hid.
    + destruct (Hhit x Hid) as [Hn Hi].
      destruct (bool_decide (a_name (upd x) = agent_name)) eqn:Hb; [by eexists|].
      by apply bool_decide_eq_false in Hb.
    + rewrite (Hmiss x Hid), Hx. by apply IH.
Qed.

(** * The stages of the two workflows *)

Lemma all_calls_fresh {A} (P : call → Prop) (m : py A) : all_calls P (in_fresh_store m).
Proof. unfold in_fresh_store. by destruct (m []) as [h [a|e]]. Qed.

Lemma load_quiet : all_calls quiet load_databricks_openapi_spec.
Proof.
  unfold load_databricks_openapi_spec. apply all_calls_bind.
  - by apply all_calls_perform.
  - intros []; [by apply all_calls_perform | done].
Qed.

Lemma json_get_quiet d k dflt : all_calls quiet (Pat.json_get d k dflt).
Proof. by destruct d. Qed.

(** The reconcilers issue agent calls only. *)
Lemma reconcile_mi_calls agent_name model tool :
  all_calls (λ c, is_agent_call c = true)
    (ManagedIdentity.reconcile agent_name model tool).
Proof.
  unfold ManagedIdentity.reconcile. apply all_calls_bind; [by apply all_calls_perform|].
  intros listing. destruct (find_agent agent_name listing).
  - apply all_calls_bind; [by apply all_calls_perform | done].
  - apply all_calls_bind; [by apply all_calls_perform | done].
Qed.

(** What the managed-identity reconciler does once the listing holds an
    agent of the wanted name. *)
Lemma reconcile_mi_found (w : world) s s1 listing a agent_name model tool :
  respond w list_agents s = (s1, Ok listing) →
  find_agent agent_name listing = Some a →
  run w (ManagedIdentity.reconcile agent_name model tool) s
  = match respond w (update_agent (a_id a)
                       (ManagedIdentity.desired agent_name model tool)) s1 with
    | (s2, Ok _) =>
        (s2, [list_agents;
              update_agent (a_id a) (ManagedIdentity.desired agent_name model tool)],
         Ok (a_id a))
    | (s2, Err e) =>
        (s2, [list_agents;
              update_agent (a_id a) (ManagedIdentity.desired agent_name model tool)],
         Err e)
    end.
Proof.
  intros Hl Hf. unfold ManagedIdentity.reconcile.
  rewrite run_bind. unfold perform. cbn [run]. rewrite Hl, Hf, run_bind. cbn [run].
  by destruct (respond w _ s1) as [s2 [x|e]].
Qed.

Lemma reconcile_mi_platform (E : world) s P a agent_name model tool :
  find_agent agent_name (agents P) = Some a →
  ∃ P' a',
    platform_update (a_id a) (ManagedIdentity.desired agent_name model tool) P
    = (P', Ok a')
    ∧ run (with_platform E) (ManagedIdentity.reconcile agent_name model tool) (s, P)
      = ((s, P'),
         [list_agents;
          update_agent (a_id a) (ManagedIdentity.desired agent_name model tool)],
         Ok (a_id a)).
Proof.
  intros Hf. destruct (find_agent_has_id _ _ _ Hf) as [b Hb].
  destruct (platform_update_found _ (ManagedIdentity.desired agent_name model tool)
              _ _ Hb) as (P' & a' & Hu & Hid).
  exists P', a'. split; [done|].
  rewrite (reconcile_mi_found (with_platform E) (s, P) (s, P) (agents P) a); [|done..].
  simpl. by rewrite Hu.
Qed.

Section PatStages.

Variable py_repr : json → pystr.

Lemma create_databricks_pat_quiet url comment days :
  all_calls quiet (Pat.create_databricks_pat py_repr url comment days).
Proof.
  unfold Pat.create_databricks_pat. apply all_calls_bind; [by apply all_calls_perform|].
  intros token. apply all_calls_bind; [by apply all_calls_perform|].
  intros response. destruct (negb (status_code response =? 200)); [done|].
  apply all_calls_bind; [by destruct (json_body response)|].
  intros pat_data. apply all_calls_bind; [apply json_get_quiet|].
  intros pat_token. destruct (negb (Pat.truthy pat_token)); [done|].
  apply all_calls_bind; [apply json_get_quiet|].
  intros token_info. apply all_calls_bind; [apply json_get_quiet | done].
Qed.

Lemma acquire_pat_quiet url pat days comment :
  all_calls quiet (Pat.acquire_pat py_repr url pat days comment).
Proof.
  unfold Pat.acquire_pat. destruct (from_option str_truthy false pat).
  - by destruct (negb (str_truthy (strip (default [] pat)))).
  - apply all_calls_bind; [apply create_databricks_pat_quiet | done].
Qed.

Lemma create_ai_foundry_connection_quiet name pat sub rg acct proj :
  all_calls quiet (Pat.create_ai_foundry_connection py_repr name pat sub rg acct proj).
Proof.
  unfold Pat.create_ai_foundry_connection.
  apply all_calls_bind; [by apply all_calls_perform|].
  intros token. apply all_calls_bind; [by apply all_calls_perform|].
  intros response.
  by destruct ((status_code response =? 200) || (status_code response =? 201)).
Qed.

Lemma reconcile_pat_calls agent_name model tool :
  all_calls (λ c, is_agent_call c = true) (Pat.reconcile agent_name model tool).
Proof.
  unfold Pat.reconcile. apply all_calls_bind; [by apply all_calls_perform|].
  intros listing. destruct (find_agent agent_name listing); by apply all_calls_perform.
Qed.

Lemma reconcile_pat_found (w : world) s s1 listing a agent_name model tool :
  respond w list_agents s = (s1, Ok listing) →
  find_agent agent_name listing = Some a →
  run w (Pat.reconcile agent_name model tool) s
  = match respond w (update_agent (a_id a) (Pat.desired agent_name model tool)) s1 with
    | (s2, Ok a') =>
        (s2, [list_agents;
              update_agent (a_id a) (Pat.desired agent_name model tool)], Ok a')
    | (s2, Err e) =>
        (s2, [list_agents;
              update_agent (a_id a) (Pat.desired agent_name model tool)], Err e)
    end.
Proof.
  intros Hl Hf. unfold Pat.reconcile.
  rewrite run_bind. unfold perform. cbn [run]. rewrite Hl, Hf. cbn [run].
  by destruct (respond w _ s1) as [s2 [x|e]].
Qed.

Lemma reconcile_pat_platform (E : world) s P a agent_name model tool :
  find_agent agent_name (agents P) = Some a →
  ∃ P' a',
    platform_update (a_id a) (Pat.desired agent_name model tool) P = (P', Ok a')
    ∧ a_id a' = a_id a
    ∧ run (with_platform E) (Pat.reconcile agent_name model tool) (s, P)
      = ((s, P'),
         [list_agents; update_agent (a_id a) (Pat.desired agent_name model tool)],
         Ok a').
Proof.
  intros Hf. destruct (find_agent_has_id _ _ _ Hf) as [b Hb].
  destruct (platform_update_found _ (Pat.desired agent_name model tool) _ _ Hb)
    as (P' & a' & Hu & Hid).
  exists P', a'. split_and!; [done..|].
  rewrite (reconcile_pat_found (with_platform E) (s, P) (s, P) (agents P) a); [|done..].
  simpl. by rewrite Hu.
Qed.

End PatStages.

(** * Whole runs *)

Lemma quiet_not_agent c : quiet c → is_agent_call c = false.
Proof. by intros [? ?]. Qed.

Lemma quiet_not_create c : quiet c → is_create c = false.
Proof. intros [H _]. by destruct c. Qed.

Lemma quiet_not_print c : quiet c → is_print c = false.
Proof. by intros [? ?]. Qed.

(** A managed-identity run that returns, from a project that already has
    an agent of the wanted name. *)
Lemma register_mi_run (E : world) s P endpoint url agent_name model st tr aid a :
  find_agent agent_name (agents P) = Some a →
  run (with_platform E)
    (ManagedIdentity.register_databricks_openapi_tool endpoint url agent_name model)
    (s, P) = (st, tr, Ok aid) →
  aid = a_id a
  ∧ Exists (λ c, ∃ args, c = update_agent (a_id a) args) tr
  ∧ Forall (λ c, is_create c = false) tr
  ∧ ∃ s' P' b, st = (s', P') ∧ find_agent agent_name (agents P') = Some b
               ∧ a_id b = a_id a.
Proof.
  intros Hf. unfold ManagedIdentity.register_databricks_openapi_tool.
  intros ([s1 P1] & tr1 & doc & tr' & Hload & Hrest & ->)%run_bind_ok.
  apply run_bind_ok in Hrest as ([s2 P2] & tr2 & spec & tr3 & Hfresh & Hrec & ->).
  pose proof (run_all_calls _ _ _ _ _ _ _ load_quiet Hload) as Hq1.
  pose proof (run_all_calls _ _ _ _ _ _ _ (all_calls_fresh quiet _) Hfresh) as Hq2.
  apply run_platform_frame in Hload as ->;
    [|eapply all_calls_impl; [apply quiet_not_agent | apply load_quiet]].
  apply run_platform_frame in Hfresh as ->; [|apply all_calls_fresh].
  destruct (reconcile_mi_platform E s2 P a agent_name model
              (ManagedIdentity.bind_tool spec) Hf) as (P' & a' & Hu & Hrun).
  rewrite Hrun in Hrec. injection Hrec as <- <- <-.
  split_and!; [done | | |].
  - rewrite !Exists_app. right. right. apply Exists_cons_tl, Exists_cons_hd.
    by eexists.
  - rewrite !Forall_app. split_and!.
    + eapply Forall_impl; [apply quiet_not_create | exact Hq1].
    + eapply Forall_impl; [apply quiet_not_create | exact Hq2].
    + by repeat constructor.
  - destruct (λ H, platform_update_find agent_name _ _ _ _ _ H Hf Hu) as (b & Hb & Hid);
      [done|].
    eauto 8.
Qed.

Section PatRuns.

Variable py_repr : json → pystr.

Lemma prepare_quiet url conn sub rg acct proj pat days comment :
  all_calls quiet (Pat.prepare py_repr url conn sub rg acct proj pat days comment).
Proof.
  unfold Pat.prepare. apply all_calls_bind; [apply acquire_pat_quiet|].
  intros [tok src]. apply all_calls_bind; [apply create_ai_foundry_connection_quiet|].
  intros cid. apply all_calls_bind; [apply load_quiet|].
  intros doc. apply all_calls_bind; [apply all_calls_fresh | done].
Qed.

Lemma register_pat_stages (w : world) s s' tr aid
    endpoint url conn agent_name model sub rg acct proj pat days comment :
  run w (Pat.register_databricks_openapi_tool py_repr endpoint url conn agent_name
           model sub rg acct proj pat days comment) s = (s', tr, Ok aid) →
  ∃ s1 tr1 src cid spec s2 tr2 agent,
    run w (Pat.prepare py_repr url conn sub rg acct proj pat days comment) s
    = (s1, tr1, Ok (src, cid, spec))
    ∧ run w (Pat.reconcile agent_name model (Pat.bind_tool spec cid)) s1
      = (s2, tr2, Ok agent)
    ∧ respond w (print_json (Pat.config endpoint model agent url conn cid days src)) s2
      = (s', Ok tt)
    ∧ tr = tr1 ++ tr2
           ++ [print_json (Pat.config endpoint model agent url conn cid days src)]
    ∧ aid = a_id agent.
Proof.
  unfold Pat.register_databricks_openapi_tool.
  intros (sa & tra & [tok src] & ta & Ha & H & ->)%run_bind_ok.
  apply run_bind_ok in H as (sb & trb & cid & tb & Hb & H & ->).
  apply run_bind_ok in H as (sc & trc & doc & tc & Hc & H & ->).
  apply run_bind_ok in H as (sd & trd & spec & td & Hd & H & ->).
  apply run_bind_ok in H as (se & tre & agent & te & He & H & ->).
  apply run_bind_ok in H as (sf & trf & u & tf & Hf & H & ->).
  cbn [run] in H. injection H as <- <- <-.
  unfold perform in Hf. cbn [run] in Hf.
  destruct (respond w _ se) as [sf' [[]|e]] eqn:Hp; [|done].
  injection Hf as <- <-.
  exists sd, (tra ++ trb ++ trc ++ trd), src, cid, spec, se, tre, agent.
  split_and!; [| done | done | by rewrite app_nil_r, <-!app_assoc | done].
  unfold Pat.prepare. rewrite run_bind, Ha, run_bind, Hb, run_bind, Hc, run_bind, Hd.
  cbn [run]. by rewrite !app_nil_r.
Qed.

Lemma connection_returns (w : world) s s' tr cid name pat sub rg acct proj :
  run w (Pat.create_ai_foundry_connection py_repr name pat sub rg acct proj) s
  = (s', tr, Ok cid) →
  cid = Pat.connection_resource_id sub rg acct proj name.
Proof.
  unfold Pat.create_ai_foundry_connection.
  intros (s1 & tr1 & tok & ta & _ & H & ->)%run_bind_ok.
  apply run_bind_ok in H as (s2 & tr2 & resp & tb & _ & H & ->).
  destruct ((status_code resp =? 200) || (status_code resp =? 201)); [|done].
  cbn [run] in H. by injection H as _ _ <-.
Qed.

Lemma strip_nil : strip [] = [].
Proof. done. Qed.

Lemma strip_truthy p : strip p ≠ [] → str_truthy p = true.
Proof. destruct p; [by rewrite strip_nil | done]. Qed.

(** Step 1 on a token that is provided and survives stripping. *)
Lemma acquire_pat_provided url p days comment :
  strip p ≠ [] →
  Pat.acquire_pat py_repr url (Some p) days comment
  = Ret (JStr (strip p), str "provided").
Proof.
  intros Hp. unfold Pat.acquire_pat. simpl. rewrite (strip_truthy _ Hp).
  unfold str_truthy. by rewrite bool_decide_eq_false_2.
Qed.

(** Step 1 on a token that is provided and is all whitespace. *)
Lemma acquire_pat_blank url p days comment :
  p ≠ [] → strip p = [] →
  Pat.acquire_pat py_repr url (Some p) days comment
  = Raise (ValueError (str "--databricks-pat cannot be empty when provided")).
Proof.
  intros Hne Hp. unfold Pat.acquire_pat. simpl. rewrite Hp.
  unfold str_truthy. by rewrite bool_decide_eq_false_2.
Qed.


(** A PAT run that returns, from a project that already has an agent of
    the wanted name. *)
Lemma register_pat_run (E : world) s P st tr aid a
    endpoint url conn agent_name model sub rg acct proj pat days comment :
  find_agent agent_name (agents P) = Some a →
  run (with_platform E)
    (Pat.register_databricks_openapi_tool py_repr endpoint url conn agent_name
       model sub rg acct proj pat days comment) (s, P) = (st, tr, Ok aid) →
  aid = a_id a
  ∧ Exists (λ c, ∃ args, c = update_agent (a_id a) args) tr
  ∧ Forall (λ c, is_create c = false) tr
  ∧ ∃ s' P' b, st = (s', P') ∧ find_agent agent_name (agents P') = Some b
               ∧ a_id b = a_id a.
Proof.
  intros Hf ([s1 P1] & tr1 & src & cid & spec & [s2 P2] & tr2 & agent
             & Hprep & Hrec & Hprint & -> & ->)%register_pat_stages.
  pose proof (run_all_calls _ _ _ _ _ _ _ (prepare_quiet _ _ _ _ _ _ _ _ _) Hprep) as Hq.
  apply run_platform_frame in Hprep as ->;
    [|eapply all_calls_impl; [apply quiet_not_agent | apply prepare_quiet]].
  destruct (reconcile_pat_platform E s1 P a agent_name model
              (Pat.bind_tool spec cid) Hf) as (P' & a' & Hu & Hid & Hrun).
  rewrite Hrun in Hrec. injection Hrec as <- <- <- <-.
  simpl in Hprint. destruct (respond E _ s1) as [s3 r3]. injection Hprint as <- _.
  split_and!; [done | | |].
  - rewrite !Exists_app. right. left. apply Exists_cons_tl, Exists_cons_hd.
    by eexists.
  - rewrite !Forall_app. split_and!.
    + eapply Forall_impl; [apply quiet_not_create | exact Hq].
    + by repeat constructor.
    + by repeat constructor.
  - destruct (λ H, platform_update_find agent_name _ _ _ _ _ H Hf Hu) as (b & Hb & Hidb);
      [done|].
    eauto 8.
Qed.

End PatRuns.

(** ** The scan for the wanted name *)

(** The scan finds the agent in front of which no agent has the name. *)
Lemma find_agent_first agent_name earlier a later :
  Forall (λ x, a_name x ≠ agent_name) earlier → a_name a = agent_name →
  find_agent agent_name (earlier ++ a :: later) = Some a.
Proof.
  unfold find_agent. intros Hearlier Hname.
  induction Hearlier as [|x xs Hx _ IH]; simpl.
  - by rewrite bool_decide_eq_true_2.
  - by rewrite bool_decide_eq_false_2.
Qed.

(** What the scan finds is listed, has the name, and is the first to. *)
Lemma find_agent_split agent_name listing a :
  find_agent agent_name listing = Some a →
  ∃ earlier later,
    listing = earlier ++ a :: later
    ∧ Forall (λ x, a_name x ≠ agent_name) earlier
    ∧ a_name a = agent_name.
Proof.
  unfold find_agent. induction listing as [|x xs IH]; [done|]. simpl.
  destruct (bool_decide (a_name x = agent_name)) eqn:Hx.
  - intros [= ->]. apply bool_decide_eq_true in Hx. by exists [], xs.
  - intros (earlier & later & -> & Hearlier & Hname)%IH.
    apply bool_decide_eq_false in Hx.
    exists (x :: earlier), later. split_and!; [done | by constructor | done].
Qed.

(** The scan finds an agent as soon as one of the name is listed. *)
Lemma find_agent_exists agent_name listing :
  Exists (λ x, a_name x = agent_name) listing →
  ∃ a, find_agent agent_name listing = Some a.
Proof.
  unfold find_agent. induction 1 as [x xs Hx|x xs _ IH]; simpl.
  - rewrite bool_decide_eq_true_2 by done. by eexists.
  - destruct (bool_decide (a_name x = agent_name)); [by eexists | done].
Qed.

(* ===================================================================== *)
(** * Theorems about the workflows                                        *)
(* ===================================================================== *)

Section Claims.

Variable py_repr : json → pystr.

(** C1.  In a project in which some listed agent has the wanted name, let
    [a] be the first such agent of the listing.  The reconciler of either
    script lists, updates [a] (the update call carries the id of [a]) and
    yields the id of [a], without creating; and two full runs in a row,
    when both return, return the id of [a] both times, the second one
    updating [a] and never creating. *)
Theorem reconciliation_reuses_agent
    (E : world) (s : wstate E) (P : platform) (agent_name : pystr) :
  Exists (λ x, a_name x = agent_name) (agents P) →
  ∃ earlier a later,
    agents P = earlier ++ a :: later
    ∧ Forall (λ x, a_name x ≠ agent_name) earlier
    ∧ a_name a = agent_name
    ∧ (∀ model tool, ∃ P',
        run (with_platform E) (ManagedIdentity.reconcile agent_name model tool)
          (s, P)
        = ((s, P'),
           [list_agents;
            update_agent (a_id a) (ManagedIdentity.desired agent_name model tool)],
           Ok (a_id a)))
    ∧ (∀ model tool, ∃ P' a',
        run (with_platform E) (Pat.reconcile agent_name model tool) (s, P)
        = ((s, P'),
           [list_agents; update_agent (a_id a) (Pat.desired agent_name model tool)],
           Ok a')
        ∧ a_id a' = a_id a)
    ∧ (∀ endpoint url model st1 tr1 id1 st2 tr2 id2,
        run (with_platform E)
          (ManagedIdentity.register_databricks_openapi_tool endpoint url agent_name
             model) (s, P) = (st1, tr1, Ok id1) →
        run (with_platform E)
          (ManagedIdentity.register_databricks_openapi_tool endpoint url agent_name
             model) st1 = (st2, tr2, Ok id2) →
        id1 = a_id a ∧ id2 = a_id a
        ∧ Exists (λ c, ∃ args, c = update_agent (a_id a) args) tr2
        ∧ Forall (λ c, is_create c = false) tr2)
    ∧ (∀ endpoint url conn model sub rg acct proj pat days comment
         st1 tr1 id1 st2 tr2 id2,
        run (with_platform E)
          (Pat.register_databricks_openapi_tool py_repr endpoint url conn agent_name
             model sub rg acct proj pat days comment) (s, P) = (st1, tr1, Ok id1) →
        run (with_platform E)
          (Pat.register_databricks_openapi_tool py_repr endpoint url conn agent_name
             model sub rg acct proj pat days comment) st1 = (st2, tr2, Ok id2) →
        id1 = a_id a ∧ id2 = a_id a
        ∧ Exists (λ c, ∃ args, c = update_agent (a_id a) args) tr2
        ∧ Forall (λ c, is_create c = false) tr2).
Proof.
  intros [a Hf]%find_agent_exists.
  destruct (find_agent_split _ _ _ Hf) as (earlier & later & Hsplit & Hearlier & Hname).
  exists earlier, a, later. split_and!; [done..| | | |].
  - intros model tool.
    destruct (reconcile_mi_platform E s P a agent_name model tool Hf)
      as (P' & a' & _ & Hrun). eauto.
  - intros model tool.
    destruct (reconcile_pat_platform E s P a agent_name model tool Hf)
      as (P' & a' & _ & Hid & Hrun). eauto.
  - intros endpoint url model st1 tr1 id1 st2 tr2 id2 H1 H2.
    destruct (register_mi_run _ _ _ _ _ _ _ _ _ _ _ Hf H1)
      as (-> & _ & _ & s' & P' & b & -> & Hb & Hid).
    destruct (register_mi_run _ _ _ _ _ _ _ _ _ _ _ Hb H2)
      as (-> & Hup & Hcr & _). by rewrite <-Hid.
  - intros endpoint url conn model sub rg acct proj pat days comment
      st1 tr1 id1 st2 tr2 id2 H1 H2.
    destruct (register_pat_run _ _ _ _ _ _ _ _ _ _ _ _ _ _ _ _ _ _ _ _ Hf H1)
      as (-> & _ & _ & s' & P' & b & -> & Hb & Hid).
    destruct (register_pat_run _ _ _ _ _ _ _ _ _ _ _ _ _ _ _ _ _ _ _ _ Hb H2)
      as (-> & Hup & Hcr & _). by rewrite <-Hid.
Qed.

(** C6, as amended.  When the listing holds an agent of the wanted name,
    the update call of the managed-identity script passes name, description,
    instructions, tools and model; the update call of the PAT script passes
    name, instructions, tools and model, and no description. *)
Theorem update_call_fields
    (w : world) (s s1 : wstate w) (listing : list Agent) (a : Agent)
    (agent_name model : pystr) (tool : ToolDefinition) :
  respond w list_agents s = (s1, Ok listing) →
  find_agent agent_name listing = Some a →
  (run w (ManagedIdentity.reconcile agent_name model tool) s).1.2
  = [list_agents;
     update_agent (a_id a)
       {| arg_name := Some agent_name;
          arg_description := Some ManagedIdentity.agent_description;
          arg_instructions := Some ManagedIdentity.instructions;
          arg_tools := Some [tool];
          arg_model := Some model |}]
  ∧ (run w (Pat.reconcile agent_name model tool) s).1.2
    = [list_agents;
       update_agent (a_id a)
         {| arg_name := Some agent_name;
            arg_description := None;
            arg_instructions := Some Pat.instructions;
            arg_tools := Some [tool];
            arg_model := Some model |}].
Proof.
  intros Hl Hf. split.
  - rewrite (reconcile_mi_found _ _ _ _ _ _ _ _ Hl Hf).
    by destruct (respond w _ s1) as [s2 [x|e]].
  - rewrite (reconcile_pat_found _ _ _ _ _ _ _ _ Hl Hf).
    by destruct (respond w _ s1) as [s2 [x|e]].
Qed.

(** C2 (the code departs from it).  A provided credential that is the empty
    string is not rejected: step 1 treats it exactly as an absent one, and
    the run starts by asking the identity provider for a token, on the way
    to minting a new PAT. *)
Theorem empty_pat_is_generated
    (w : world) (s : wstate w)
    (endpoint url conn agent_name model sub rg acct proj : pystr)
    (days : Z) (comment : pystr) :
  Pat.acquire_pat py_repr url (Some []) days comment
  = Pat.acquire_pat py_repr url None days comment
  ∧ ∃ s' tr r,
      run w (Pat.register_databricks_openapi_tool py_repr endpoint url conn
               agent_name model sub rg acct proj (Some []) days comment) s
      = (s', get_token (databricks_app_id ++ str "/.default") :: tr, r)
      ∧ is_network (get_token (databricks_app_id ++ str "/.default")) = true.
Proof.
  split; [done|].
  unfold Pat.register_databricks_openapi_tool, Pat.acquire_pat,
    Pat.create_databricks_pat.
  cbn [from_option]. change (str_truthy []) with false. cbn match.
  rewrite !run_bind. unfold perform at 1. cbn [run].
  destruct (respond w _ s) as [s1 [tok|e]]; [|by eauto 8].
  repeat match goal with
         | |- context [run w ?p ?s0] =>
             lazymatch p with
             | Ret _ => fail
             | _ => destruct (run w p s0) as [[? ?] [?|?]]
             end
         end; cbn [run app]; eauto 8.
Qed.

(** X11.  A provided credential that is not empty but all whitespace is
    rejected with the [ValueError] "--databricks-pat cannot be empty when
    provided" before anything is asked of anybody. *)
Lemma blank_pat_is_rejected
    (w : world) (s : wstate w)
    (endpoint url conn agent_name model sub rg acct proj p : pystr)
    (days : Z) (comment : pystr) :
  p ≠ [] → strip p = [] →
  run w (Pat.register_databricks_openapi_tool py_repr endpoint url conn
           agent_name model sub rg acct proj (Some p) days comment) s
  = (s, [], Err (ValueError (str "--databricks-pat cannot be empty when provided"))).
Proof.
  intros Hne Hp. unfold Pat.register_databricks_openapi_tool.
  by rewrite run_bind, (acquire_pat_blank _ _ _ _ _ Hne Hp).
Qed.

(** C4.  On the generation path (no credential provided), when the
    identity provider hands out a token and the token-creation endpoint
    answers with a status other than 200, [create_databricks_pat] and the
    whole run fail with the runtime error whose message is
    "Failed to create PAT: <status> - <body>", after exactly two calls: the
    token request and the POST.  No PUT and no agent call follows. *)
Theorem token_creation_failure
    (w : world) (s s1 s2 : wstate w) (token : pystr) (response : Response)
    (endpoint url conn agent_name model sub rg acct proj : pystr)
    (databricks_pat : option pystr) (days : Z) (comment : pystr) :
  from_option str_truthy false databricks_pat = false →
  respond w (get_token (databricks_app_id ++ str "/.default")) s = (s1, Ok token) →
  respond w (requests_post (Pat.token_create_url url) (Pat.bearer_headers token)
               (Pat.token_create_payload comment days)) s1 = (s2, Ok response) →
  status_code response ≠ 200 →
  let calls :=
    [get_token (databricks_app_id ++ str "/.default");
     requests_post (Pat.token_create_url url) (Pat.bearer_headers token)
       (Pat.token_create_payload comment days)] in
  let failure :=
    RuntimeError (str "Failed to create PAT: " ++ str_of_int (status_code response)
                  ++ str " - " ++ text response) in
  run w (Pat.create_databricks_pat py_repr url comment days) s
  = (s2, calls, Err failure)
  ∧ run w (Pat.register_databricks_openapi_tool py_repr endpoint url conn
             agent_name model sub rg acct proj databricks_pat days comment) s
    = (s2, calls, Err failure).
Proof.
  intros Hpat Htok Hpost Hstatus calls failure.
  assert (run w (Pat.create_databricks_pat py_repr url comment days) s
          = (s2, calls, Err failure)) as Hrun.
  { unfold Pat.create_databricks_pat. rewrite run_bind. unfold perform at 1.
    cbn [run]. rewrite Htok, run_bind. unfold perform at 1. cbn [run].
    rewrite Hpost. apply Z.eqb_neq in Hstatus. by rewrite Hstatus. }
  split; [done|].
  unfold Pat.register_databricks_openapi_tool, Pat.acquire_pat.
  by rewrite Hpat, !run_bind, Hrun.
Qed.

(** C5.  When the identity provider hands out a management token and the
    PUT is answered, [create_ai_foundry_connection] issues exactly these two
    calls and then: on status 200 or 201 alike it returns the resource id
    built from subscription, resource group, account, project and connection
    name, whatever the body; on any other status it fails with the runtime
    error whose message is "Failed to create connection: <status> - <body>". *)
Theorem connection_provisioning
    (w : world) (s s1 s2 : wstate w) (token : pystr) (response : Response)
    (connection_name : pystr) (databricks_pat : json)
    (sub rg acct proj : pystr) :
  let connection_id := Pat.connection_resource_id sub rg acct proj connection_name in
  let put :=
    requests_put (Pat.connection_url connection_id)
      (Pat.connection_payload py_repr databricks_pat) (Pat.bearer_headers token) in
  respond w (get_token (str "https://management.azure.com/.default")) s
  = (s1, Ok token) →
  respond w put s1 = (s2, Ok response) →
  run w (Pat.create_ai_foundry_connection py_repr connection_name databricks_pat
           sub rg acct proj) s
  = (s2, [get_token (str "https://management.azure.com/.default"); put],
     if bool_decide (status_code response = 200 ∨ status_code response = 201)
     then Ok connection_id
     else Err (RuntimeError
                 (str "Failed to create connection: "
                  ++ str_of_int (status_code response) ++ str " - "
                  ++ text response))).
Proof.
  intros connection_id put Htok Hput. unfold Pat.create_ai_foundry_connection.
  rewrite run_bind. unfold perform at 1. cbn [run]. rewrite Htok, run_bind.
  unfold perform at 1. cbn [run]. fold connection_id. fold put. rewrite Hput.
  destruct (status_code response =? 200) eqn:H200;
    destruct (status_code response =? 201) eqn:H201; cbn [orb run app];
    rewrite ?Z.eqb_eq, ?Z.eqb_neq in *.
  - by rewrite bool_decide_eq_true_2 by (by left).
  - by rewrite bool_decide_eq_true_2 by (by left).
  - by rewrite bool_decide_eq_true_2 by (by right).
  - by rewrite bool_decide_eq_false_2 by (by intros [?|?]).
Qed.

(** C7.  A provided credential that is not empty once stripped is acquired
    as the stripped string, tagged "provided", and nothing is asked of
    anybody: no token is generated. *)
Theorem provided_pat_is_stripped
    (w : world) (s : wstate w) (url p : pystr) (days : Z) (comment : pystr) :
  strip p ≠ [] →
  run w (Pat.acquire_pat py_repr url (Some p) days comment) s
  = (s, [], Ok (JStr (strip p), str "provided")).
Proof. intros Hp. by rewrite (acquire_pat_provided _ _ _ _ _ Hp). Qed.


End Claims.

(** ** The theorems at the sample world *)

Lemma reconciliation_reuses_agent_witness :
  Exists (λ x, a_name x = default_agent_name) (agents busy_platform)
  ∧ (∃ st1 tr1 st2 tr2,
      run (with_platform (sample_world 200 201))
        (ManagedIdentity.register_databricks_openapi_tool sample_endpoint new_url
           default_agent_name (str "gpt-4o")) (tt, busy_platform)
      = (st1, tr1, Ok (str "asst_abc"))
      ∧ run (with_platform (sample_world 200 201))
          (ManagedIdentity.register_databricks_openapi_tool sample_endpoint new_url
             default_agent_name (str "gpt-4o")) st1
        = (st2, tr2, Ok (str "asst_abc"))
      ∧ Exists (λ c, ∃ args, c = update_agent (str "asst_abc") args) tr2
      ∧ Forall (λ c, is_create c = false) tr2)
  ∧ (∃ st1 tr1 st2 tr2,
      run (with_platform (sample_world 200 201))
        (Pat.register_databricks_openapi_tool sample_repr sample_endpoint new_url
           (str "databricks-pat-connection") default_agent_name (str "gpt-4o")
           (str "sub") (str "rg") (str "acct") (str "proj") (Some (str "abc123")) 90
           (str "AI Foundry Agent")) (tt, busy_platform)
      = (st1, tr1, Ok (str "asst_abc"))
      ∧ run (with_platform (sample_world 200 201))
          (Pat.register_databricks_openapi_tool sample_repr sample_endpoint new_url
             (str "databricks-pat-connection") default_agent_name (str "gpt-4o")
             (str "sub") (str "rg") (str "acct") (str "proj") (Some (str "abc123"))
             90 (str "AI Foundry Agent")) st1
        = (st2, tr2, Ok (str "asst_abc"))
      ∧ Exists (λ c, ∃ args, c = update_agent (str "asst_abc") args) tr2
      ∧ Forall (λ c, is_create c = false) tr2).
Proof.
  assert (Exists (λ x, a_name x = default_agent_name) (agents busy_platform)) as Hex
    by (apply Exists_cons_tl, Exists_cons_hd; reflexivity).
  split; [exact Hex|].
  destruct (reconciliation_reuses_agent sample_repr (sample_world 200 201) tt
              busy_platform default_agent_name Hex)
    as (earlier & a & later & _ & _ & _ & _ & _ & Hmi & Hpat).
  split.
  - destruct (run (with_platform (sample_world 200 201))
                (ManagedIdentity.register_databricks_openapi_tool sample_endpoint
                   new_url default_agent_name (str "gpt-4o")) (tt, busy_platform))
      as [[st1 tr1] [id1|e]] eqn:H1; [|by vm_compute in H1].
    destruct (run (with_platform (sample_world 200 201))
                (ManagedIdentity.register_databricks_openapi_tool sample_endpoint
                   new_url default_agent_name (str "gpt-4o")) st1)
      as [[st2 tr2] [id2|e]] eqn:H2.
    + destruct (Hmi _ _ _ _ _ _ _ _ _ H1 H2) as (Hid1 & Hid2 & Hup & Hcr).
      assert (id1 = str "asst_abc") as Hid
        by (vm_compute in H1; by injection H1 as _ _ <-).
      assert (id2 = str "asst_abc") as Hid' by congruence.
      assert (a_id a = str "asst_abc") as Ha by congruence.
      rewrite Ha in Hup. exists st1, tr1, st2, tr2.
      split_and!; [by rewrite Hid | by rewrite H2, Hid' | done | done].
    + exfalso. vm_compute in H1. injection H1 as <- _ _. by vm_compute in H2.
  - destruct (run (with_platform (sample_world 200 201))
                (Pat.register_databricks_openapi_tool sample_repr sample_endpoint
                   new_url (str "databricks-pat-connection") default_agent_name
                   (str "gpt-4o") (str "sub") (str "rg") (str "acct") (str "proj")
                   (Some (str "abc123")) 90 (str "AI Foundry Agent"))
                (tt, busy_platform))
      as [[st1 tr1] [id1|e]] eqn:H1; [|by vm_compute in H1].
    destruct (run (with_platform (sample_world 200 201))
                (Pat.register_databricks_openapi_tool sample_repr sample_endpoint
                   new_url (str "databricks-pat-connection") default_agent_name
                   (str "gpt-4o") (str "sub") (str "rg") (str "acct") (str "proj")
                   (Some (str "abc123")) 90 (str "AI Foundry Agent")) st1)
      as [[st2 tr2] [id2|e]] eqn:H2.
    + destruct (Hpat _ _ _ _ _ _ _ _ _ _ _ _ _ _ _ _ _ H1 H2)
        as (Hid1 & Hid2 & Hup & Hcr).
      assert (id1 = str "asst_abc") as Hid
        by (vm_compute in H1; by injection H1 as _ _ <-).
      assert (id2 = str "asst_abc") as Hid' by congruence.
      assert (a_id a = str "asst_abc") as Ha by congruence.
      rewrite Ha in Hup. exists st1, tr1, st2, tr2.
      split_and!; [by rewrite Hid | by rewrite H2, Hid' | done | done].
    + exfalso. vm_compute in H1. injection H1 as <- _ _. by vm_compute in H2.
Defined.

Lemma update_call_fields_witness :
  (run (with_platform (sample_world 200 201))
     (Pat.reconcile default_agent_name (str "gpt-4o") sample_tool_mi)
     (tt, sample_platform)).1.2
  = [list_agents;
     update_agent (str "asst_abc")
       {| arg_name := Some default_agent_name;
          arg_description := None;
          arg_instructions := Some Pat.instructions;
          arg_tools := Some [sample_tool_mi];
          arg_model := Some (str "gpt-4o") |}].
Proof.
  apply (update_call_fields (with_platform (sample_world 200 201))
           (tt, sample_platform) (tt, sample_platform) [sample_agent] sample_agent
           default_agent_name (str "gpt-4o") sample_tool_mi);
    reflexivity.
Defined.

(** C6 as stated fails: the update call of the PAT script does not pass
    the description. *)
Lemma update_full_field_set_fails :
  ¬ (∀ (E : world) (s : wstate E) (P : platform) agent_name model tool a,
       find_agent agent_name (agents P) = Some a →
       Forall update_carries_full_field_set
         (run (with_platform E) (Pat.reconcile agent_name model tool) (s, P)).1.2).
Proof.
  intros H.
  specialize (H (sample_world 200 201) tt sample_platform default_agent_name
                (str "gpt-4o") sample_tool_mi sample_agent eq_refl).
  change (Forall update_carries_full_field_set
            [list_agents;
             update_agent (str "asst_abc")
               (Pat.desired default_agent_name (str "gpt-4o") sample_tool_mi)]) in H.
  apply Forall_cons_1 in H as [_ H]. apply Forall_cons_1 in H as [H _].
  destruct H as (_ & [d Hd] & _). discriminate Hd.
Qed.

Lemma token_creation_failure_witness :
  run (sample_world 403 201)
    (Pat.register_databricks_openapi_tool sample_repr sample_endpoint new_url
       (str "databricks-pat-connection") default_agent_name (str "gpt-4o")
       (str "sub") (str "rg") (str "acct") (str "proj") None 90
       (str "AI Foundry Agent")) tt
  = (tt,
     [get_token (databricks_app_id ++ str "/.default");
      requests_post (Pat.token_create_url new_url)
        (Pat.bearer_headers (str "aad-token"))
        (Pat.token_create_payload (str "AI Foundry Agent") 90)],
     Err (RuntimeError
            (str "Failed to create PAT: 403 - token endpoint says so"))).
Proof.
  refine (proj2 (token_creation_failure sample_repr (sample_world 403 201) tt tt tt
                   (str "aad-token") _ sample_endpoint new_url
                   (str "databricks-pat-connection") default_agent_name
                   (str "gpt-4o") (str "sub") (str "rg") (str "acct") (str "proj")
                   None 90 (str "AI Foundry Agent") eq_refl eq_refl eq_refl _)).
  simpl. lia.
Defined.

Lemma connection_provisioning_witness :
  run (sample_world 200 201)
    (Pat.create_ai_foundry_connection sample_repr (str "databricks-pat-connection")
       (JStr (str "abc123")) (str "sub") (str "rg") (str "acct") (str "proj")) tt
  = (tt,
     [get_token (str "https://management.azure.com/.default");
      requests_put
        (Pat.connection_url
           (str "/subscriptions/sub/resourceGroups/rg/providers/Microsoft.CognitiveServices/accounts/acct/projects/proj/connections/databricks-pat-connection"))
        (Pat.connection_payload sample_repr (JStr (str "abc123")))
        (Pat.bearer_headers (str "aad-token"))],
     Ok (str "/subscriptions/sub/resourceGroups/rg/providers/Microsoft.CognitiveServices/accounts/acct/projects/proj/connections/databricks-pat-connection")).
Proof.
  exact (connection_provisioning sample_repr (sample_world 200 201) tt tt tt
           (str "aad-token") _ (str "databricks-pat-connection")
           (JStr (str "abc123")) (str "sub") (str "rg") (str "acct") (str "proj")
           eq_refl eq_refl).
Defined.

Lemma provided_pat_is_stripped_witness :
  strip (str "  abc123 ") = str "abc123"
  ∧ run (sample_world 200 201)
      (Pat.acquire_pat sample_repr new_url (Some (str "  abc123 ")) 90
         (str "AI Foundry Agent")) tt
    = (tt, [], Ok (JStr (str "abc123"), str "provided")).
Proof.
  split; [reflexivity|].
  apply (provided_pat_is_stripped sample_repr (sample_world 200 201) tt new_url
           (str "  abc123 ") 90 (str "AI Foundry Agent")).
  vm_compute. discriminate.
Defined.



(* ===================================================================== *)
(** * Further properties of spec customisation                            *)
(* ===================================================================== *)

Lemma first_server_url_app h os c d url :
  first_server_url h c d url → first_server_url (h ++ os) c d url.
Proof.
  intros (o & D & Hc & Ht & Hu). exists o, D.
  split_and!; [by apply heap_lookup_app | by apply server_target_app | done].
Qed.

(** Assigning, in some dict of the store, to a key other than [servers] and
    [url] keeps the first server entry and its URL. *)
Lemma first_server_url_insert h c d url x X k v :
  first_server_url h c d url → h !! x = Some (ODict X) →
  k ≠ k_servers → k ≠ k_url →
  first_server_url (<[x := ODict (dict_set k v X)]> h) c d url.
Proof.
  intros (o & D & Hc & (K & L & rest & -> & Hs & HL & Hd) & Hu) Hx Hk1 Hk2.
  assert (x ≠ L) as HxL by (intros ->; congruence).
  assert (∃ K', <[x := ODict (dict_set k v X)]> h !! c = Some (ODict K')
                ∧ dict_get k_servers K' = Some (VRef L)) as (K' & Hc' & Hs').
  { destruct (decide (x = c)) as [->|Hne].
    - exists (dict_set k v K). assert (X = K) as -> by congruence.
      split; [by eapply heap_insert_eq | by rewrite dict_get_set_ne].
    - exists K. by rewrite list_lookup_insert_ne. }
  assert (∃ D', <[x := ODict (dict_set k v X)]> h !! d = Some (ODict D')
                ∧ dict_get k_url D' = Some (VStr url)) as (D' & Hd' & Hu').
  { destruct (decide (x = d)) as [->|Hne].
    - exists (dict_set k v D). assert (X = D) as -> by congruence.
      split; [by eapply heap_insert_eq | by rewrite dict_get_set_ne].
    - exists D. by rewrite list_lookup_insert_ne. }
  exists (ODict K'), D'. split_and!; [done | | done].
  exists K', L, rest. split_and!; [done | done | | done].
  by rewrite list_lookup_insert_ne.
Qed.

(** The server step, on a document with a first server entry. *)
Lemma set_server_url_first c url h o d D l o' :
  h !! c = Some o → server_target h o d D →
  h !! l = Some o' → server_target h o' d D →
  ∃ h', set_server_url (VRef c) url h = (h', Ok tt)
        ∧ first_server_url h' c d url ∧ first_server_url h' l d url
        ∧ length h' = length h
        ∧ (∀ x X, h !! x = Some (ODict X) → ∃ X', h' !! x = Some (ODict X')).
Proof.
  intros Hc Ht Hl Ht'.
  eexists. split; [by eapply set_server_url_target|].
  assert (∀ c0 o0, h !! c0 = Some o0 → server_target h o0 d D →
            first_server_url (<[d := ODict (dict_set k_url (VStr url) D)]> h) c0 d url)
    as Hfirst.
  { intros c0 o0 Hc0 (K & L & rest & -> & Hs & HL & Hd).
    assert (d ≠ L) as HdL by (intros ->; congruence).
    destruct (decide (d = c0)) as [->|Hne].
    - assert (D = K) as -> by congruence.
      exists (ODict (dict_set k_url (VStr url) K)), (dict_set k_url (VStr url) K).
      split_and!; [by eapply heap_insert_eq | | by apply dict_get_set].
      exists (dict_set k_url (VStr url) K), L, rest.
      split_and!; [done | | by rewrite list_lookup_insert_ne | by eapply heap_insert_eq].
      rewrite dict_get_set_ne; [done | apply k_url_ne_servers].
    - exists (ODict K), (dict_set k_url (VStr url) D).
      split_and!; [by rewrite list_lookup_insert_ne | | by apply dict_get_set].
      exists K, L, rest.
      split_and!; [done | done | by rewrite list_lookup_insert_ne
                  | by eapply heap_insert_eq]. }
  split_and!; [by eapply Hfirst | by eapply Hfirst | by rewrite length_insert |].
  intros x X Hx. destruct (decide (d = x)) as [->|Hne].
  - eexists. by eapply heap_insert_eq.
  - exists X. by rewrite list_lookup_insert_ne.
Qed.

(** The two later steps of the PAT customisation keep the first server
    entry and its URL. *)
Lemma set_security_schemes_first c h h' u c0 d url :
  Pat.set_security_schemes (VRef c) h = (h', Ok u) →
  first_server_url h c0 d url → first_server_url h' c0 d url.
Proof.
  intros (o & Hc & [[_ ->]|(p & P & (K & -> & Hp & HP & _) & ->)])%set_security_schemes_inv
    Hfirst; [done|].
  apply first_server_url_insert;
    [by apply first_server_url_app | by apply heap_lookup_app
    | apply k_securitySchemes_ne_servers | apply k_securitySchemes_ne_url].
Qed.

Lemma set_security_first c h h' u c0 d url :
  is_Some (h !! c) →
  Pat.set_security (VRef c) h = (h', Ok u) →
  first_server_url h c0 d url → first_server_url h' c0 d url.
Proof.
  intros Hc (K & HK & ->)%set_security_inv Hfirst; [|done].
  apply first_server_url_insert;
    [by apply first_server_url_app | by apply heap_lookup_app
    | apply k_security_ne_servers | apply k_security_ne_url].
Qed.

(** Both later steps keep the objects of the store in place. *)
Lemma set_security_schemes_lookup c h h' u x :
  Pat.set_security_schemes (VRef c) h = (h', Ok u) →
  is_Some (h !! x) → is_Some (h' !! x).
Proof.
  intros (o & Hc & [[_ ->]|(p & P & _ & ->)])%set_security_schemes_inv Hx; [done|].
  apply lookup_lt_is_Some. rewrite length_insert. unfold schemes_alloc.
  rewrite length_app. apply lookup_lt_is_Some in Hx. lia.
Qed.

(** X2.  Whatever the script, a document with a first server entry (a dict)
    comes out with the workspace URL as the [url] of that entry.  The entry
    is not copied: it is the object the input document holds, so the input
    document has the workspace URL in its first server entry too. *)
Theorem customize_sets_first_server_url (m : mode) url h l o d D h' r :
  h !! l = Some o → server_target h o d D →
  customize_openapi_spec_for_workspace m (VRef l) url h = (h', Ok r) →
  r = VRef (length h)
  ∧ first_server_url h' (length h) d url
  ∧ first_server_url h' l d url.
Proof.
  intros Hl Ht Hrun.
  assert ((h ++ [o]) !! length h = Some o) as Hc by by rewrite heap_lookup_new0.
  destruct (set_server_url_first (length h) url (h ++ [o]) o d D l o)
    as (ha & Ha & Hfc & Hfl & Hlen & Hkeep);
    [done | by apply server_target_app | by apply heap_lookup_app
    | by apply server_target_app |].
  destruct m; simpl in Hrun.
  - apply customize_mi_inv in Hrun as (l' & o' & [= <-] & Hl' & -> & Hs).
    assert (o' = o) as -> by congruence.
    rewrite Ha in Hs. by injection Hs as <-.
  - apply customize_pat_inv in Hrun
      as (l' & o' & ha' & hb & [= <-] & Hl' & -> & Hs & Hb & Hc').
    assert (o' = o) as -> by congruence.
    rewrite Ha in Hs. injection Hs as <-.
    assert (is_Some (ha !! length h)) as Hca.
    { apply lookup_lt_is_Some. rewrite Hlen, length_app. simpl. lia. }
    pose proof (set_security_schemes_lookup _ _ _ _ _ Hb Hca) as Hcb.
    split_and!; [done | |].
    + eapply set_security_first; [done..|].
      by eapply set_security_schemes_first.
    + eapply set_security_first; [done..|].
      by eapply set_security_schemes_first.
Qed.

(** ** The security schemes of the PAT script *)

Lemma schemes_target_insert h c o p P x X k v :
  h !! c = Some o → schemes_target h o p P → h !! x = Some (ODict X) →
  k ≠ k_components →
  ∃ o' P', <[x := ODict (dict_set k v X)]> h !! c = Some o'
           ∧ schemes_target (<[x := ODict (dict_set k v X)]> h) o' p P'.
Proof.
  intros Hc (K & -> & Hp & HP & Hss) Hx Hk.
  assert (∃ K', <[x := ODict (dict_set k v X)]> h !! c = Some (ODict K')
                ∧ dict_get k_components K' = Some (VRef p)) as (K' & Hc' & Hp').
  { destruct (decide (x = c)) as [->|Hne].
    - exists (dict_set k v K). assert (X = K) as -> by congruence.
      split; [by eapply heap_insert_eq | by rewrite dict_get_set_ne].
    - exists K. by rewrite list_lookup_insert_ne. }
  assert (∃ P', <[x := ODict (dict_set k v X)]> h !! p = Some (ODict P')
                ∧ is_Some (dict_get k_securitySchemes P')) as (P' & HP' & Hss').
  { destruct (decide (x = p)) as [->|Hne].
    - exists (dict_set k v P). assert (X = P) as -> by congruence.
      split; [by eapply heap_insert_eq|].
      destruct (decide (k = k_securitySchemes)) as [->|Hks].
      + by rewrite dict_get_set.
      + by rewrite dict_get_set_ne.
    - exists P. by rewrite list_lookup_insert_ne. }
  exists (ODict K'), P'. split; [done|]. by exists K'.
Qed.

(** The server step keeps a [components] dict that declares schemes. *)
Lemma set_server_url_schemes c url h h' u c0 o0 p P :
  set_server_url (VRef c) url h = (h', Ok u) →
  h !! c0 = Some o0 → schemes_target h o0 p P →
  ∃ o' P', h' !! c0 = Some o' ∧ schemes_target h' o' p P'.
Proof.
  intros (o & Hc & [[_ ->]|(d & D & (K & L & rest & -> & _ & _ & Hd) & ->)])%set_server_url_inv
    Hc0 Ht; [by eauto|].
  eapply schemes_target_insert; [done..|apply k_url_ne_components].
Qed.

(** Once the scheme step has assigned, the document declares the bearer
    scheme and nothing else. *)
Lemma schemes_step_declares h c o p P :
  h !! c = Some o → schemes_target h o p P →
  declares_bearer_only
    (<[p := ODict (dict_set k_securitySchemes (VRef (S (length h))) P)]>
       (schemes_alloc h)) c p.
Proof.
  intros Hc (K & -> & Hp & HP & Hss).
  pose proof (lookup_lt_Some _ _ _ HP) as Hlt.
  assert (schemes_alloc h !! p = Some (ODict P)) as HP'
    by by apply heap_lookup_app.
  assert (∃ K', <[p := ODict (dict_set k_securitySchemes (VRef (S (length h))) P)]>
                  (schemes_alloc h) !! c = Some (ODict K')
                ∧ dict_get k_components K' = Some (VRef p)) as (K' & Hc' & Hp').
  { destruct (decide (p = c)) as [->|Hne].
    - assert (P = K) as -> by congruence. eexists. split; [by eapply heap_insert_eq|].
      rewrite dict_get_set_ne; [done | apply k_securitySchemes_ne_components].
    - exists K. rewrite list_lookup_insert_ne by done.
      split; [by apply heap_lookup_app | done]. }
  exists K', (dict_set k_securitySchemes (VRef (S (length h))) P),
    (S (length h)), (length h).
  split_and!; [done | done | by eapply heap_insert_eq | by apply dict_get_set |].
  apply bearer_at_insert; [apply bearer_at_alloc | lia | lia].
Qed.

Lemma declares_bearer_only_app h os c p :
  declares_bearer_only h c p → declares_bearer_only (h ++ os) c p.
Proof.
  intros (K & P & so & si & Hc & Hp & HP & Hso & Hb).
  exists K, P, so, si.
  split_and!; [by apply heap_lookup_app | done | by apply heap_lookup_app | done
              | by apply bearer_at_app].
Qed.

(** Assigning to another key of a dict that has a [components] entry, and
    is not the components dict, keeps what the document declares. *)
Lemma declares_bearer_only_insert h c p x X k v :
  declares_bearer_only h c p → h !! x = Some (ODict X) →
  is_Some (dict_get k_components X) → x ≠ p → k ≠ k_components →
  declares_bearer_only (<[x := ODict (dict_set k v X)]> h) c p.
Proof.
  intros (K & P & so & si & Hc & Hp & HP & Hso & [Hb1 Hb2]) Hx HX Hxp Hk.
  assert (x ≠ so) as Hxso.
  { intros ->. rewrite Hb1 in Hx. injection Hx as <-.
    destruct HX as [? HX]. by vm_compute in HX. }
  assert (x ≠ si) as Hxsi.
  { intros ->. rewrite Hb2 in Hx. injection Hx as <-.
    destruct HX as [? HX]. by vm_compute in HX. }
  assert (∃ K', <[x := ODict (dict_set k v X)]> h !! c = Some (ODict K')
                ∧ dict_get k_components K' = Some (VRef p)) as (K' & Hc' & Hp').
  { destruct (decide (x = c)) as [->|Hne].
    - exists (dict_set k v K). assert (X = K) as -> by congruence.
      split; [by eapply heap_insert_eq | by rewrite dict_get_set_ne].
    - exists K. by rewrite list_lookup_insert_ne. }
  exists K', P, so, si.
  split_and!; [done | done | by rewrite list_lookup_insert_ne | done |].
  by apply bearer_at_insert.
Qed.

(** The scheme mapping of the PAT script reads as the literal of the
    source. *)
Lemma bearer_at_reify h so si :
  bearer_at h so si → reify 2 h (VRef so) = Some bearer_schemes_document.
Proof.
  intros [Hso Hsi]. rewrite reify_ref, Hso. cbn [mapM fmap list_fmap].
  simpl. rewrite Hsi. reflexivity.
Qed.

(** X3.  PAT script: when the input document declares security schemes
    (its [components] dict has a [securitySchemes] entry), the customised
    document's [components.securitySchemes] is the mapping
    [{"bearerAuth": {"type": "apiKey", "name": "Authorization",
    "in": "header", "description": ...}}] and nothing else.  The components
    dict is the one the input holds, so the input document now declares the
    same: the schemes it declared before are gone from it too. *)
Theorem customize_replaces_security_schemes url h l o p P h' r :
  h !! l = Some o → schemes_target h o p P →
  Pat.customize_openapi_spec_for_workspace (VRef l) url h = (h', Ok r) →
  r = VRef (length h)
  ∧ declares_bearer_only h' (length h) p
  ∧ declares_bearer_only h' l p
  ∧ ∃ P' so, h' !! p = Some (ODict P')
             ∧ dict_get k_securitySchemes P' = Some (VRef so)
             ∧ reify 2 h' (VRef so) = Some bearer_schemes_document.
Proof.
  intros Hl Ht Hrun.
  apply customize_pat_inv in Hrun
    as (l' & o' & ha & hb & [= <-] & Hl' & -> & Ha & Hb & Hc).
  assert (o' = o) as -> by congruence. clear Hl'.
  assert ((h ++ [o]) !! length h = Some o) as Hc0 by by rewrite heap_lookup_new0.
  pose proof (lookup_lt_Some _ _ _ Hl) as Hllt.
  assert (p < length h)%nat as Hplt.
  { destruct Ht as (K & _ & _ & HP & _). by eapply lookup_lt_Some. }
  (* after the server step *)
  destruct (set_server_url_schemes _ _ _ _ _ _ _ _ _ Ha Hc0
              (schemes_target_app _ [o] _ _ _ Ht)) as (oc & Pc & Hca & Htc).
  destruct (set_server_url_schemes _ _ _ _ _ _ _ _ _ Ha (heap_lookup_app _ [o] _ _ Hl)
              (schemes_target_app _ [o] _ _ _ Ht)) as (ol & Pl & Hla & Htl).
  assert (Pl = Pc) as ->.
  { destruct Htc as (? & _ & _ & H1 & _), Htl as (? & _ & _ & H2 & _). congruence. }
  (* after the scheme step *)
  rewrite (set_security_schemes_target _ _ _ _ _ Hca Htc) in Hb.
  injection Hb as <-.
  pose proof (schemes_step_declares _ _ _ _ _ Hca Htc) as Hdc.
  pose proof (schemes_step_declares _ _ _ _ _ Hla Htl) as Hdl.
  set (hb := <[p := ODict (dict_set k_securitySchemes (VRef (S (length ha))) Pc)]>
               (schemes_alloc ha)) in *.
  (* after the requirement step *)
  destruct Hdc as (Kc & Pb & so & si & Hcb & Hpb & HPb & Hso & Hbearer).
  apply set_security_inv in Hc as (K & HK & ->); [|by rewrite Hcb].
  assert (K = Kc) as -> by congruence.
  assert (∀ c0, declares_bearer_only hb c0 p →
            declares_bearer_only
              (<[length h := ODict (dict_set k_security
                                      (VRef (S (S (length hb)))) Kc)]>
                 (security_alloc hb)) c0 p) as Hkeep.
  { intros c0 Hd0. apply declares_bearer_only_insert;
      [by apply declares_bearer_only_app | by apply heap_lookup_app
      | by rewrite Hpb | lia | apply k_security_ne_components]. }
  assert (declares_bearer_only hb (length h) p) as Hdc
    by (exists Kc, Pb, so, si; by split_and!).
  split_and!; [done | by apply Hkeep | by apply Hkeep |].
  destruct (Hkeep _ Hdc) as (K' & P' & so' & si' & _ & _ & HP' & Hso' & Hbearer').
  exists P', so'. split_and!; [done | done | by eapply bearer_at_reify].
Qed.

(** X1.  When the input document has no first server entry to write to (no
    [servers] key, or an empty [servers]) and, for the PAT script, declares
    no security schemes, customisation only adds objects to the store:
    every object that existed before the call is left as it was, so the
    input document reads after the call as it read before.  The
    managed-identity script then returns a plain copy. *)
Theorem customize_only_allocates (m : mode) url h l o h' r :
  h !! l = Some o → server_noop h o →
  (m = ModeB → schemes_noop h o) →
  customize_openapi_spec_for_workspace m (VRef l) url h = (h', Ok r) →
  r = VRef (length h)
  ∧ (∃ os, h' = h ++ os)
  ∧ (m = ModeA → h' = h ++ [o])
  ∧ ∀ n t, reify n h (VRef l) = Some t → reify n h' (VRef l) = Some t.
Proof.
  intros Hl Hnoop Hschemes Hrun.
  assert ((h ++ [o]) !! length h = Some o) as Hc by by rewrite heap_lookup_new0.
  pose proof (set_server_url_noop (length h) url (h ++ [o]) o Hc
                (server_noop_app _ _ _ Hnoop)) as Hserver.
  assert (r = VRef (length h) ∧ ∃ os, h' = h ++ os ∧ (m = ModeA → os = [o]))
    as (-> & os & -> & Hos).
  { destruct m; simpl in Hrun.
    - apply customize_mi_inv in Hrun as (l' & o' & [= <-] & Hl' & -> & Hs).
      assert (o' = o) as -> by congruence.
      rewrite Hserver in Hs. injection Hs as <-.
      split; [done|]. exists [o]. by split.
    - apply customize_pat_inv in Hrun
        as (l' & o' & ha & hb & [= <-] & Hl' & -> & Hs & Hb & Hsec).
      assert (o' = o) as -> by congruence.
      rewrite Hserver in Hs. injection Hs as <-.
      rewrite (set_security_schemes_noop _ _ _ Hc
                 (schemes_noop_app _ _ _ (Hschemes eq_refl))) in Hb.
      injection Hb as <-.
      apply set_security_inv in Hsec as (K & HK & ->); [|by rewrite Hc].
      split; [done|]. unfold security_alloc. rewrite <-app_assoc.
      rewrite insert_app_r_alt, Nat.sub_diag by lia.
      eexists. by split. }
  split_and!; [done | by eauto | by intros ->%Hos |].
  intros n t. apply heap_le_app.
Qed.

(** ** Documents that customisation rejects *)

Lemma py_bind_err {A B} (m : py A) (k : A → py B) h h1 e :
  m h = (h1, Err e) → (m ≫= k) h = (h1, Err e).
Proof. unfold mbind, py_mbind, py_bind. by intros ->. Qed.

Lemma py_getitem_list k l xs h :
  h !! l = Some (OList xs) → py_getitem (VRef l) k h = (h, Err TypeError).
Proof. intros H. simpl. by rewrite (py_bind_eq _ _ _ _ _ (py_deref_eq _ _ _ H)). Qed.

Lemma py_setitem_list l xs k x h :
  h !! l = Some (OList xs) → py_setitem (VRef l) k x h = (h, Err TypeError).
Proof. intros H. simpl. by rewrite (py_bind_eq _ _ _ _ _ (py_deref_eq _ _ _ H)). Qed.

Lemma py_getitem0_dict l d h :
  h !! l = Some (ODict d) → py_getitem0 (VRef l) h = (h, Err KeyError).
Proof. intros H. simpl. by rewrite (py_bind_eq _ _ _ _ _ (py_deref_eq _ _ _ H)). Qed.

Lemma py_setitem_scalar v k x (h : heap) :
  is_scalar v = true → py_setitem v k x h = (h, Err TypeError).
Proof. by destruct v. Qed.

(** The server step on a list: a membership test, then a subscript with a
    string. *)
Lemma set_server_url_list c xs url h :
  h !! c = Some (OList xs) →
  set_server_url (VRef c) url h
  = (h, if bool_decide (VStr k_servers ∈ xs) then Err TypeError else Ok tt).
Proof.
  intros Hc. unfold set_server_url.
  rewrite (py_bind_eq _ _ _ _ _ (py_contains_list _ _ _ _ Hc)).
  destruct (bool_decide (VStr k_servers ∈ xs)); [|done].
  by rewrite (py_bind_err _ _ _ _ _ (py_getitem_list _ _ _ _ Hc)).
Qed.

Lemma set_security_schemes_list c xs h :
  h !! c = Some (OList xs) →
  Pat.set_security_schemes (VRef c) h
  = (h, if bool_decide (VStr k_components ∈ xs) then Err TypeError else Ok tt).
Proof.
  intros Hc. unfold Pat.set_security_schemes.
  rewrite (py_bind_eq _ _ _ _ _ (py_contains_list _ _ _ _ Hc)).
  destruct (bool_decide (VStr k_components ∈ xs)); [|done].
  by rewrite (py_bind_err _ _ _ _ _ (py_getitem_list _ _ _ _ Hc)).
Qed.

Lemma set_security_list c xs h :
  h !! c = Some (OList xs) →
  ∃ h', Pat.set_security (VRef c) h = (h', Err TypeError).
Proof.
  intros Hc. unfold Pat.set_security.
  rewrite (py_bind_eq _ _ _ _ _ (py_new_eq _ _)).
  rewrite (py_bind_eq _ _ _ _ _ (py_new_eq _ _)).
  rewrite (py_bind_eq _ _ _ _ _ (py_new_eq _ _)).
  eexists. apply py_setitem_list with (xs := xs).
  by do 3 apply heap_lookup_app.
Qed.

(** X4.  A document whose top level is not a dict.  A scalar ([null], a
    bool, a number, a string) has no [copy]: both scripts raise
    [AttributeError] and leave the store alone.  A list is copied; the
    managed-identity script then raises [TypeError] if the string
    ["servers"] is one of its items and returns the copy otherwise, and the
    PAT script raises [TypeError] in every case. *)
Theorem customize_top_level_not_a_dict (m : mode) url h :
  (∀ spec, is_scalar spec = true →
     customize_openapi_spec_for_workspace m spec url h = (h, Err AttributeError))
  ∧ (∀ l xs, h !! l = Some (OList xs) →
     ManagedIdentity.customize_openapi_spec_for_workspace (VRef l) url h
     = (h ++ [OList xs],
        if bool_decide (VStr k_servers ∈ xs) then Err TypeError
        else Ok (VRef (length h)))
     ∧ ∃ h', Pat.customize_openapi_spec_for_workspace (VRef l) url h
             = (h', Err TypeError)).
Proof.
  split.
  - intros spec Hs. by destruct m, spec.
  - intros l xs Hl.
    assert ((h ++ [OList xs]) !! length h = Some (OList xs)) as Hc
      by by rewrite heap_lookup_new0.
    split.
    + unfold ManagedIdentity.customize_openapi_spec_for_workspace.
      rewrite (py_bind_eq _ _ _ _ _ (py_copy_eq _ _ _ Hl)).
      destruct (bool_decide (VStr k_servers ∈ xs)) eqn:Hin.
      * apply py_bind_err. by rewrite (set_server_url_list _ _ _ _ Hc), Hin.
      * erewrite py_bind_eq; [done|]. by rewrite (set_server_url_list _ _ _ _ Hc), Hin.
    + unfold Pat.customize_openapi_spec_for_workspace.
      rewrite (py_bind_eq _ _ _ _ _ (py_copy_eq _ _ _ Hl)).
      destruct (bool_decide (VStr k_servers ∈ xs)) eqn:Hin.
      { eexists. apply py_bind_err. by rewrite (set_server_url_list _ _ _ _ Hc), Hin. }
      erewrite py_bind_eq; [|by rewrite (set_server_url_list _ _ _ _ Hc), Hin].
      destruct (bool_decide (VStr k_components ∈ xs)) eqn:Hin'.
      { eexists. apply py_bind_err.
        by rewrite (set_security_schemes_list _ _ _ Hc), Hin'. }
      erewrite py_bind_eq; [|by rewrite (set_security_schemes_list _ _ _ Hc), Hin'].
      destruct (set_security_list _ _ _ Hc) as [h' Hh']. exists h'.
      by apply py_bind_err.
Qed.

(** The server step on a dict whose [servers] entry cannot be written to. *)
Lemma set_server_url_malformed c K sv e url h :
  h !! c = Some (ODict K) → dict_get k_servers K = Some sv →
  servers_error h sv = Some e →
  set_server_url (VRef c) url h = (h, Err e).
Proof.
  intros Hc Hs Hsv. unfold set_server_url.
  rewrite (py_bind_eq _ _ _ _ _ (py_contains_dict _ _ _ _ Hc)), Hs.
  rewrite bool_decide_eq_true_2 by done.
  rewrite (py_bind_eq _ _ _ _ _ (py_getitem_dict _ _ _ _ _ Hc Hs)).
  destruct sv as [|b|n|f|s|L]; simpl in Hsv.
  - by injection Hsv as <-.
  - by injection Hsv as <-.
  - by injection Hsv as <-.
  - by injection Hsv as <-.
  - destruct s as [|a s]; [done|]. injection Hsv as <-.
    rewrite (py_bind_eq (py_len (VStr (a :: s))) _ h h
               (Z.of_nat (length (a :: s))) eq_refl).
    change (0 <? Z.of_nat (length (a :: s))) with true. cbv iota.
    rewrite (py_bind_eq _ _ _ _ _ (py_getitem_dict _ _ _ _ _ Hc Hs)).
    by rewrite (py_bind_eq (py_getitem0 (VStr (a :: s))) _ h h (VStr [a]) eq_refl).
  - destruct (h !! L) as [[[|x rest]|D]|] eqn:HL; try done.
    + rewrite (py_bind_eq _ _ _ _ _ (py_len_list _ _ _ HL)).
      change (0 <? Z.of_nat (length (x :: rest))) with true. cbv iota.
      rewrite (py_bind_eq _ _ _ _ _ (py_getitem_dict _ _ _ _ _ Hc Hs)).
      rewrite (py_bind_eq _ _ _ _ _ (py_getitem0_list _ _ _ _ HL)).
      destruct x as [|b|n|f|s|y]; try by injection Hsv as <-.
      destruct (h !! y) as [[ys|]|] eqn:Hy; try done. injection Hsv as <-.
      by eapply py_setitem_list.
    + rewrite (py_bind_eq _ _ _ _ _ (py_len_dict _ _ _ HL)).
      destruct D as [|d D]; [done|]. injection Hsv as <-.
      change (0 <? Z.of_nat (length (d :: D))) with true. cbv iota.
      rewrite (py_bind_eq _ _ _ _ _ (py_getitem_dict _ _ _ _ _ Hc Hs)).
      apply py_bind_err. by eapply py_getitem0_dict.
Qed.

Lemma servers_error_app h os sv e :
  servers_error h sv = Some e → servers_error (h ++ os) sv = Some e.
Proof.
  destruct sv as [|b|n|f|s|L]; try done. simpl.
  destruct (h !! L) as [[[|x rest]|D]|] eqn:HL; try done.
  - rewrite (heap_lookup_app _ os _ _ HL).
    destruct x as [|b|n|f|s|y]; try done.
    destruct (h !! y) as [[ys|]|] eqn:Hy; try done.
    by rewrite (heap_lookup_app _ os _ _ Hy).
  - by rewrite (heap_lookup_app _ os _ _ HL).
Qed.

(** X5.  A document whose [servers] entry holds something that is not a
    list starting with a dict makes both scripts fail, after the copy has
    been taken and before anything is written: with [KeyError] for a
    non-empty dict, with [TypeError] for a non-empty string, a number, a
    bool, [None], or a list whose first item is not a dict. *)
Theorem customize_malformed_servers (m : mode) url h l K sv e :
  h !! l = Some (ODict K) → dict_get k_servers K = Some sv →
  servers_error h sv = Some e →
  customize_openapi_spec_for_workspace m (VRef l) url h = (h ++ [ODict K], Err e).
Proof.
  intros Hl Hs Hsv.
  assert ((h ++ [ODict K]) !! length h = Some (ODict K)) as Hc
    by by rewrite heap_lookup_new0.
  pose proof (set_server_url_malformed _ _ _ _ url _ Hc Hs
                (servers_error_app _ [ODict K] _ _ Hsv)) as Hstep.
  destruct m; simpl.
  - unfold ManagedIdentity.customize_openapi_spec_for_workspace.
    rewrite (py_bind_eq _ _ _ _ _ (py_copy_eq _ _ _ Hl)). by apply py_bind_err.
  - unfold Pat.customize_openapi_spec_for_workspace.
    rewrite (py_bind_eq _ _ _ _ _ (py_copy_eq _ _ _ Hl)). by apply py_bind_err.
Qed.

(** ** The top level of the input and of the copy *)

(** Assigning to the key [k0] of some dict keeps, in every dict of the
    store, the entries of the other keys. *)
Lemma top_level_insert (h : heap) l K x X k0 v :
  h !! l = Some (ODict K) → h !! x = Some (ODict X) →
  ∃ K', <[x := ODict (dict_set k0 v X)]> h !! l = Some (ODict K')
        ∧ ∀ k, k ≠ k0 → dict_get k K' = dict_get k K.
Proof.
  intros Hl Hx. destruct (decide (x = l)) as [->|Hne].
  - assert (X = K) as -> by congruence. exists (dict_set k0 v K).
    split; [by eapply heap_insert_eq|]. intros k Hk. by apply dict_get_set_ne.
  - exists K. by rewrite list_lookup_insert_ne.
Qed.

(** What the three steps leave of a dict of the store. *)
Lemma set_server_url_top_level c url h h' u l K :
  set_server_url (VRef c) url h = (h', Ok u) → h !! l = Some (ODict K) →
  ∃ K', h' !! l = Some (ODict K') ∧ ∀ k, k ≠ k_url → dict_get k K' = dict_get k K.
Proof.
  intros (o & Hc & [[_ ->]|(d & D & (K0 & L & rest & -> & _ & _ & Hd) & ->)])%set_server_url_inv
    Hl; [by eauto|].
  by eapply top_level_insert.
Qed.

Lemma set_security_schemes_top_level c h h' u l K :
  Pat.set_security_schemes (VRef c) h = (h', Ok u) → h !! l = Some (ODict K) →
  ∃ K', h' !! l = Some (ODict K')
        ∧ ∀ k, k ≠ k_securitySchemes → dict_get k K' = dict_get k K.
Proof.
  intros (o & Hc & [[_ ->]|(p & P & (K0 & -> & _ & HP & _) & ->)])%set_security_schemes_inv
    Hl; [by eauto|].
  eapply top_level_insert; by apply heap_lookup_app.
Qed.

Lemma set_security_top_level c h h' u l K :
  is_Some (h !! c) →
  Pat.set_security (VRef c) h = (h', Ok u) → h !! l = Some (ODict K) →
  ∃ K', h' !! l = Some (ODict K')
        ∧ (∀ k, k ≠ k_security → dict_get k K' = dict_get k K)
        ∧ (l ≠ c → K' = K).
Proof.
  intros Hc (Kc & HKc & ->)%set_security_inv Hl; [|done].
  destruct (decide (c = l)) as [->|Hne].
  - assert (Kc = K) as -> by congruence. eexists.
    split; [eapply heap_insert_eq; by apply heap_lookup_app|].
    split; [|done]. intros k Hk. by apply dict_get_set_ne.
  - exists K. rewrite list_lookup_insert_ne by done.
    split; [by apply heap_lookup_app | done].
Qed.

(** X28.  Whatever the script, the top level of the input document is
    protected by the copy: after the call the input dict holds, for every
    key other than [url] and [securitySchemes], the entry it held before
    (in particular its [servers], [components] and [security] entries);
    and the returned dict holds the same entries as the input for every key
    other than [url], [securitySchemes] and [security]. *)
Theorem customize_keeps_top_level (m : mode) url h l K h' r :
  h !! l = Some (ODict K) →
  customize_openapi_spec_for_workspace m (VRef l) url h = (h', Ok r) →
  (∃ K', h' !! l = Some (ODict K')
         ∧ ∀ k, k ≠ k_url → k ≠ k_securitySchemes →
                dict_get k K' = dict_get k K)
  ∧ (∃ Kc, r = VRef (length h) ∧ h' !! length h = Some (ODict Kc)
           ∧ ∀ k, k ≠ k_url → k ≠ k_securitySchemes → k ≠ k_security →
                  dict_get k Kc = dict_get k K).
Proof.
  intros Hl Hrun.
  assert ((h ++ [ODict K]) !! length h = Some (ODict K)) as Hc
    by by rewrite heap_lookup_new0.
  pose proof (heap_lookup_app _ [ODict K] _ _ Hl) as Hl0.
  pose proof (lookup_lt_Some _ _ _ Hl) as Hlt.
  destruct m; simpl in Hrun.
  - apply customize_mi_inv in Hrun as (l' & o' & [= <-] & Hl' & -> & Hs).
    assert (o' = ODict K) as -> by congruence.
    destruct (set_server_url_top_level _ _ _ _ _ _ _ Hs Hl0) as (K1 & HK1 & Hk1).
    destruct (set_server_url_top_level _ _ _ _ _ _ _ Hs Hc) as (Kc & HKc & Hkc).
    split; [exists K1 | exists Kc]; split_and!; auto.
  - apply customize_pat_inv in Hrun
      as (l' & o' & ha & hb & [= <-] & Hl' & -> & Hs & Hb & Hsec).
    assert (o' = ODict K) as -> by congruence.
    destruct (set_server_url_top_level _ _ _ _ _ _ _ Hs Hl0) as (K1 & HK1 & Hk1).
    destruct (set_server_url_top_level _ _ _ _ _ _ _ Hs Hc) as (Kc1 & HKc1 & Hkc1).
    destruct (set_security_schemes_top_level _ _ _ _ _ _ Hb HK1) as (K2 & HK2 & Hk2).
    destruct (set_security_schemes_top_level _ _ _ _ _ _ Hb HKc1)
      as (Kc2 & HKc2 & Hkc2).
    assert (is_Some (hb !! length h)) as Hcb by by rewrite HKc2.
    destruct (set_security_top_level _ _ _ _ _ _ Hcb Hsec HK2) as (K3 & HK3 & _ & Hk3).
    destruct (set_security_top_level _ _ _ _ _ _ Hcb Hsec HKc2)
      as (Kc3 & HKc3 & Hkc3 & _).
    rewrite (Hk3 ltac:(lia)) in HK3.
    split; [exists K2 | exists Kc3]; split_and!; try done.
    + intros k Hu Hss. by rewrite Hk2, Hk1.
    + intros k Hu Hss Hse. by rewrite Hkc3, Hkc2, Hkc1.
Qed.

(* ===================================================================== *)
(** * Loading a document and reading it back                              *)
(* ===================================================================== *)

Lemma reify_fuel_mono n h v t : reify n h v = Some t → reify (S n) h v = Some t.
Proof.
  revert v t. induction n as [|n IH]; intros v t.
  - by destruct v.
  - destruct v as [| | | | |l]; try done. rewrite !reify_ref.
    destruct (h !! l) as [[xs|K]|]; [| |done].
    + intros (ts & Hts & ->)%fmap_Some. apply fmap_Some. exists ts. split; [|done].
      apply mapM_Some in Hts. apply mapM_Some.
      eapply Forall2_impl; [|exact Hts]. intros x y. apply IH.
    + intros (ts & Hts & ->)%fmap_Some. apply fmap_Some. exists ts. split; [|done].
      apply mapM_Some in Hts. apply mapM_Some.
      eapply Forall2_impl; [|exact Hts]. intros [k x] y. simpl.
      intros (tx & Htx & ->)%fmap_Some. apply fmap_Some. exists tx.
      split; [by apply IH | done].
Qed.

Lemma reify_fuel_ge n m h v t :
  (n ≤ m)%nat → reify n h v = Some t → reify m h v = Some t.
Proof. induction 1 as [|m _ IH]; [done|]. intros Hr. by apply reify_fuel_mono, IH. Qed.

Lemma dict_set_new k v d : k ∉ d.*1 → dict_set k v d = d ++ [(k, v)].
Proof.
  induction d as [|[k' v'] d IH]; [done|]. simpl.
  intros Hk. apply not_elem_of_cons in Hk as [Hne Hk].
  destruct (decide (k' = k)); [done|]. by rewrite IH.
Qed.

Lemma load_items_back items :
  Forall (λ j, distinct_keys j = true → loads_back j) items →
  forallb distinct_keys items = true →
  ∀ h, ∃ os xs n,
    load_items json_load items h = (h ++ os, Ok xs)
    ∧ Forall2 (λ x j, ∀ m, (n ≤ m)%nat → reify m (h ++ os) x = Some j) xs items.
Proof.
  induction 1 as [|j js Hj _ IH]; intros Hd h.
  - exists [], [], O. rewrite app_nil_r. by split.
  - simpl in Hd. apply andb_true_iff in Hd as [Hdj Hdjs].
    destruct (Hj Hdj h) as (os1 & x & n1 & Hx & Hrx).
    destruct (IH Hdjs (h ++ os1)) as (os2 & xs & n2 & Hxs & Hrxs).
    exists (os1 ++ os2), (x :: xs), (n1 `max` n2)%nat. rewrite app_assoc. split.
    + cbn [load_items]. rewrite (py_bind_eq _ _ _ _ _ Hx).
      fold (load_items json_load). by rewrite (py_bind_eq _ _ _ _ _ Hxs).
    + constructor.
      * intros m Hm. apply heap_le_app, Hrx. lia.
      * eapply Forall2_impl; [|exact Hrxs]. intros y j' H m Hm. apply H. lia.
Qed.

Lemma load_members_back members :
  Forall (λ kv, distinct_keys kv.2 = true → loads_back kv.2) members →
  forallb (λ '(_, v), distinct_keys v) members = true →
  ∀ h acc, NoDup (acc.*1 ++ members.*1) →
  ∃ os d n,
    load_members json_load members acc h = (h ++ os, Ok (acc ++ d))
    ∧ Forall2 (λ e kv, e.1 = kv.1
                       ∧ ∀ m, (n ≤ m)%nat → reify m (h ++ os) e.2 = Some kv.2)
        d members.
Proof.
  induction 1 as [|[k j] ms Hj _ IH]; intros Hd h acc Hnd.
  - exists [], [], O. rewrite !app_nil_r. by split.
  - simpl in Hd, Hj. apply andb_true_iff in Hd as [Hdj Hdms].
    destruct (Hj Hdj h) as (os1 & x & n1 & Hx & Hrx).
    assert (k ∉ acc.*1) as Hk.
    { apply list.NoDup_app in Hnd as (_ & Hnd & _). intros Hin.
      apply (Hnd _ Hin). simpl. by left. }
    destruct (IH Hdms (h ++ os1) (acc ++ [(k, x)])) as (os2 & d & n2 & Hms & Hrd).
    { rewrite fmap_app. simpl. rewrite <-app_assoc. exact Hnd. }
    exists (os1 ++ os2), ((k, x) :: d), (n1 `max` n2)%nat. rewrite app_assoc. split.
    + cbn [load_members]. rewrite (py_bind_eq _ _ _ _ _ Hx).
      fold (load_members json_load). rewrite (dict_set_new _ _ _ Hk), Hms.
      by rewrite <-(app_assoc acc).
    + constructor.
      * split; [done|]. simpl. intros m Hm. apply heap_le_app, Hrx. lia.
      * eapply Forall2_impl; [|exact Hrd]. intros e kv [He H]. split; [done|].
        intros m Hm. apply H. lia.
Qed.

Lemma json_load_back j : distinct_keys j = true → loads_back j.
Proof.
  induction j as [|b|n|f|s|items IH|members IH] using json_nested_ind;
    intros Hd h;
    try (eexists [], _, O; rewrite app_nil_r; split; [done|]; by intros [|m] _).
  - destruct (load_items_back _ IH Hd h) as (os & xs & n & Hxs & Hr).
    exists (os ++ [OList xs]), (VRef (length (h ++ os))), (S n).
    rewrite app_assoc. split.
    + cbn [json_load]. by rewrite (py_bind_eq _ _ _ _ _ Hxs).
    + intros [|m] Hm; [lia|]. rewrite reify_ref, heap_lookup_new0. simpl.
      apply fmap_Some. exists items. split; [|done]. apply mapM_Some.
      eapply Forall2_impl; [|exact Hr]. intros x j H.
      apply heap_le_app, H. lia.
  - simpl in Hd. apply andb_true_iff in Hd as [Hnd Hd].
    apply bool_decide_eq_true in Hnd.
    destruct (load_members_back _ IH Hd h [] Hnd) as (os & d & n & Hms & Hr).
    exists (os ++ [ODict d]), (VRef (length (h ++ os))), (S n).
    rewrite app_assoc. split.
    + cbn [json_load]. by rewrite (py_bind_eq _ _ _ _ _ Hms).
    + intros [|m] Hm; [lia|]. rewrite reify_ref, heap_lookup_new0. simpl.
      apply fmap_Some. exists members. split; [|done]. apply mapM_Some.
      eapply Forall2_impl; [|exact Hr]. intros [k x] [k' j] [Hk H]. simpl in *.
      subst k'. apply fmap_Some. exists j. split; [|done].
      apply heap_le_app, H. lia.
Qed.

(** X7.  Loading and reading back.  [json.load] of a document in which no
    object repeats a key, on top of any store, succeeds, leaves the objects
    of that store alone, and returns a value that reads back as the
    document itself. *)
Theorem json_load_round_trip (j : json) (h : heap) :
  distinct_keys j = true →
  ∃ os v n, json_load j h = (h ++ os, Ok v) ∧ reify n (h ++ os) v = Some j.
Proof.
  intros Hd. destruct (json_load_back j Hd h) as (os & v & n & Hload & Hr).
  exists os, v, n. split; [done|]. by apply Hr.
Qed.

(* ===================================================================== *)
(** * Further properties of the workflows                                 *)
(* ===================================================================== *)

Section Minting.

Variable py_repr : json → pystr.

(** ** Minting a token *)

(** The two calls of [create_databricks_pat], answered, with status 200:
    what remains is to read the body. *)
Lemma create_pat_answered (w : world) s s1 s2 token response url comment days :
  respond w (get_token (databricks_app_id ++ str "/.default")) s = (s1, Ok token) →
  respond w (requests_post (Pat.token_create_url url) (Pat.bearer_headers token)
               (Pat.token_create_payload comment days)) s1 = (s2, Ok response) →
  status_code response = 200 →
  run w (Pat.create_databricks_pat py_repr url comment days) s
  = (s2,
     [get_token (databricks_app_id ++ str "/.default");
      requests_post (Pat.token_create_url url) (Pat.bearer_headers token)
        (Pat.token_create_payload comment days)],
     match json_body response with
     | None => Err JSONDecodeError
     | Some (JObj members) =>
         let pat_token := default JNull (Pat.members_get (str "token_value") members) in
         if Pat.truthy pat_token then
           match default (JObj []) (Pat.members_get (str "token_info") members) with
           | JObj _ => Ok pat_token
           | _ => Err AttributeError
           end
         else Err (RuntimeError (str "PAT token not found in response: "
                                 ++ py_repr (JObj members)))
     | Some _ => Err AttributeError
     end).
Proof.
  intros Htok Hpost Hstatus. unfold Pat.create_databricks_pat.
  rewrite run_bind. unfold perform at 1. cbn [run]. rewrite Htok, run_bind.
  unfold perform at 1. cbn [run]. rewrite Hpost, Hstatus.
  change (negb (200 =? 200)) with false. cbv iota.
  destruct (json_body response) as [[| | | | | |members]|]; try done.
  cbn [from_option Pat.json_get mbind prog_mbind prog_bind].
  destruct (Pat.truthy (default JNull (Pat.members_get (str "token_value") members)));
    [|done].
  cbn [negb].
  by destruct (default (JObj []) (Pat.members_get (str "token_info") members)).
Qed.

(** A run without a usable provided credential fails as minting fails. *)
Lemma register_pat_minting_fails (w : world) s s' tr e
    endpoint url conn agent_name model sub rg acct proj databricks_pat days comment :
  from_option str_truthy false databricks_pat = false →
  run w (Pat.create_databricks_pat py_repr url comment days) s = (s', tr, Err e) →
  run w (Pat.register_databricks_openapi_tool py_repr endpoint url conn agent_name
           model sub rg acct proj databricks_pat days comment) s
  = (s', tr, Err e).
Proof.
  intros Hpat Hrun.
  unfold Pat.register_databricks_openapi_tool, Pat.acquire_pat.
  by rewrite Hpat, !run_bind, Hrun.
Qed.

(** X8.  [create_databricks_pat], on a 200 response whose body is a JSON
    object with a truthy [token_value] (and whose [token_info], if there is
    one, is an object), returns that [token_value], after exactly the token
    request and the POST to [<workspace>/api/2.0/token/create] with the
    comment and the lifetime in seconds. *)
Theorem create_pat_returns_token
    (w : world) (s s1 s2 : wstate w) (token : pystr) (response : Response)
    (members : list (pystr * json)) (token_value : json)
    (url comment : pystr) (days : Z) :
  respond w (get_token (databricks_app_id ++ str "/.default")) s = (s1, Ok token) →
  respond w (requests_post (url ++ str "/api/2.0/token/create")
               [ (str "Authorization", str "Bearer " ++ token);
                 (str "Content-Type", str "application/json") ]
               (JObj [ (str "comment", JStr comment);
                       (str "lifetime_seconds", JInt (days * 86400)) ])) s1
  = (s2, Ok response) →
  status_code response = 200 →
  json_body response = Some (JObj members) →
  Pat.members_get (str "token_value") members = Some token_value →
  Pat.truthy token_value = true →
  (∀ token_info, Pat.members_get (str "token_info") members = Some token_info →
                 ∃ ms, token_info = JObj ms) →
  run w (Pat.create_databricks_pat py_repr url comment days) s
  = (s2,
     [get_token (databricks_app_id ++ str "/.default");
      requests_post (url ++ str "/api/2.0/token/create")
        [ (str "Authorization", str "Bearer " ++ token);
          (str "Content-Type", str "application/json") ]
        (JObj [ (str "comment", JStr comment);
                (str "lifetime_seconds", JInt (days * 86400)) ])],
     Ok token_value).
Proof.
  intros Htok Hpost Hstatus Hbody Hvalue Htruthy Hinfo.
  assert (Pat.token_create_payload comment days
          = JObj [ (str "comment", JStr comment);
                   (str "lifetime_seconds", JInt (days * 86400)) ]) as Hpayload.
  { unfold Pat.token_create_payload. cbv zeta.
    by replace (days * 24 * 60 * 60) with (days * 86400) by lia. }
  unfold Pat.token_create_url in *.
  rewrite (create_pat_answered w s s1 s2 token response url comment days Htok);
    [|unfold Pat.token_create_url, Pat.bearer_headers; by rewrite Hpayload | done].
  unfold Pat.token_create_url, Pat.bearer_headers. rewrite Hpayload.
  rewrite Hbody, Hvalue. cbn [from_option id]. rewrite Htruthy.
  destruct (Pat.members_get (str "token_info") members) as [ti|] eqn:Hti; [|done].
  destruct (Hinfo ti eq_refl) as [ms ->]. done.
Qed.

(** X9.  On a 200 response whose body is a JSON object without a truthy
    [token_value] (the key is missing, or holds [null], [false], zero, an
    empty string, list or object), [create_databricks_pat] fails with the
    runtime error "PAT token not found in response: <the body>", and so
    does the whole run of a script that was given no credential: no PUT
    follows. *)
Theorem create_pat_token_missing
    (w : world) (s s1 s2 : wstate w) (token : pystr) (response : Response)
    (members : list (pystr * json))
    (endpoint url conn agent_name model sub rg acct proj : pystr)
    (databricks_pat : option pystr) (days : Z) (comment : pystr) :
  from_option str_truthy false databricks_pat = false →
  respond w (get_token (databricks_app_id ++ str "/.default")) s = (s1, Ok token) →
  respond w (requests_post (Pat.token_create_url url) (Pat.bearer_headers token)
               (Pat.token_create_payload comment days)) s1 = (s2, Ok response) →
  status_code response = 200 →
  json_body response = Some (JObj members) →
  from_option Pat.truthy false (Pat.members_get (str "token_value") members) = false →
  let calls :=
    [get_token (databricks_app_id ++ str "/.default");
     requests_post (Pat.token_create_url url) (Pat.bearer_headers token)
       (Pat.token_create_payload comment days)] in
  let failure :=
    RuntimeError (str "PAT token not found in response: " ++ py_repr (JObj members)) in
  run w (Pat.create_databricks_pat py_repr url comment days) s
  = (s2, calls, Err failure)
  ∧ run w (Pat.register_databricks_openapi_tool py_repr endpoint url conn
             agent_name model sub rg acct proj databricks_pat days comment) s
    = (s2, calls, Err failure).
Proof.
  intros Hpat Htok Hpost Hstatus Hbody Hvalue calls failure.
  assert (run w (Pat.create_databricks_pat py_repr url comment days) s
          = (s2, calls, Err failure)) as Hrun.
  { rewrite (create_pat_answered w s s1 s2 token response url comment days Htok Hpost
               Hstatus), Hbody.
    destruct (Pat.members_get (str "token_value") members) as [tv|];
      cbn [from_option id] in *; [by rewrite Hvalue | done]. }
  split; [done | by apply register_pat_minting_fails].
Qed.

(** X10.  On a 200 response, [create_databricks_pat] raises an error that is
    not a runtime error when the body cannot be used: the decoding error of
    [response.json()] when the body is not JSON, [AttributeError] when the
    body is JSON but not an object, and [AttributeError] again when
    [token_value] is there and truthy but [token_info] is present and not
    an object (as in ["token_info": null]): the token has been minted and
    the run is lost all the same.  The whole run of a script that was given
    no credential fails likewise, right after the POST. *)
Theorem create_pat_unusable_body
    (w : world) (s s1 s2 : wstate w) (token : pystr) (response : Response)
    (endpoint url conn agent_name model sub rg acct proj : pystr)
    (databricks_pat : option pystr) (days : Z) (comment : pystr) (e : exn) :
  from_option str_truthy false databricks_pat = false →
  respond w (get_token (databricks_app_id ++ str "/.default")) s = (s1, Ok token) →
  respond w (requests_post (Pat.token_create_url url) (Pat.bearer_headers token)
               (Pat.token_create_payload comment days)) s1 = (s2, Ok response) →
  status_code response = 200 →
  match json_body response with
  | None => e = JSONDecodeError
  | Some (JObj members) =>
      e = AttributeError
      ∧ from_option Pat.truthy false (Pat.members_get (str "token_value") members)
        = true
      ∧ from_option is_object true (Pat.members_get (str "token_info") members)
        = false
  | Some _ => e = AttributeError
  end →
  let calls :=
    [get_token (databricks_app_id ++ str "/.default");
     requests_post (Pat.token_create_url url) (Pat.bearer_headers token)
       (Pat.token_create_payload comment days)] in
  run w (Pat.create_databricks_pat py_repr url comment days) s = (s2, calls, Err e)
  ∧ run w (Pat.register_databricks_openapi_tool py_repr endpoint url conn
             agent_name model sub rg acct proj databricks_pat days comment) s
    = (s2, calls, Err e).
Proof.
  intros Hpat Htok Hpost Hstatus Hbody calls.
  assert (run w (Pat.create_databricks_pat py_repr url comment days) s
          = (s2, calls, Err e)) as Hrun.
  { rewrite (create_pat_answered w s s1 s2 token response url comment days Htok Hpost
               Hstatus).
    destruct (json_body response) as [[| | | | | |members]|]; try by subst e.
    destruct Hbody as (-> & Hvalue & Hinfo).
    destruct (Pat.members_get (str "token_value") members) as [tv|];
      cbn [from_option id] in *; [|done]. rewrite Hvalue.
    destruct (Pat.members_get (str "token_info") members) as [[| | | | | |ms]|];
      by cbn [from_option id] in *. }
  split; [done | by apply register_pat_minting_fails].
Qed.

End Minting.

Section Provisioning.

Variable py_repr : json → pystr.

(** ** Provisioning the connection *)

(** The two calls of [create_ai_foundry_connection], answered. *)
Lemma connection_answered (w : world) s s1 s2 token response
    connection_name databricks_pat sub rg acct proj :
  respond w (get_token (str "https://management.azure.com/.default")) s
  = (s1, Ok token) →
  respond w
    (requests_put
       (Pat.connection_url (Pat.connection_resource_id sub rg acct proj connection_name))
       (Pat.connection_payload py_repr databricks_pat) (Pat.bearer_headers token)) s1
  = (s2, Ok response) →
  run w (Pat.create_ai_foundry_connection py_repr connection_name databricks_pat
           sub rg acct proj) s
  = (s2,
     [get_token (str "https://management.azure.com/.default");
      requests_put
        (Pat.connection_url (Pat.connection_resource_id sub rg acct proj connection_name))
        (Pat.connection_payload py_repr databricks_pat) (Pat.bearer_headers token)],
     if (status_code response =? 200) || (status_code response =? 201)
     then Ok (Pat.connection_resource_id sub rg acct proj connection_name)
     else Err (RuntimeError (Pat.connection_failure response))).
Proof.
  intros Htok Hput. unfold Pat.create_ai_foundry_connection.
  rewrite run_bind. unfold perform at 1. cbn [run]. rewrite Htok, run_bind.
  unfold perform at 1. cbn [run]. rewrite Hput.
  by destruct ((status_code response =? 200) || (status_code response =? 201)).
Qed.

(** A run with a usable provided credential starts with the connection. *)
Lemma register_pat_provided (w : world) s
    endpoint url conn agent_name model sub rg acct proj p days comment :
  strip p ≠ [] →
  run w (Pat.register_databricks_openapi_tool py_repr endpoint url conn agent_name
           model sub rg acct proj (Some p) days comment) s
  = match run w (Pat.create_ai_foundry_connection py_repr conn (JStr (strip p))
                   sub rg acct proj) s with
    | (s1, tr1, Ok connection_id) =>
        let '(s2, tr2, r) :=
          run w
            (document ← load_databricks_openapi_spec;
             openapi_spec ← in_fresh_store
               (spec ← json_load document;
                Pat.customize_openapi_spec_for_workspace spec url);
             agent ← Pat.reconcile agent_name model
                       (Pat.bind_tool openapi_spec connection_id);
             perform (print_json
                        (Pat.config endpoint model agent url conn connection_id
                           days (str "provided")));;
             Ret (a_id agent)) s1 in
        (s2, tr1 ++ tr2, r)
    | (s1, tr1, Err e) => (s1, tr1, Err e)
    end.
Proof.
  intros Hp. unfold Pat.register_databricks_openapi_tool.
  rewrite run_bind, (acquire_pat_provided _ _ _ _ _ Hp). cbn [run].
  rewrite run_bind.
  destruct (run w (Pat.create_ai_foundry_connection py_repr conn (JStr (strip p))
                     sub rg acct proj) s) as [[s1 tr1] [cid|e]]; [|done].
  by destruct (run w _ s1) as [[s2 tr2] r].
Qed.

(** X14.  With a usable provided credential, the run starts with the
    management-plane token and the PUT of the connection, whose stored
    credential is "Bearer " followed by the stripped credential; when the
    PUT is answered with a status other than 200 and 201, the run ends
    there with the runtime error "Failed to create connection: <status> -
    <body>": the spec file is not looked at and no agent is listed, created
    or updated. *)
Theorem connection_failure_ends_run
    (w : world) (s s1 s2 : wstate w) (token : pystr) (response : Response)
    (endpoint url conn agent_name model sub rg acct proj p : pystr)
    (days : Z) (comment : pystr) :
  strip p ≠ [] →
  let put :=
    requests_put
      (str "https://management.azure.com"
       ++ Pat.connection_resource_id sub rg acct proj conn
       ++ str "?api-version=2025-04-01-preview")
      (Pat.connection_payload py_repr (JStr (strip p)))
      [ (str "Authorization", str "Bearer " ++ token);
        (str "Content-Type", str "application/json") ] in
  respond w (get_token (str "https://management.azure.com/.default")) s
  = (s1, Ok token) →
  respond w put s1 = (s2, Ok response) →
  status_code response ≠ 200 → status_code response ≠ 201 →
  json_path (Pat.connection_payload py_repr (JStr (strip p)))
    [str "properties"; str "credentials"; str "keys"; str "Authorization"]
  = Some (JStr (str "Bearer " ++ strip p))
  ∧ run w (Pat.register_databricks_openapi_tool py_repr endpoint url conn
             agent_name model sub rg acct proj (Some p) days comment) s
    = (s2, [get_token (str "https://management.azure.com/.default"); put],
       Err (RuntimeError
              (str "Failed to create connection: "
               ++ str_of_int (status_code response) ++ str " - "
               ++ text response))).
Proof.
  intros Hp put Htok Hput H200 H201. split; [done|].
  rewrite (register_pat_provided _ _ _ _ _ _ _ _ _ _ _ _ _ _ Hp).
  rewrite (connection_answered w s s1 s2 token response conn (JStr (strip p))
             sub rg acct proj Htok Hput).
  apply Z.eqb_neq in H200, H201. by rewrite H200, H201.
Qed.

(** ** A missing spec file *)

(** X15.  Managed-identity script: when the spec file is not there, the run
    fails with [FileNotFoundError] having asked nothing of anybody: the
    existence test is its only call. *)
Theorem missing_spec_file_mi
    (w : world) (s s1 : wstate w) (endpoint url agent_name model : pystr) :
  respond w spec_path_exists s = (s1, Ok false) →
  run w (ManagedIdentity.register_databricks_openapi_tool endpoint url agent_name
           model) s
  = (s1, [spec_path_exists], Err FileNotFoundError).
Proof.
  intros Hexists. unfold ManagedIdentity.register_databricks_openapi_tool,
    load_databricks_openapi_spec.
  rewrite !run_bind. unfold perform at 1. cbn [run]. by rewrite Hexists.
Qed.

(** X16.  PAT script: the spec file is looked for only after the
    connection has been provisioned.  With a usable provided credential and
    a PUT answered 200 or 201, a missing spec file makes the run fail with
    [FileNotFoundError] after the PUT: the connection exists, no agent has
    been asked for and nothing has been printed. *)
Theorem missing_spec_file_pat
    (w : world) (s s1 s2 s3 : wstate w) (token : pystr) (response : Response)
    (endpoint url conn agent_name model sub rg acct proj p : pystr)
    (days : Z) (comment : pystr) :
  strip p ≠ [] →
  let put :=
    requests_put
      (Pat.connection_url (Pat.connection_resource_id sub rg acct proj conn))
      (Pat.connection_payload py_repr (JStr (strip p))) (Pat.bearer_headers token) in
  respond w (get_token (str "https://management.azure.com/.default")) s
  = (s1, Ok token) →
  respond w put s1 = (s2, Ok response) →
  status_code response = 200 ∨ status_code response = 201 →
  respond w spec_path_exists s2 = (s3, Ok false) →
  run w (Pat.register_databricks_openapi_tool py_repr endpoint url conn
           agent_name model sub rg acct proj (Some p) days comment) s
  = (s3,
     [get_token (str "https://management.azure.com/.default"); put; spec_path_exists],
     Err FileNotFoundError).
Proof.
  intros Hp put Htok Hput Hstatus Hexists.
  rewrite (register_pat_provided _ _ _ _ _ _ _ _ _ _ _ _ _ _ Hp).
  rewrite (connection_answered w s s1 s2 token response conn (JStr (strip p))
             sub rg acct proj Htok Hput).
  assert ((status_code response =? 200) || (status_code response =? 201) = true) as ->.
  { destruct Hstatus as [->| ->]; done. }
  unfold load_databricks_openapi_spec.
  rewrite !run_bind. unfold perform at 1. cbn [run]. by rewrite Hexists.
Qed.

(** ** A provided credential and the workspace *)

Lemma load_skips_workspace :
  all_calls (λ c, asks_workspace c = false) load_databricks_openapi_spec.
Proof.
  unfold load_databricks_openapi_spec. apply all_calls_bind.
  - by apply all_calls_perform.
  - intros []; [by apply all_calls_perform | done].
Qed.

(** X13.  With a usable provided credential the script never reaches the
    Databricks workspace: whatever the collaborators answer and however the
    run ends, no token is asked for the Databricks application and nothing
    is POSTed. *)
Theorem provided_pat_skips_workspace
    (w : world) (s s' : wstate w) (tr : list call) (r : outcome pystr)
    (endpoint url conn agent_name model sub rg acct proj p : pystr)
    (days : Z) (comment : pystr) :
  strip p ≠ [] →
  run w (Pat.register_databricks_openapi_tool py_repr endpoint url conn
           agent_name model sub rg acct proj (Some p) days comment) s
  = (s', tr, r) →
  Forall (λ c, asks_workspace c = false) tr.
Proof.
  intros Hp. apply run_all_calls.
  unfold Pat.register_databricks_openapi_tool.
  rewrite (acquire_pat_provided _ _ _ _ _ Hp).
  change (all_calls (λ c, asks_workspace c = false)
            (connection_id ←
               Pat.create_ai_foundry_connection py_repr conn (JStr (strip p))
                 sub rg acct proj;
             document ← load_databricks_openapi_spec;
             openapi_spec ← in_fresh_store
               (spec ← json_load document;
                Pat.customize_openapi_spec_for_workspace spec url);
             agent ← Pat.reconcile agent_name model
                       (Pat.bind_tool openapi_spec connection_id);
             perform (print_json
                        (Pat.config endpoint model agent url conn connection_id
                           days (str "provided")));;
             Ret (a_id agent))).
  apply all_calls_bind.
  { unfold Pat.create_ai_foundry_connection.
    apply all_calls_bind; [by apply all_calls_perform|].
    intros token. apply all_calls_bind; [by apply all_calls_perform|].
    intros response.
    by destruct ((status_code response =? 200) || (status_code response =? 201)). }
  intros cid. apply all_calls_bind; [apply load_skips_workspace|].
  intros doc. apply all_calls_bind; [apply all_calls_fresh|].
  intros spec. apply all_calls_bind.
  { eapply all_calls_impl; [|apply reconcile_pat_calls]. intros c Hc. by destruct c. }
  intros agent. apply all_calls_bind; [by apply all_calls_perform | done].
Qed.

(** ** The record of a run that minted its token *)

Lemma prepare_generated (w : world) s s1 tr1 src cid spec
    url conn sub rg acct proj databricks_pat days comment :
  from_option str_truthy false databricks_pat = false →
  run w (Pat.prepare py_repr url conn sub rg acct proj databricks_pat days comment) s
  = (s1, tr1, Ok (src, cid, spec)) →
  src = str "generated" ∧ cid = Pat.connection_resource_id sub rg acct proj conn.
Proof.
  intros Hpat. unfold Pat.prepare.
  intros (sa & tra & [tok src'] & ta & Ha & H & ->)%run_bind_ok.
  apply run_bind_ok in H as (sb & trb & cid' & tb & Hb & H & ->).
  apply run_bind_ok in H as (sc & trc & doc & tc & Hc & H & ->).
  apply run_bind_ok in H as (sd & trd & spec' & td & Hd & H & ->).
  cbn [run] in H. injection H as _ _ <- <- <-.
  split; [|by eapply connection_returns].
  unfold Pat.acquire_pat in Ha. rewrite Hpat in Ha.
  apply run_bind_ok in Ha as (? & ? & ? & ? & _ & Ha & _).
  cbn [run] in Ha. by injection Ha as _ _ _ <-.
Qed.

(** X17.  A PAT run that was given no credential (or the empty string) and
    returns has printed exactly one record, as its last call; in it
    [pat_source] is "generated", [pat_lifetime_days] is the requested
    lifetime, [auth_type] is "PersonalAccessToken" and [connection_id] is
    the resource id built from subscription, resource group, account,
    project and connection name. *)
Theorem generated_pat_result_record
    (w : world) (s s' : wstate w) (tr : list call) (aid : pystr)
    (endpoint url conn agent_name model sub rg acct proj : pystr)
    (databricks_pat : option pystr) (days : Z) (comment : pystr) :
  from_option str_truthy false databricks_pat = false →
  run w (Pat.register_databricks_openapi_tool py_repr endpoint url conn
           agent_name model sub rg acct proj databricks_pat days comment) s
  = (s', tr, Ok aid) →
  ∃ tr0 record,
    tr = tr0 ++ [print_json record]
    ∧ Forall (λ c, is_print c = false) tr0
    ∧ json_field record (str "auth_type") = Some (JStr (str "PersonalAccessToken"))
    ∧ json_field record (str "pat_source") = Some (JStr (str "generated"))
    ∧ json_field record (str "pat_lifetime_days") = Some (JInt days)
    ∧ json_field record (str "connection_id")
      = Some (JStr (Pat.connection_resource_id sub rg acct proj conn))
    ∧ json_field record (str "ai_foundry_agent_id") = Some (JStr aid).
Proof.
  intros Hpat (s1 & tr1 & src & cid & spec & s2 & tr2 & agent
               & Hprep & Hrec & Hprint & -> & ->)%register_pat_stages.
  pose proof (run_all_calls _ _ _ _ _ _ _ (prepare_quiet _ _ _ _ _ _ _ _ _ _) Hprep) as Hq1.
  pose proof (run_all_calls _ _ _ _ _ _ _ (reconcile_pat_calls _ _ _) Hrec) as Hq2.
  destruct (prepare_generated _ _ _ _ _ _ _ _ _ _ _ _ _ _ _ _ Hpat Hprep) as [-> ->].
  eexists (tr1 ++ tr2), _. split_and!.
  - by rewrite <-app_assoc.
  - rewrite Forall_app. split.
    + eapply Forall_impl; [apply quiet_not_print | exact Hq1].
    + eapply Forall_impl; [|exact Hq2]. intros c Hc. by destruct c.
  - done.
  - done.
  - done.
  - done.
  - done.
Qed.

End Provisioning.

(** ** The credential that is acquired *)

Lemma lstrip_head s c : head (lstrip s) = Some c → py_isspace c = false.
Proof.
  induction s as [|a s IH]; [done|]. simpl.
  destruct (py_isspace a) eqn:Ha; [done|]. simpl. by intros [= <-].
Qed.

Lemma lstrip_id s : (∀ c, head s = Some c → py_isspace c = false) → lstrip s = s.
Proof. destruct s as [|a s]; [done|]. simpl. intros H. by rewrite (H a). Qed.

Lemma lstrip_suffix s : ∃ pre, s = pre ++ lstrip s.
Proof.
  induction s as [|a s [pre IH]]; [by exists []|]. simpl.
  destruct (py_isspace a); [|by exists []].
  exists (a :: pre). simpl. by rewrite <-IH.
Qed.

Lemma head_rev (s : pystr) : head (rev s) = list.last s.
Proof.
  induction s as [|a s IH]; [done|]. simpl.
  destruct s as [|b s]; [done|].
  rewrite last_cons_cons, <-IH. simpl.
  by destruct (rev s ++ [b]) eqn:E; [destruct (rev s)|].
Qed.

Lemma last_rev (s : pystr) : list.last (rev s) = head s.
Proof. rewrite <-head_rev. by rewrite rev_involutive. Qed.

(** A stripped string neither starts nor ends with whitespace. *)
Lemma strip_ends s :
  (∀ c, head (strip s) = Some c → py_isspace c = false)
  ∧ (∀ c, list.last (strip s) = Some c → py_isspace c = false).
Proof.
  unfold strip, rstrip. split; intros c.
  - rewrite head_rev. destruct (lstrip_suffix (rev (lstrip s))) as [pre Hpre].
    destruct (lstrip (rev (lstrip s))) as [|x X] eqn:HX; [done|].
    intros Hlast. apply (lstrip_head s).
    rewrite <-last_rev, Hpre. rewrite last_app_cons. exact Hlast.
  - rewrite last_rev. apply lstrip_head.
Qed.

Lemma strip_idem s : strip (strip s) = strip s.
Proof.
  destruct (strip_ends s) as [Hhead Hlast].
  unfold strip at 1, rstrip. rewrite (lstrip_id _ Hhead).
  rewrite lstrip_id; [by rewrite rev_involutive|].
  intros c. rewrite head_rev. apply Hlast.
Qed.

Section Acquired.

Variable py_repr : json → pystr.

(** X12.  The credential that step 1 accepts from the caller neither starts
    nor ends with whitespace, and it is a fixed point of step 1: provided
    again, it is accepted as it is. *)
Theorem provided_pat_is_trimmed
    (w : world) (s : wstate w) (url p : pystr) (days : Z) (comment : pystr) :
  strip p ≠ [] →
  (∀ c, head (strip p) = Some c → py_isspace c = false)
  ∧ (∀ c, list.last (strip p) = Some c → py_isspace c = false)
  ∧ run w (Pat.acquire_pat py_repr url (Some (strip p)) days comment) s
    = run w (Pat.acquire_pat py_repr url (Some p) days comment) s.
Proof.
  intros Hp. destruct (strip_ends p) as [Hhead Hlast]. split_and!; [done..|].
  rewrite (acquire_pat_provided _ _ p _ _ Hp).
  rewrite acquire_pat_provided; rewrite strip_idem; done.
Qed.

End Acquired.

(** ** The reconcilers *)

Lemma find_agent_none agent_name listing :
  find_agent agent_name listing = None
  ↔ Forall (λ a, a_name a ≠ agent_name) listing.
Proof.
  unfold find_agent. induction listing as [|x xs IH]; simpl.
  - split; [constructor | done].
  - destruct (bool_decide (a_name x = agent_name)) eqn:Hx.
    + apply bool_decide_eq_true in Hx. split; [done|].
      intros [? _]%Forall_cons_1. done.
    + apply bool_decide_eq_false in Hx. rewrite IH. split.
      * by constructor.
      * by intros [_ ?]%Forall_cons_1.
Qed.

(** What either reconciler does once the listing holds no agent of the
    wanted name. *)
Lemma reconcile_mi_absent (w : world) s s1 listing agent_name model tool :
  respond w list_agents s = (s1, Ok listing) →
  find_agent agent_name listing = None →
  run w (ManagedIdentity.reconcile agent_name model tool) s
  = match respond w (create_agent (ManagedIdentity.desired agent_name model tool))
            s1 with
    | (s2, Ok a) =>
        (s2, [list_agents;
              create_agent (ManagedIdentity.desired agent_name model tool)],
         Ok (a_id a))
    | (s2, Err e) =>
        (s2, [list_agents;
              create_agent (ManagedIdentity.desired agent_name model tool)],
         Err e)
    end.
Proof.
  intros Hl Hf. unfold ManagedIdentity.reconcile.
  rewrite run_bind. unfold perform. cbn [run]. rewrite Hl, Hf, run_bind. cbn [run].
  by destruct (respond w _ s1) as [s2 [x|e]].
Qed.

Lemma reconcile_pat_absent (w : world) s s1 listing agent_name model tool :
  respond w list_agents s = (s1, Ok listing) →
  find_agent agent_name listing = None →
  run w (Pat.reconcile agent_name model tool) s
  = match respond w (create_agent (Pat.desired agent_name model tool)) s1 with
    | (s2, Ok a) =>
        (s2, [list_agents; create_agent (Pat.desired agent_name model tool)], Ok a)
    | (s2, Err e) =>
        (s2, [list_agents; create_agent (Pat.desired agent_name model tool)], Err e)
    end.
Proof.
  intros Hl Hf. unfold Pat.reconcile.
  rewrite run_bind. unfold perform. cbn [run]. rewrite Hl, Hf. cbn [run].
  by destruct (respond w _ s1) as [s2 [x|e]].
Qed.

(** X18.  When no listed agent has the wanted name (names are compared
    exactly), either reconciler lists and then creates, and issues no
    update; the create call of the managed-identity script passes name,
    description, instructions, tools and model, that of the PAT script
    passes no description; the id returned is the id of the agent the
    platform reports as created. *)
Theorem reconcile_creates_when_absent
    (w : world) (s s1 s2 : wstate w) (listing : list Agent) (created : Agent)
    (agent_name model : pystr) (tool : ToolDefinition) :
  respond w list_agents s = (s1, Ok listing) →
  Forall (λ a, a_name a ≠ agent_name) listing →
  let create_mi :=
    create_agent {| arg_name := Some agent_name;
                    arg_description := Some ManagedIdentity.agent_description;
                    arg_instructions := Some ManagedIdentity.instructions;
                    arg_tools := Some [tool];
                    arg_model := Some model |} in
  let create_pat :=
    create_agent {| arg_name := Some agent_name;
                    arg_description := None;
                    arg_instructions := Some Pat.instructions;
                    arg_tools := Some [tool];
                    arg_model := Some model |} in
  (respond w create_mi s1 = (s2, Ok created) →
   run w (ManagedIdentity.reconcile agent_name model tool) s
   = (s2, [list_agents; create_mi], Ok (a_id created)))
  ∧ (respond w create_pat s1 = (s2, Ok created) →
     run w (Pat.reconcile agent_name model tool) s
     = (s2, [list_agents; create_pat], Ok created)).
Proof.
  intros Hl Hnone%find_agent_none create_mi create_pat. split; intros Hc.
  - rewrite (reconcile_mi_absent _ _ _ _ _ _ _ Hl Hnone).
    fold create_mi in Hc |- *.
    change (create_agent (ManagedIdentity.desired agent_name model tool))
      with create_mi. by rewrite Hc.
  - rewrite (reconcile_pat_absent _ _ _ _ _ _ _ Hl Hnone).
    change (create_agent (Pat.desired agent_name model tool)) with create_pat.
    by rewrite Hc.
Qed.

(** ** The reconcilers and the platform *)

Lemma overwrite_idem args a : overwrite args (overwrite args a) = overwrite args a.
Proof. by destruct args as [[?|] [?|] [?|] [?|] [?|]]. Qed.

Lemma has_id_overwrite agent_id args a :
  has_id agent_id (overwrite args a) = has_id agent_id a.
Proof. done. Qed.

(** After the agent a scan found has been updated under the same name, a
    scan for that name finds an updated agent of the same id; the platform
    holds as many agents as before. *)
Lemma platform_update_first agent_name args P P' a a' :
  arg_name args = Some agent_name →
  find_agent agent_name (agents P) = Some a →
  platform_update (a_id a) args P = (P', Ok a') →
  (∃ b0, find_agent agent_name (agents P') = Some (overwrite args b0)
         ∧ a_id b0 = a_id a)
  ∧ agents P'
    = map (λ x, if has_id (a_id a) x then overwrite args x else x) (agents P)
  ∧ next_id P' = next_id P.
Proof.
  intros Hname Hf. unfold platform_update.
  set (upd := λ x, if has_id (a_id a) x then overwrite args x else x).
  destruct (find (has_id (a_id a)) (map upd (agents P))) as [a0|]; [|done].
  intros [= <- <-]. cbn [agents next_id]. split; [|done]. clear a0.
  assert (∀ x, a_name (overwrite args x) = agent_name) as Hov
    by (intros x; simpl; by rewrite Hname).
  assert (∀ x, has_id (a_id a) x = true → upd x = overwrite args x) as Hhit
    by (intros x Hx; unfold upd; by rewrite Hx).
  assert (∀ x, has_id (a_id a) x = false → upd x = x) as Hmiss
    by (intros x Hx; unfold upd; by rewrite Hx).
  unfold find_agent in *. revert Hf.
  induction (agents P) as [|x xs IH]; [done|]. cbn [find map].
  destruct (bool_decide (a_name x = agent_name)) eqn:Hx.
  - intros [= ->]. rewrite (Hhit a) by by apply bool_decide_eq_true_2.
    rewrite bool_decide_eq_true_2 by apply Hov. by exists a.
  - intros Hf. destruct (has_id (a_id a) x) eqn:Hid.
    + rewrite (Hhit x Hid). rewrite bool_decide_eq_true_2 by apply Hov.
      exists x. split; [done|]. by apply bool_decide_eq_true in Hid.
    + rewrite (Hmiss x Hid), Hx. by apply IH.
Qed.

Lemma find_agent_new agent_name listing a :
  find_agent agent_name listing = None → a_name a = agent_name →
  find_agent agent_name (listing ++ [a]) = Some a.
Proof.
  unfold find_agent. intros Hnone Hname.
  induction listing as [|x xs IH]; simpl in *.
  - by rewrite bool_decide_eq_true_2.
  - destruct (bool_decide (a_name x = agent_name)); [done | by apply IH].
Qed.

Lemma platform_create_inv args P P' r :
  platform_create args P = (P', r) →
  ∃ a, r = Ok a ∧ agents P' = agents P ++ [a]
       ∧ a_name a = default [] (arg_name args)
       ∧ a_description a = arg_description args
       ∧ a_instructions a = arg_instructions args
       ∧ a_model a = arg_model args
       ∧ a_tools a = default [] (arg_tools args).
Proof. intros [= <- <-]. eexists. by split_and!. Qed.

Lemma respond_create (E : world) s P args P' r :
  platform_create args P = (P', r) →
  respond (with_platform E) (create_agent args) (s, P) = ((s, P'), r).
Proof. intros H. cbn [respond with_platform]. by rewrite H. Qed.

Lemma updated_in_place_map agent_id args xs :
  updated_in_place agent_id args xs
    (map (λ x, if has_id agent_id x then overwrite args x else x) xs).
Proof.
  induction xs as [|x xs IH]; [constructor|]. simpl. constructor; [|exact IH].
  unfold has_id. destruct (bool_decide (a_id x = agent_id)) eqn:Hx.
  - apply bool_decide_eq_true in Hx. by right.
  - apply bool_decide_eq_false in Hx. by left.
Qed.

Lemma find_agent_listed agent_name listing a :
  find_agent agent_name listing = Some a →
  Exists (λ x, a_name x = agent_name) listing.
Proof.
  intros (earlier & later & -> & _ & Hname)%find_agent_split.
  apply Exists_app. right. by apply Exists_cons_hd.
Qed.

(** X19.  On the agent platform, whatever agents the project holds, either
    reconciler returns, and afterwards the first agent of the wanted name
    in the listing (no agent before it has the name) is the one whose id is
    returned, with the instructions, the model and the single tool of this
    run (and, for the managed-identity script, its description).  No agent
    is removed and at most one is added: when an agent of the name was
    listed, the listing holds the same agents in the same order, those of
    the returned id overwritten with this run's fields and every other one
    as it was; when none was, the listing is the old one followed by the
    new agent. *)
Theorem reconcile_establishes_agent
    (E : world) (s : wstate E) (P : platform) (agent_name model : pystr)
    (tool : ToolDefinition) :
  (∃ P' tr b earlier later,
      run (with_platform E) (ManagedIdentity.reconcile agent_name model tool) (s, P)
      = ((s, P'), tr, Ok (a_id b))
      ∧ agents P' = earlier ++ b :: later
      ∧ Forall (λ x, a_name x ≠ agent_name) earlier
      ∧ a_name b = agent_name
      ∧ a_description b = Some ManagedIdentity.agent_description
      ∧ a_instructions b = Some ManagedIdentity.instructions
      ∧ a_model b = Some model ∧ a_tools b = [tool]
      ∧ ((Exists (λ x, a_name x = agent_name) (agents P)
          ∧ updated_in_place (a_id b)
              (ManagedIdentity.desired agent_name model tool) (agents P) (agents P'))
         ∨ (Forall (λ x, a_name x ≠ agent_name) (agents P)
            ∧ agents P' = agents P ++ [b])))
  ∧ (∃ P' tr a' b earlier later,
      run (with_platform E) (Pat.reconcile agent_name model tool) (s, P)
      = ((s, P'), tr, Ok a')
      ∧ a_id a' = a_id b
      ∧ agents P' = earlier ++ b :: later
      ∧ Forall (λ x, a_name x ≠ agent_name) earlier
      ∧ a_name b = agent_name
      ∧ a_instructions b = Some Pat.instructions
      ∧ a_model b = Some model ∧ a_tools b = [tool]
      ∧ ((Exists (λ x, a_name x = agent_name) (agents P)
          ∧ updated_in_place (a_id b) (Pat.desired agent_name model tool)
              (agents P) (agents P'))
         ∨ (Forall (λ x, a_name x ≠ agent_name) (agents P)
            ∧ agents P' = agents P ++ [b]))).
Proof.
  destruct (find_agent agent_name (agents P)) as [a|] eqn:Hf; split.
  - destruct (reconcile_mi_platform E s P a agent_name model tool Hf)
      as (P' & a' & Hu & Hrun).
    destruct (platform_update_first agent_name
                (ManagedIdentity.desired agent_name model tool) _ _ _ _ eq_refl Hf Hu)
      as ((b0 & Hb & Hid) & Hagents & _).
    destruct (find_agent_split _ _ _ Hb) as (earlier & later & Hsplit & Hearlier & Hname).
    eexists P', _, (overwrite (ManagedIdentity.desired agent_name model tool) b0),
      earlier, later.
    rewrite Hrun. split_and!; try done.
    + cbn [a_id overwrite]. by rewrite Hid.
    + left. split; [by eapply find_agent_listed|].
      cbn [a_id overwrite]. rewrite Hid, Hagents. apply updated_in_place_map.
  - destruct (reconcile_pat_platform E s P a agent_name model tool Hf)
      as (P' & a' & Hu & Hida & Hrun).
    destruct (platform_update_first agent_name (Pat.desired agent_name model tool)
                _ _ _ _ eq_refl Hf Hu)
      as ((b0 & Hb & Hid) & Hagents & _).
    destruct (find_agent_split _ _ _ Hb) as (earlier & later & Hsplit & Hearlier & Hname).
    eexists P', _, a', (overwrite (Pat.desired agent_name model tool) b0),
      earlier, later.
    rewrite Hrun. split_and!; try done.
    + cbn [a_id overwrite]. congruence.
    + left. split; [by eapply find_agent_listed|].
      cbn [a_id overwrite]. rewrite Hid, Hagents. apply updated_in_place_map.
  - destruct (platform_create (ManagedIdentity.desired agent_name model tool) P)
      as [P' r] eqn:Hc.
    destruct (platform_create_inv _ _ _ _ Hc)
      as (b & -> & Hagents & Hname & Hdesc & Hinstr & Hmodel & Htools).
    apply find_agent_none in Hf.
    eexists P', _, b, (agents P), [].
    rewrite (reconcile_mi_absent (with_platform E) (s, P) (s, P) (agents P));
      [|done | by apply find_agent_none].
    rewrite (respond_create E s P _ _ _ Hc). split_and!; try done.
    right. by split.
  - destruct (platform_create (Pat.desired agent_name model tool) P)
      as [P' r] eqn:Hc.
    destruct (platform_create_inv _ _ _ _ Hc)
      as (b & -> & Hagents & Hname & Hdesc & Hinstr & Hmodel & Htools).
    apply find_agent_none in Hf.
    eexists P', _, b, b, (agents P), [].
    rewrite (reconcile_pat_absent (with_platform E) (s, P) (s, P) (agents P));
      [|done | by apply find_agent_none].
    rewrite (respond_create E s P _ _ _ Hc). split_and!; try done.
    right. by split.
Qed.

(** Updating twice with the same arguments is updating once. *)
Lemma platform_update_twice agent_id args P P1 a1 :
  platform_update agent_id args P = (P1, Ok a1) →
  platform_update agent_id args P1 = (P1, Ok a1).
Proof.
  unfold platform_update.
  set (upd := λ x, if has_id agent_id x then overwrite args x else x).
  destruct (find (has_id agent_id) (map upd (agents P))) as [a0|] eqn:Hfind; [|done].
  intros [= <- <-]. cbn [agents next_id].
  assert (map upd (map upd (agents P)) = map upd (agents P)) as ->.
  { rewrite map_map. apply map_ext. intros x. unfold upd.
    destruct (has_id agent_id x) eqn:Hx; [|by rewrite Hx].
    by rewrite has_id_overwrite, Hx, overwrite_idem. }
  by rewrite Hfind.
Qed.

(** X20.  On the agent platform, when the project holds an agent of the
    wanted name, reconciling a second time with the same name, model and
    tool leaves the platform exactly as the first reconciliation left it,
    and returns the same id; for both scripts. *)
Theorem reconcile_again_changes_nothing
    (E : world) (s : wstate E) (P : platform) (agent_name model : pystr)
    (tool : ToolDefinition) (a : Agent) :
  find_agent agent_name (agents P) = Some a →
  (∃ P1 tr,
      run (with_platform E) (ManagedIdentity.reconcile agent_name model tool) (s, P)
      = ((s, P1), tr, Ok (a_id a))
      ∧ run (with_platform E) (ManagedIdentity.reconcile agent_name model tool)
          (s, P1)
        = ((s, P1), tr, Ok (a_id a)))
  ∧ (∃ P1 tr a1,
      run (with_platform E) (Pat.reconcile agent_name model tool) (s, P)
      = ((s, P1), tr, Ok a1)
      ∧ run (with_platform E) (Pat.reconcile agent_name model tool) (s, P1)
        = ((s, P1), tr, Ok a1)).
Proof.
  intros Hf. split.
  - destruct (reconcile_mi_platform E s P a agent_name model tool Hf)
      as (P1 & a1 & Hu & Hrun).
    destruct (platform_update_first agent_name (ManagedIdentity.desired agent_name model tool)
                _ _ _ _ eq_refl Hf Hu)
      as ((b0 & Hb & Hid) & _).
    eexists P1, _. split; [done|].
    rewrite (reconcile_mi_found (with_platform E) (s, P1) (s, P1) (agents P1) _
               agent_name model tool eq_refl Hb).
    cbn [a_id overwrite]. rewrite Hid. simpl.
    by rewrite (platform_update_twice _ _ _ _ _ Hu).
  - destruct (reconcile_pat_platform E s P a agent_name model tool Hf)
      as (P1 & a1 & Hu & Hida & Hrun).
    destruct (platform_update_first agent_name (Pat.desired agent_name model tool)
                _ _ _ _ eq_refl Hf Hu)
      as ((b0 & Hb & Hid) & _).
    eexists P1, _, a1. split; [done|].
    rewrite (reconcile_pat_found (with_platform E) (s, P1) (s, P1) (agents P1) _
               agent_name model tool eq_refl Hb).
    cbn [a_id overwrite]. rewrite Hid. simpl.
    by rewrite (platform_update_twice _ _ _ _ _ Hu).
Qed.

(** X21.  On the agent platform, from a project that holds no agent of the
    wanted name, two reconciliations in a row: the first lists and creates,
    the second lists and updates the agent the first created, and both
    return the id of that agent; for both scripts. *)
Theorem reconcile_creates_then_updates
    (E : world) (s : wstate E) (P : platform) (agent_name model : pystr)
    (tool : ToolDefinition) :
  find_agent agent_name (agents P) = None →
  (∃ P1 P2 b,
      run (with_platform E) (ManagedIdentity.reconcile agent_name model tool) (s, P)
      = ((s, P1),
         [list_agents; create_agent (ManagedIdentity.desired agent_name model tool)],
         Ok (a_id b))
      ∧ agents P1 = agents P ++ [b]
      ∧ run (with_platform E) (ManagedIdentity.reconcile agent_name model tool)
          (s, P1)
        = ((s, P2),
           [list_agents;
            update_agent (a_id b) (ManagedIdentity.desired agent_name model tool)],
           Ok (a_id b)))
  ∧ (∃ P1 P2 b b',
      run (with_platform E) (Pat.reconcile agent_name model tool) (s, P)
      = ((s, P1), [list_agents; create_agent (Pat.desired agent_name model tool)],
         Ok b)
      ∧ agents P1 = agents P ++ [b]
      ∧ run (with_platform E) (Pat.reconcile agent_name model tool) (s, P1)
        = ((s, P2),
           [list_agents; update_agent (a_id b) (Pat.desired agent_name model tool)],
           Ok b')
      ∧ a_id b' = a_id b).
Proof.
  intros Hnone. split.
  - destruct (platform_create (ManagedIdentity.desired agent_name model tool) P)
      as [P1 r] eqn:Hc.
    destruct (platform_create_inv _ _ _ _ Hc) as (b & -> & Hagents & Hname & _).
    assert (find_agent agent_name (agents P1) = Some b) as Hb
      by (rewrite Hagents; by apply find_agent_new).
    destruct (reconcile_mi_platform E s P1 b agent_name model tool Hb)
      as (P2 & b' & _ & Hrun2).
    exists P1, P2, b. split_and!; [|done..].
    rewrite (reconcile_mi_absent (with_platform E) (s, P) (s, P) (agents P));
      [|done..].
    by rewrite (respond_create E s P _ _ _ Hc).
  - destruct (platform_create (Pat.desired agent_name model tool) P)
      as [P1 r] eqn:Hc.
    destruct (platform_create_inv _ _ _ _ Hc) as (b & -> & Hagents & Hname & _).
    assert (find_agent agent_name (agents P1) = Some b) as Hb
      by (rewrite Hagents; by apply find_agent_new).
    destruct (reconcile_pat_platform E s P1 b agent_name model tool Hb)
      as (P2 & b' & _ & Hid & Hrun2).
    exists P1, P2, b, b'. split_and!; [|done..].
    rewrite (reconcile_pat_absent (with_platform E) (s, P) (s, P) (agents P));
      [|done..].
    by rewrite (respond_create E s P _ _ _ Hc).
Qed.

(** ** The tool an agent is given *)

Lemma reconcile_mi_tool (w : world) s s' tr r agent_name model tool :
  run w (ManagedIdentity.reconcile agent_name model tool) s = (s', tr, Ok r) →
  Forall (carries_tool tool) tr ∧ Exists (λ c, is_write c = true) tr.
Proof.
  unfold ManagedIdentity.reconcile. rewrite run_bind. unfold perform at 1. cbn [run].
  destruct (respond w list_agents s) as [s1 [listing|e]]; [|done].
  destruct (find_agent agent_name listing) as [a|].
  - rewrite run_bind. unfold perform. cbn [run].
    destruct (respond w _ s1) as [s2 [x|e]]; [|done]. cbn [run app].
    intros [= <- <- <-]. split; [by repeat constructor|].
    by apply Exists_cons_tl, Exists_cons_hd.
  - rewrite run_bind. unfold perform. cbn [run].
    destruct (respond w _ s1) as [s2 [x|e]]; [|done]. cbn [run app].
    intros [= <- <- <-]. split; [by repeat constructor|].
    by apply Exists_cons_tl, Exists_cons_hd.
Qed.

Lemma reconcile_pat_tool (w : world) s s' tr r agent_name model tool :
  run w (Pat.reconcile agent_name model tool) s = (s', tr, Ok r) →
  Forall (carries_tool tool) tr ∧ Exists (λ c, is_write c = true) tr.
Proof.
  unfold Pat.reconcile. rewrite run_bind. unfold perform at 1. cbn [run].
  destruct (respond w list_agents s) as [s1 [listing|e]]; [|done].
  destruct (find_agent agent_name listing) as [a|].
  - unfold perform. cbn [run].
    destruct (respond w _ s1) as [s2 [x|e]]; [|done]. cbn [run app].
    intros [= <- <- <-]. split; [by repeat constructor|].
    by apply Exists_cons_tl, Exists_cons_hd.
  - unfold perform. cbn [run].
    destruct (respond w _ s1) as [s2 [x|e]]; [|done]. cbn [run app].
    intros [= <- <- <-]. split; [by repeat constructor|].
    by apply Exists_cons_tl, Exists_cons_hd.
Qed.

Lemma quiet_carries_tool tool c : quiet c → carries_tool tool c.
Proof. intros [H _]. by destruct c. Qed.

Lemma in_fresh_store_ok {A} (w : world) (m : py A) s s' tr h a :
  run w (in_fresh_store m) s = (s', tr, Ok (h, a)) →
  s' = s ∧ tr = [] ∧ m [] = (h, Ok a).
Proof.
  unfold in_fresh_store. destruct (m []) as [h0 [a0|e]]; [|done].
  cbn [run]. by intros [= <- <- <- <-].
Qed.

(** A load that returns: the file is there, and what is returned is what
    reading it gave. *)
Lemma load_run_ok (w : world) s s2 tr document :
  run w load_databricks_openapi_spec s = (s2, tr, Ok document) →
  ∃ s1, respond w spec_path_exists s = (s1, Ok true)
        ∧ respond w read_spec_file s1 = (s2, Ok document)
        ∧ tr = [spec_path_exists; read_spec_file].
Proof.
  unfold load_databricks_openapi_spec. rewrite run_bind. unfold perform at 1.
  cbn [run]. destruct (respond w spec_path_exists s) as [s1 [present|e]]; [|done].
  destruct present; [|by cbn [run app]].
  unfold perform. cbn [run].
  destruct (respond w read_spec_file s1) as [s2' [d|e]] eqn:Hread; [|done].
  cbn [app]. intros [= <- <- <-]. by exists s1.
Qed.

(** X26.  Managed-identity script: a run that returns has found the spec
    file there, has read it, and has then reconciled; an agent is created
    or updated, and every such call passes one tool, the OpenAPI tool named
    "databricks_api" whose authentication is the managed identity with the
    Databricks application id as audience, and whose spec is what
    [customize_openapi_spec_for_workspace] returned for the document that
    reading the file gave in this run, loaded into an empty store, and the
    workspace URL. *)
Theorem registered_tool_mi
    (w : world) (s s' : wstate w) (tr : list call) (aid : pystr)
    (endpoint url agent_name model : pystr) :
  run w (ManagedIdentity.register_databricks_openapi_tool endpoint url agent_name
           model) s = (s', tr, Ok aid) →
  ∃ s1 s2 document h0 spec h v tr_agents,
    let tool :=
      OpenApiToolDefinition
        {| fn_name := str "databricks_api";
           fn_description := ManagedIdentity.tool_description;
           fn_spec := (h, v);
           fn_auth :=
             OpenApiManagedAuthDetails (str "2ff814a6-3304-4ab8-85cb-cd0e6f879c1d") |}
    in
    respond w spec_path_exists s = (s1, Ok true)
    ∧ respond w read_spec_file s1 = (s2, Ok document)
    ∧ json_load document [] = (h0, Ok spec)
    ∧ ManagedIdentity.customize_openapi_spec_for_workspace spec url h0 = (h, Ok v)
    ∧ run w (ManagedIdentity.reconcile agent_name model tool) s2
      = (s', tr_agents, Ok aid)
    ∧ tr = [spec_path_exists; read_spec_file] ++ tr_agents
    ∧ Forall (carries_tool tool) tr
    ∧ Exists (λ c, is_write c = true) tr.
Proof.
  unfold ManagedIdentity.register_databricks_openapi_tool.
  intros (s2 & tr1 & doc & tr' & Hload & Hrest & ->)%run_bind_ok.
  apply run_bind_ok in Hrest as (s3 & tr2 & [h v] & tr3 & Hfresh & Hrec & ->).
  apply load_run_ok in Hload as (s1 & Hexists & Hread & ->).
  apply in_fresh_store_ok in Hfresh as (-> & -> & Hfresh).
  apply py_bind_inv in Hfresh as (h0 & spec & Hjson & Hcust).
  destruct (reconcile_mi_tool _ _ _ _ _ _ _ _ Hrec) as [Htool Hwrite].
  exists s1, s2, doc, h0, spec, h, v, tr3. cbv zeta.
  split_and!; [done..| |].
  - cbn [app]. by repeat constructor.
  - cbn [app]. by do 2 apply Exists_cons_tl.
Qed.

Section RegisteredTool.

Variable py_repr : json → pystr.

(** X27.  PAT script: a run that returns has acquired a credential,
    provisioned the connection with it, found the spec file there, read it,
    reconciled and printed the record, in this order; an agent is created
    or updated, and every such call passes one tool, the OpenAPI tool named
    "databricks_api" whose authentication is the connection with the
    resource id that step 2 provisioned, and whose spec is what
    [customize_openapi_spec_for_workspace] returned for the document that
    reading the file gave in this run, loaded into an empty store, and the
    workspace URL; that spec requires [bearerAuth] and nothing else. *)
Theorem registered_tool_pat
    (w : world) (s s' : wstate w) (tr : list call) (aid : pystr)
    (endpoint url conn agent_name model sub rg acct proj : pystr)
    (databricks_pat : option pystr) (days : Z) (comment : pystr) :
  run w (Pat.register_databricks_openapi_tool py_repr endpoint url conn
           agent_name model sub rg acct proj databricks_pat days comment) s
  = (s', tr, Ok aid) →
  ∃ sa tra pat_token pat_source sb trb s1 s2 document h0 spec h v
    s3 tr_agents agent,
    let connection_id := Pat.connection_resource_id sub rg acct proj conn in
    let tool :=
      OpenApiToolDefinition
        {| fn_name := str "databricks_api";
           fn_description := Pat.tool_description;
           fn_spec := (h, v);
           fn_auth := OpenApiConnectionAuthDetails connection_id |} in
    let record :=
      Pat.config endpoint model agent url conn connection_id days pat_source in
    run w (Pat.acquire_pat py_repr url databricks_pat days comment) s
    = (sa, tra, Ok (pat_token, pat_source))
    ∧ run w (Pat.create_ai_foundry_connection py_repr conn pat_token sub rg acct
               proj) sa
      = (sb, trb, Ok connection_id)
    ∧ respond w spec_path_exists sb = (s1, Ok true)
    ∧ respond w read_spec_file s1 = (s2, Ok document)
    ∧ json_load document [] = (h0, Ok spec)
    ∧ Pat.customize_openapi_spec_for_workspace spec url h0 = (h, Ok v)
    ∧ requires_bearer_only h v
    ∧ run w (Pat.reconcile agent_name model tool) s2 = (s3, tr_agents, Ok agent)
    ∧ aid = a_id agent
    ∧ respond w (print_json record) s3 = (s', Ok tt)
    ∧ tr = tra ++ trb ++ [spec_path_exists; read_spec_file] ++ tr_agents
           ++ [print_json record]
    ∧ Forall (carries_tool tool) tr
    ∧ Exists (λ c, is_write c = true) tr.
Proof.
  unfold Pat.register_databricks_openapi_tool.
  intros (sa & tra & [tok src] & ta & Ha & H & ->)%run_bind_ok.
  apply run_bind_ok in H as (sb & trb & cid & tb & Hb & H & ->).
  apply run_bind_ok in H as (sc & trc & doc & tc & Hc & H & ->).
  apply run_bind_ok in H as (sd & trd & [h v] & td & Hd & H & ->).
  apply run_bind_ok in H as (se & tre & agent & te & He & H & ->).
  apply run_bind_ok in H as (sf & trf & u & tf & Hf & H & ->).
  cbn [run] in H. injection H as <- <- <-.
  unfold perform in Hf. cbn [run] in Hf.
  destruct (respond w _ se) as [sf' [[]|e]] eqn:Hp; [|done].
  injection Hf as <- <-.
  pose proof (run_all_calls _ _ _ _ _ _ _ (acquire_pat_quiet _ _ _ _ _) Ha) as Hqa.
  pose proof (run_all_calls _ _ _ _ _ _ _
                (create_ai_foundry_connection_quiet _ _ _ _ _ _ _) Hb) as Hqb.
  pose proof (connection_returns _ _ _ _ _ _ _ _ _ _ _ _ Hb) as ->.
  apply load_run_ok in Hc as (s1 & Hexists & Hread & ->).
  apply in_fresh_store_ok in Hd as (-> & -> & Hd).
  apply py_bind_inv in Hd as (h0 & spec & Hjson & Hcust).
  destruct (reconcile_pat_tool _ _ _ _ _ _ _ _ He) as [Htool Hwrite].
  exists sa, tra, tok, src, sb, trb, s1, sc, doc, h0, spec, h, v, se, tre, agent.
  cbv zeta.
  split_and!; [done | done | done | done | done | done | | done | done | done | | |].
  - apply customize_pat_post in Hcust as (c & o' & -> & _ & _ & _ & Hsec).
    destruct Hsec as (K & s0 & HK & Hs & q & e & Hs' & Hq' & He').
    exists c, K, s0, q, e. by split_and!.
  - by rewrite app_nil_r, app_nil_l.
  - rewrite app_nil_r, app_nil_l, !Forall_app. split_and!.
    + eapply Forall_impl; [apply quiet_carries_tool | exact Hqa].
    + eapply Forall_impl; [apply quiet_carries_tool | exact Hqb].
    + by repeat constructor.
    + exact Htool.
    + by repeat constructor.
  - rewrite app_nil_r, app_nil_l, !Exists_app. by right; right; right; left.
Qed.

End RegisteredTool.

(** ** The entry points *)

Lemma register_mi_calls endpoint url agent_name model :
  all_calls (λ c, is_print c = false)
    (ManagedIdentity.register_databricks_openapi_tool endpoint url agent_name model).
Proof.
  unfold ManagedIdentity.register_databricks_openapi_tool.
  apply all_calls_bind.
  { eapply all_calls_impl; [apply quiet_not_print | apply load_quiet]. }
  intros doc. apply all_calls_bind; [apply all_calls_fresh|].
  intros spec. eapply all_calls_impl; [|apply reconcile_mi_calls].
  intros c Hc. by destruct c.
Qed.

(** X22.  Managed-identity [main]: it returns status 0 exactly when the
    registration returned and the record could be printed; the record is
    then the last call and the only print, and holds the id the
    registration returned, the agent name and the workspace URL that were
    asked for, [auth_type] "ManagedIdentity" and the Databricks application
    id as [databricks_audience]. *)
Theorem main_mi_success
    (w : world) (args : ManagedIdentity.Namespace) (s s' : wstate w)
    (tr : list call) :
  ManagedIdentity.main w args s = (s', tr, 0) →
  ∃ s1 tr0 agent_id record,
    run w (ManagedIdentity.register_databricks_openapi_tool
             (ManagedIdentity.ai_foundry_project args)
             (ManagedIdentity.databricks_workspace_url args)
             (ManagedIdentity.agent_name args)
             (ManagedIdentity.ai_model_deployment_name args)) s
    = (s1, tr0, Ok agent_id)
    ∧ respond w (print_json record) s1 = (s', Ok tt)
    ∧ tr = tr0 ++ [print_json record]
    ∧ Forall (λ c, is_print c = false) tr0
    ∧ json_field record (str "ai_foundry_agent_id") = Some (JStr agent_id)
    ∧ json_field record (str "agent_name")
      = Some (JStr (ManagedIdentity.agent_name args))
    ∧ json_field record (str "databricks_workspace_url")
      = Some (JStr (ManagedIdentity.databricks_workspace_url args))
    ∧ json_field record (str "auth_type") = Some (JStr (str "ManagedIdentity"))
    ∧ json_field record (str "databricks_audience") = Some (JStr databricks_app_id).
Proof.
  unfold ManagedIdentity.main, ManagedIdentity.main_try. rewrite run_bind.
  destruct (run w (ManagedIdentity.register_databricks_openapi_tool _ _ _ _) s)
    as [[s1 tr0] [agent_id|e]] eqn:Hreg; [|by intros [= _ _ ?]].
  pose proof (run_all_calls _ _ _ _ _ _ _ (register_mi_calls _ _ _ _) Hreg) as Hq.
  rewrite run_bind. unfold perform. cbn [run].
  destruct (respond w (print_json _) s1) as [s2 [[]|e]] eqn:Hprint;
    [|by intros [= _ _ ?]].
  cbn [run]. intros [= <- <-].
  eexists s1, tr0, agent_id, _. by split_and!.
Qed.

(** X23.  Managed-identity [main]: whatever makes the registration raise,
    [main] returns status 1, and nothing has been printed on the standard
    output. *)
Theorem main_mi_failure
    (w : world) (args : ManagedIdentity.Namespace) (s s' : wstate w)
    (tr : list call) (e : exn) :
  run w (ManagedIdentity.register_databricks_openapi_tool
           (ManagedIdentity.ai_foundry_project args)
           (ManagedIdentity.databricks_workspace_url args)
           (ManagedIdentity.agent_name args)
           (ManagedIdentity.ai_model_deployment_name args)) s
  = (s', tr, Err e) →
  ManagedIdentity.main w args s = (s', tr, 1)
  ∧ Forall (λ c, is_print c = false) tr.
Proof.
  intros Hreg. split.
  - unfold ManagedIdentity.main, ManagedIdentity.main_try. by rewrite run_bind, Hreg.
  - by eapply run_all_calls; [apply register_mi_calls|].
Qed.

Section PatMain.

Variable py_repr : json → pystr.
Variable request_exception : exn → bool.

(** X24.  PAT [main]: a provided credential that is not empty but all
    whitespace makes [main] end with the [ValueError] of
    [register_databricks_openapi_tool], with or without [--debug]: the
    handler of [main] catches runtime errors and request exceptions only,
    so no exit status is returned.  Nothing has been asked of anybody. *)
Theorem main_pat_blank_credential
    (w : world) (args : Pat.Namespace) (s : wstate w) (p : pystr) :
  Pat.databricks_pat args = Some p → p ≠ [] → strip p = [] →
  Pat.main py_repr request_exception w args s
  = (s, [], Err (ValueError (str "--databricks-pat cannot be empty when provided"))).
Proof.
  intros Hpat Hne Hblank. unfold Pat.main, Pat.register_databricks_openapi_tool.
  by rewrite Hpat, run_bind, (acquire_pat_blank _ _ _ _ _ Hne Hblank).
Qed.

(** X25.  PAT [main], on the generation path, when the token-creation
    endpoint answers with a status other than 200: without [--debug] it
    returns status 1; with [--debug] the runtime error leaves [main].  In
    both cases the token request and the POST are the only calls. *)
Theorem main_pat_token_creation_failure
    (w : world) (args : Pat.Namespace) (s s1 s2 : wstate w) (token : pystr)
    (response : Response) :
  from_option str_truthy false (Pat.databricks_pat args) = false →
  let post :=
    requests_post (Pat.token_create_url (Pat.databricks_workspace_url args))
      (Pat.bearer_headers token)
      (Pat.token_create_payload (Pat.pat_comment args) (Pat.pat_lifetime_days args)) in
  respond w (get_token (databricks_app_id ++ str "/.default")) s = (s1, Ok token) →
  respond w post s1 = (s2, Ok response) →
  status_code response ≠ 200 →
  Pat.main py_repr request_exception w args s
  = (s2, [get_token (databricks_app_id ++ str "/.default"); post],
     if Pat.debug args
     then Err (RuntimeError (Pat.pat_failure response))
     else Ok 1).
Proof.
  intros Hpat post Htok Hpost Hstatus.
  assert (run w (Pat.create_databricks_pat py_repr (Pat.databricks_workspace_url args)
                   (Pat.pat_comment args) (Pat.pat_lifetime_days args)) s
          = (s2, [get_token (databricks_app_id ++ str "/.default"); post],
             Err (RuntimeError (Pat.pat_failure response)))) as Hrun.
  { unfold Pat.create_databricks_pat. rewrite run_bind. unfold perform at 1.
    cbn [run]. rewrite Htok, run_bind. unfold perform at 1. cbn [run].
    fold post. rewrite Hpost. apply Z.eqb_neq in Hstatus. by rewrite Hstatus. }
  unfold Pat.main.
  rewrite (register_pat_minting_fails py_repr w s s2 _ _ _ _ _ _ _ _ _ _ _ _ _ _ Hpat Hrun).
  cbn [Pat.caught]. by destruct (Pat.debug args).
Qed.

End PatMain.

(* ===================================================================== *)
(** * The further properties at the samples                               *)
(* ===================================================================== *)

Lemma customize_only_allocates_witness :
  ∃ h' r,
    customize_openapi_spec_for_workspace ModeB plain_spec new_url plain_store
    = (h', Ok r)
    ∧ reify 3 h' plain_spec = Some plain_document
    ∧ reify 3 h' r ≠ Some plain_document.
Proof.
  destruct (customize_openapi_spec_for_workspace ModeB plain_spec new_url plain_store)
    as [h' [r|e]] eqn:E; [|by vm_compute in E].
  exists h', r. split; [done|].
  destruct (customize_only_allocates ModeB new_url plain_store 0
              (ODict [(str "openapi", VStr (str "3.0.1"))]) h' r eq_refl I (λ _, I) E)
    as (_ & _ & _ & Hkeep).
  split; [by apply Hkeep|].
  vm_compute in E. injection E as <- <-. by vm_compute.
Defined.

Lemma customize_sets_first_server_url_witness :
  ∃ h' r,
    customize_openapi_spec_for_workspace ModeA bare_spec new_url bare_store
    = (h', Ok r)
    ∧ first_server_url h' 2 0 new_url.
Proof.
  destruct (customize_openapi_spec_for_workspace ModeA bare_spec new_url bare_store)
    as [h' [r|e]] eqn:E; [|by vm_compute in E].
  exists h', r. split; [done|].
  eapply (customize_sets_first_server_url ModeA new_url bare_store 2 _ 0 _ h' r).
  - reflexivity.
  - do 3 eexists. split_and!; reflexivity.
  - exact E.
Defined.

Lemma customize_replaces_security_schemes_witness :
  ∃ h' r P' so,
    Pat.customize_openapi_spec_for_workspace sample_spec new_url sample_store
    = (h', Ok r)
    ∧ h' !! 4%nat = Some (ODict P')
    ∧ dict_get k_securitySchemes P' = Some (VRef so)
    ∧ reify 2 h' (VRef so) = Some bearer_schemes_document.
Proof.
  destruct (Pat.customize_openapi_spec_for_workspace sample_spec new_url sample_store)
    as [h' [r|e]] eqn:E; [|by vm_compute in E].
  assert (∃ o P, sample_store !! 8%nat = Some o ∧ schemes_target sample_store o 4 P)
    as (o & P & Ho & Ht).
  { eexists _, _. split; [reflexivity|].
    eexists. split_and!; [reflexivity | reflexivity | reflexivity |].
    eexists. reflexivity. }
  destruct (customize_replaces_security_schemes new_url sample_store 8 o 4 P h' r
              Ho Ht E) as (_ & _ & _ & P' & so & HP' & Hso & Hr).
  by exists h', r, P', so.
Defined.

Lemma customize_top_level_not_a_dict_witness :
  customize_openapi_spec_for_workspace ModeB (VStr (str "openapi: 3.0.1")) new_url []
  = ([], Err AttributeError).
Proof.
  by apply (customize_top_level_not_a_dict ModeB new_url []).
Defined.

Lemma customize_malformed_servers_witness :
  reify 3 stringly_store stringly_spec = Some stringly_document
  ∧ ∃ h', customize_openapi_spec_for_workspace ModeA stringly_spec new_url
            stringly_store = (h', Err TypeError).
Proof.
  split; [reflexivity|]. eexists.
  eapply (customize_malformed_servers ModeA new_url stringly_store 1 _ _ TypeError);
    reflexivity.
Defined.

Lemma customize_returns_witness :
  ∃ h' r,
    customize_openapi_spec_for_workspace ModeB sample_spec new_url sample_store
    = (h', Ok r).
Proof.
  apply customize_returns.
  exists 8%nat. eexists. split_and!; [reflexivity | reflexivity | |].
  - simpl. eexists. split; [reflexivity|]. by do 2 eexists.
  - simpl. by eexists.
Defined.

Lemma customize_keeps_top_level_witness :
  ∃ h' r K',
    customize_openapi_spec_for_workspace ModeB sample_spec new_url sample_store
    = (h', Ok r)
    ∧ h' !! 8%nat = Some (ODict K')
    ∧ dict_get k_security K' = Some (VRef 7)
    ∧ reify 3 h' (VRef 7) = Some (JArr [JObj [(str "oauth2", JArr [])]]).
Proof.
  destruct (customize_openapi_spec_for_workspace ModeB sample_spec new_url sample_store)
    as [h' [r|e]] eqn:E; [|by vm_compute in E].
  assert (∃ K, sample_store !! 8%nat = Some (ODict K)
               ∧ dict_get k_security K = Some (VRef 7)) as (K & HK & Hsec)
    by (eexists; split; reflexivity).
  destruct (customize_keeps_top_level ModeB new_url sample_store 8 K h' r HK E)
    as [(K' & HK' & Hkeep) _].
  exists h', r, K'. split_and!; [done | done | |].
  - rewrite Hkeep; [done | done | done].
  - vm_compute in E. injection E as <- _. reflexivity.
Defined.

Lemma json_load_round_trip_witness :
  ∃ os v n, json_load sample_document [] = (os, Ok v)
            ∧ reify n os v = Some sample_document.
Proof.
  destruct (json_load_round_trip sample_document [] eq_refl) as (os & v & n & H1 & H2).
  by exists os, v, n.
Defined.

Lemma create_pat_returns_token_witness :
  run (sample_world 200 201)
    (Pat.create_databricks_pat sample_repr new_url (str "AI Foundry Agent") 90) tt
  = (tt,
     [get_token (databricks_app_id ++ str "/.default");
      requests_post (new_url ++ str "/api/2.0/token/create")
        [ (str "Authorization", str "Bearer aad-token");
          (str "Content-Type", str "application/json") ]
        (JObj [ (str "comment", JStr (str "AI Foundry Agent"));
                (str "lifetime_seconds", JInt 7776000) ])],
     Ok (JStr (str "dapi-generated"))).
Proof.
  eapply (create_pat_returns_token sample_repr (sample_world 200 201) tt tt tt
           (str "aad-token") _ [(str "token_value", JStr (str "dapi-generated"))]
           (JStr (str "dapi-generated")) new_url (str "AI Foundry Agent") 90);
    try reflexivity.
  intros token_info Hinfo. by vm_compute in Hinfo.
Defined.

Lemma create_pat_token_missing_witness :
  run (scripted_world true (Some (JObj [(str "token_value", JStr [])])))
    (Pat.register_databricks_openapi_tool sample_repr sample_endpoint new_url
       (str "databricks-pat-connection") default_agent_name (str "gpt-4o")
       (str "sub") (str "rg") (str "acct") (str "proj") None 90
       (str "AI Foundry Agent")) tt
  = (tt,
     [get_token (databricks_app_id ++ str "/.default");
      requests_post (Pat.token_create_url new_url)
        (Pat.bearer_headers (str "aad-token"))
        (Pat.token_create_payload (str "AI Foundry Agent") 90)],
     Err (RuntimeError (str "PAT token not found in response: <repr>"))).
Proof.
  exact (proj2 (create_pat_token_missing sample_repr
                  (scripted_world true (Some (JObj [(str "token_value", JStr [])])))
                  tt tt tt (str "aad-token") _ [(str "token_value", JStr [])]
                  sample_endpoint new_url (str "databricks-pat-connection")
                  default_agent_name (str "gpt-4o") (str "sub") (str "rg")
                  (str "acct") (str "proj") None 90 (str "AI Foundry Agent")
                  eq_refl eq_refl eq_refl eq_refl eq_refl eq_refl)).
Defined.

Lemma create_pat_unusable_body_witness :
  run (scripted_world true
         (Some (JObj [ (str "token_value", JStr (str "dapi-generated"));
                       (str "token_info", JNull) ])))
    (Pat.create_databricks_pat sample_repr new_url (str "AI Foundry Agent") 90) tt
  = (tt,
     [get_token (databricks_app_id ++ str "/.default");
      requests_post (Pat.token_create_url new_url)
        (Pat.bearer_headers (str "aad-token"))
        (Pat.token_create_payload (str "AI Foundry Agent") 90)],
     Err AttributeError).
Proof.
  refine (proj1 (create_pat_unusable_body sample_repr
                   (scripted_world true
                      (Some (JObj [ (str "token_value", JStr (str "dapi-generated"));
                                    (str "token_info", JNull) ])))
                   tt tt tt (str "aad-token") _
                   sample_endpoint new_url (str "databricks-pat-connection")
                   default_agent_name (str "gpt-4o") (str "sub") (str "rg")
                   (str "acct") (str "proj") None 90 (str "AI Foundry Agent")
                   AttributeError eq_refl eq_refl eq_refl eq_refl _)).
  by vm_compute.
Defined.

Lemma blank_pat_is_rejected_witness :
  run (sample_world 200 201)
    (Pat.register_databricks_openapi_tool sample_repr sample_endpoint new_url
       (str "databricks-pat-connection") default_agent_name (str "gpt-4o")
       (str "sub") (str "rg") (str "acct") (str "proj") (Some (str "   ")) 90
       (str "AI Foundry Agent")) tt
  = (tt, [], Err (ValueError (str "--databricks-pat cannot be empty when provided"))).
Proof.
  apply (blank_pat_is_rejected sample_repr (sample_world 200 201) tt);
    [discriminate | reflexivity].
Defined.

Lemma provided_pat_is_trimmed_witness :
  strip (str "  abc123 ") = str "abc123"
  ∧ run (sample_world 200 201)
      (Pat.acquire_pat sample_repr new_url (Some (strip (str "  abc123 "))) 90
         (str "AI Foundry Agent")) tt
    = run (sample_world 200 201)
        (Pat.acquire_pat sample_repr new_url (Some (str "  abc123 ")) 90
           (str "AI Foundry Agent")) tt.
Proof.
  split; [reflexivity|].
  apply (provided_pat_is_trimmed sample_repr (sample_world 200 201) tt new_url
           (str "  abc123 ") 90 (str "AI Foundry Agent")).
  vm_compute. discriminate.
Defined.

Lemma provided_pat_skips_workspace_witness :
  ∃ st tr,
    run (with_platform (sample_world 200 201))
      (Pat.register_databricks_openapi_tool sample_repr sample_endpoint new_url
         (str "databricks-pat-connection") default_agent_name (str "gpt-4o")
         (str "sub") (str "rg") (str "acct") (str "proj") (Some (str "abc123")) 90
         (str "AI Foundry Agent")) (tt, sample_platform)
    = (st, tr, Ok (str "asst_abc"))
    ∧ Forall (λ c, asks_workspace c = false) tr.
Proof.
  destruct (run (with_platform (sample_world 200 201))
              (Pat.register_databricks_openapi_tool sample_repr sample_endpoint
                 new_url (str "databricks-pat-connection") default_agent_name
                 (str "gpt-4o") (str "sub") (str "rg") (str "acct") (str "proj")
                 (Some (str "abc123")) 90 (str "AI Foundry Agent"))
              (tt, sample_platform))
    as [[st tr] r] eqn:H.
  assert (strip (str "abc123") ≠ []) as Hp by (vm_compute; discriminate).
  pose proof (provided_pat_skips_workspace sample_repr _ _ _ _ _ _ _ _ _ _ _ _ _ _ _ _ _
                Hp H) as Hskip.
  exists st, tr. split; [|done].
  vm_compute in H. by injection H as _ _ <-.
Defined.

Lemma connection_failure_ends_run_witness :
  ∃ put,
    run (sample_world 200 500)
      (Pat.register_databricks_openapi_tool sample_repr sample_endpoint new_url
         (str "databricks-pat-connection") default_agent_name (str "gpt-4o")
         (str "sub") (str "rg") (str "acct") (str "proj") (Some (str " abc123")) 90
         (str "AI Foundry Agent")) tt
    = (tt, [get_token (str "https://management.azure.com/.default"); put],
       Err (RuntimeError
              (str "Failed to create connection: 500 - management plane says so"))).
Proof.
  eexists.
  refine (proj2 (connection_failure_ends_run sample_repr (sample_world 200 500)
                   tt tt tt (str "aad-token") _ sample_endpoint new_url
                   (str "databricks-pat-connection") default_agent_name
                   (str "gpt-4o") (str "sub") (str "rg") (str "acct") (str "proj")
                   (str " abc123") 90 (str "AI Foundry Agent") _ eq_refl eq_refl _ _)).
  - vm_compute. discriminate.
  - simpl. lia.
  - simpl. lia.
Defined.

Lemma missing_spec_file_mi_witness :
  run (scripted_world false None)
    (ManagedIdentity.register_databricks_openapi_tool sample_endpoint new_url
       default_agent_name (str "gpt-4o")) tt
  = (tt, [spec_path_exists], Err FileNotFoundError).
Proof.
  exact (missing_spec_file_mi (scripted_world false None) tt tt sample_endpoint
           new_url default_agent_name (str "gpt-4o") eq_refl).
Defined.

Lemma missing_spec_file_pat_witness :
  ∃ put,
    run (scripted_world false None)
      (Pat.register_databricks_openapi_tool sample_repr sample_endpoint new_url
         (str "databricks-pat-connection") default_agent_name (str "gpt-4o")
         (str "sub") (str "rg") (str "acct") (str "proj") (Some (str "abc123")) 90
         (str "AI Foundry Agent")) tt
    = (tt,
       [get_token (str "https://management.azure.com/.default"); put;
        spec_path_exists],
       Err FileNotFoundError).
Proof.
  eexists.
  refine (missing_spec_file_pat sample_repr (scripted_world false None)
            tt tt tt tt (str "aad-token") _ sample_endpoint new_url
            (str "databricks-pat-connection") default_agent_name
            (str "gpt-4o") (str "sub") (str "rg") (str "acct") (str "proj")
            (str "abc123") 90 (str "AI Foundry Agent") _ eq_refl eq_refl _ eq_refl).
  - vm_compute. discriminate.
  - by right.
Defined.

Lemma generated_pat_result_record_witness :
  ∃ st tr0 record,
    run (with_platform (sample_world 200 201))
      (Pat.register_databricks_openapi_tool sample_repr sample_endpoint new_url
         (str "databricks-pat-connection") default_agent_name (str "gpt-4o")
         (str "sub") (str "rg") (str "acct") (str "proj") None 90
         (str "AI Foundry Agent")) (tt, sample_platform)
    = (st, tr0 ++ [print_json record], Ok (str "asst_abc"))
    ∧ json_field record (str "pat_source") = Some (JStr (str "generated"))
    ∧ json_field record (str "pat_lifetime_days") = Some (JInt 90).
Proof.
  destruct (run (with_platform (sample_world 200 201))
              (Pat.register_databricks_openapi_tool sample_repr sample_endpoint
                 new_url (str "databricks-pat-connection") default_agent_name
                 (str "gpt-4o") (str "sub") (str "rg") (str "acct") (str "proj")
                 None 90 (str "AI Foundry Agent"))
              (tt, sample_platform))
    as [[st tr] [aid|e]] eqn:H; [|by vm_compute in H].
  destruct (generated_pat_result_record _ _ _ _ _ _ _ _ _ _ _ _ _ _ _ None _ _
              eq_refl H)
    as (tr0 & record & -> & _ & _ & Hsrc & Hdays & _).
  exists st, tr0, record. split_and!; try done.
  f_equal. vm_compute in H. by injection H as _ _ <-.
Defined.

Lemma reconcile_creates_when_absent_witness :
  ∃ st created,
    run (with_platform (sample_world 200 201))
      (Pat.reconcile default_agent_name (str "gpt-4o") sample_tool_mi)
      (tt, empty_platform)
    = (st,
       [list_agents;
        create_agent {| arg_name := Some default_agent_name;
                        arg_description := None;
                        arg_instructions := Some Pat.instructions;
                        arg_tools := Some [sample_tool_mi];
                        arg_model := Some (str "gpt-4o") |}],
       Ok created)
    ∧ a_id created = str "asst_1".
Proof.
  destruct (platform_create
              (Pat.desired default_agent_name (str "gpt-4o") sample_tool_mi)
              empty_platform) as [P' [created|e]] eqn:Hc; [|by vm_compute in Hc].
  exists (tt, P'), created. split.
  - apply (reconcile_creates_when_absent (with_platform (sample_world 200 201))
             (tt, empty_platform) (tt, empty_platform) (tt, P') [] created
             default_agent_name (str "gpt-4o") sample_tool_mi eq_refl).
    + constructor.
    + change (Pat.desired default_agent_name (str "gpt-4o") sample_tool_mi)
        with {| arg_name := Some default_agent_name;
                arg_description := None;
                arg_instructions := Some Pat.instructions;
                arg_tools := Some [sample_tool_mi];
                arg_model := Some (str "gpt-4o") |} in Hc.
      cbn [respond with_platform]. by rewrite Hc.
  - vm_compute in Hc. by injection Hc as _ <-.
Defined.

Lemma reconcile_again_changes_nothing_witness :
  ∃ P1 tr,
    run (with_platform (sample_world 200 201))
      (ManagedIdentity.reconcile default_agent_name (str "gpt-4o") sample_tool_mi)
      (tt, sample_platform)
    = ((tt, P1), tr, Ok (str "asst_abc"))
    ∧ run (with_platform (sample_world 200 201))
        (ManagedIdentity.reconcile default_agent_name (str "gpt-4o") sample_tool_mi)
        (tt, P1)
      = ((tt, P1), tr, Ok (str "asst_abc")).
Proof.
  exact (proj1 (reconcile_again_changes_nothing (sample_world 200 201) tt
                  sample_platform default_agent_name (str "gpt-4o") sample_tool_mi
                  sample_agent eq_refl)).
Defined.

Lemma reconcile_creates_then_updates_witness :
  ∃ P1 P2 b,
    run (with_platform (sample_world 200 201))
      (ManagedIdentity.reconcile default_agent_name (str "gpt-4o") sample_tool_mi)
      (tt, empty_platform)
    = ((tt, P1),
       [list_agents;
        create_agent
          (ManagedIdentity.desired default_agent_name (str "gpt-4o") sample_tool_mi)],
       Ok (a_id b))
    ∧ agents P1 = agents empty_platform ++ [b]
    ∧ run (with_platform (sample_world 200 201))
        (ManagedIdentity.reconcile default_agent_name (str "gpt-4o") sample_tool_mi)
        (tt, P1)
      = ((tt, P2),
         [list_agents;
          update_agent (a_id b)
            (ManagedIdentity.desired default_agent_name (str "gpt-4o")
               sample_tool_mi)],
         Ok (a_id b)).
Proof.
  exact (proj1 (reconcile_creates_then_updates (sample_world 200 201) tt
                  empty_platform default_agent_name (str "gpt-4o") sample_tool_mi
                  eq_refl)).
Defined.

Lemma main_mi_success_witness :
  ∃ st tr0 record,
    ManagedIdentity.main (with_platform (sample_world 200 201)) sample_args_mi
      (tt, sample_platform)
    = (st, tr0 ++ [print_json record], 0)
    ∧ json_field record (str "ai_foundry_agent_id") = Some (JStr (str "asst_abc"))
    ∧ json_field record (str "auth_type") = Some (JStr (str "ManagedIdentity")).
Proof.
  destruct (ManagedIdentity.main (with_platform (sample_world 200 201)) sample_args_mi
              (tt, sample_platform)) as [[st tr] status] eqn:H.
  assert (status = 0) as ->.
  { vm_compute in H. by injection H as _ _ <-. }
  destruct (main_mi_success _ _ _ _ _ H)
    as (s1 & tr0 & agent_id & record & Hreg & _ & -> & _ & Hid & _ & _ & Hauth & _).
  exists st, tr0, record. split_and!; [done | | done].
  rewrite Hid. vm_compute in Hreg. by injection Hreg as _ _ <-.
Defined.

Lemma main_mi_failure_witness :
  ManagedIdentity.main (scripted_world false None) sample_args_mi tt
  = (tt, [spec_path_exists], 1).
Proof.
  exact (proj1 (main_mi_failure (scripted_world false None) sample_args_mi tt tt
                  [spec_path_exists] FileNotFoundError eq_refl)).
Defined.

Lemma main_pat_blank_credential_witness :
  Pat.main sample_repr sample_request_exception (sample_world 200 201)
    (sample_args_pat (Some (str "   ")) false) tt
  = (tt, [], Err (ValueError (str "--databricks-pat cannot be empty when provided"))).
Proof.
  apply (main_pat_blank_credential sample_repr sample_request_exception
           (sample_world 200 201) (sample_args_pat (Some (str "   ")) false) tt
           (str "   ")); [reflexivity | discriminate | reflexivity].
Defined.

Lemma main_pat_token_creation_failure_witness :
  ∃ tr,
    Pat.main sample_repr sample_request_exception (sample_world 403 201)
      (sample_args_pat None false) tt
    = (tt, tr, Ok 1)
    ∧ Pat.main sample_repr sample_request_exception (sample_world 403 201)
        (sample_args_pat None true) tt
      = (tt, tr,
         Err (RuntimeError (str "Failed to create PAT: 403 - token endpoint says so"))).
Proof.
  eexists. split.
  - refine (main_pat_token_creation_failure sample_repr sample_request_exception
              (sample_world 403 201) (sample_args_pat None false) tt tt tt
              (str "aad-token") _ eq_refl eq_refl eq_refl _).
    simpl. lia.
  - refine (main_pat_token_creation_failure sample_repr sample_request_exception
              (sample_world 403 201) (sample_args_pat None true) tt tt tt
              (str "aad-token") _ eq_refl eq_refl eq_refl _).
    simpl. lia.
Defined.

Lemma registered_tool_mi_witness :
  ∃ st tr h0 spec h v,
    run (with_platform (sample_world 200 201))
      (ManagedIdentity.register_databricks_openapi_tool sample_endpoint new_url
         default_agent_name (str "gpt-4o")) (tt, sample_platform)
    = (st, tr, Ok (str "asst_abc"))
    ∧ json_load sample_document [] = (h0, Ok spec)
    ∧ ManagedIdentity.customize_openapi_spec_for_workspace spec new_url h0
      = (h, Ok v)
    ∧ Forall (carries_tool
                (OpenApiToolDefinition
                   {| fn_name := str "databricks_api";
                      fn_description := ManagedIdentity.tool_description;
                      fn_spec := (h, v);
                      fn_auth :=
                        OpenApiManagedAuthDetails
                          (str "2ff814a6-3304-4ab8-85cb-cd0e6f879c1d") |})) tr.
Proof.
  destruct (run (with_platform (sample_world 200 201))
              (ManagedIdentity.register_databricks_openapi_tool sample_endpoint
                 new_url default_agent_name (str "gpt-4o")) (tt, sample_platform))
    as [[st tr] [aid|e]] eqn:H; [|by vm_compute in H].
  destruct (registered_tool_mi _ _ _ _ _ _ _ _ _ H)
    as ([u1 P1] & s2 & doc & h0 & spec & h & v & tr_agents
        & _ & Hread & Hjson & Hcust & _ & _ & Htool & _).
  cbn [respond with_platform sample_world] in Hread. injection Hread as _ <-.
  exists st, tr, h0, spec, h, v. split_and!; [|done..].
  f_equal. vm_compute in H. by injection H as _ _ <-.
Defined.

Lemma registered_tool_pat_witness :
  ∃ st tr h0 spec h v,
    run (with_platform (sample_world 200 201))
      (Pat.register_databricks_openapi_tool sample_repr sample_endpoint new_url
         (str "databricks-pat-connection") default_agent_name (str "gpt-4o")
         (str "sub") (str "rg") (str "acct") (str "proj") (Some (str "abc123")) 90
         (str "AI Foundry Agent")) (tt, sample_platform)
    = (st, tr, Ok (str "asst_abc"))
    ∧ json_load sample_document [] = (h0, Ok spec)
    ∧ Pat.customize_openapi_spec_for_workspace spec new_url h0 = (h, Ok v)
    ∧ requires_bearer_only h v
    ∧ Forall (carries_tool
                (OpenApiToolDefinition
                   {| fn_name := str "databricks_api";
                      fn_description := Pat.tool_description;
                      fn_spec := (h, v);
                      fn_auth :=
                        OpenApiConnectionAuthDetails
                          (str "/subscriptions/sub/resourceGroups/rg/providers/Microsoft.CognitiveServices/accounts/acct/projects/proj/connections/databricks-pat-connection") |})) tr.
Proof.
  destruct (run (with_platform (sample_world 200 201))
              (Pat.register_databricks_openapi_tool sample_repr sample_endpoint
                 new_url (str "databricks-pat-connection") default_agent_name
                 (str "gpt-4o") (str "sub") (str "rg") (str "acct") (str "proj")
                 (Some (str "abc123")) 90 (str "AI Foundry Agent"))
              (tt, sample_platform))
    as [[st tr] [aid|e]] eqn:H; [|by vm_compute in H].
  destruct (registered_tool_pat _ _ _ _ _ _ _ _ _ _ _ _ _ _ _ _ _ _ H)
    as (sa & tra & tok & src & sb & trb & [u1 P1] & s2 & doc & h0 & spec & h & v
        & s3 & tr_agents & agent
        & _ & _ & _ & Hread & Hjson & Hcust & Hreq & _ & _ & _ & _ & Htool & _).
  cbn [respond with_platform sample_world] in Hread. injection Hread as _ <-.
  exists st, tr, h0, spec, h, v. split_and!; [|done..].
  f_equal. vm_compute in H. by injection H as _ _ <-.
Defined.
